(** * Request translators for the Codex backend

    A shallow embedding of the two request translators

    - [internal/translator/codex/openai/chat-completions/codex_openai_request.go]
    - [internal/translator/codex/openai/responses/codex_openai-responses_request.go]

    together with the identifier shorteners they share.  Go strings are byte
    strings, so [string] (a list of 8-bit characters) with [String.length] is
    [len]; Go maps are [gmap]s, the set [map[string]struct{}] is a [gset]. *)

From Stdlib Require Import ZArith NArith Ascii String List Lia Bool.
From Stdlib Require Import DecimalString DecimalFacts DecimalN.
From stdpp Require Import gmap strings list fin_maps.

Local Open Scope string_scope.
Local Open Scope list_scope.

(** ** Go string primitives *)

Module gostr.

(** [s[:n]] (the callers only slice within bounds). *)
Fixpoint slice_to (n : nat) (s : string) : string :=
  match n, s with
  | S n', String c s' => String c (slice_to n' s')
  | _, _ => ""
  end.

(** [s[n:]]. *)
Fixpoint slice_from (n : nat) (s : string) : string :=
  match n, s with
  | S n', String _ s' => slice_from n' s'
  | _, _ => s
  end.

(** [strings.HasPrefix(s, prefix)]. *)
Fixpoint HasPrefix (s prefix : string) {struct prefix} : bool :=
  match prefix, s with
  | "", _ => true
  | String a prefix', String b s' => Ascii.eqb a b && HasPrefix s' prefix'
  | _, _ => false
  end.

(** Offset of the last occurrence of [sep] in [s], if any. *)
Fixpoint last_index (s sep : string) : option nat :=
  match s with
  | "" => if HasPrefix "" sep then Some 0 else None
  | String _ s' =>
      match last_index s' sep with
      | Some i => Some (S i)
      | None => if HasPrefix s sep then Some 0 else None
      end
  end.

(** [strings.LastIndex(s, sep)]: an [int], [-1] when [sep] is absent. *)
Definition LastIndex (s sep : string) : Z :=
  match last_index s sep with
  | Some i => Z.of_nat i
  | None => (-1)%Z
  end.

(** [strconv.Itoa(i)] for the non-negative counters of this code. *)
Definition Itoa (i : nat) : string :=
  NilZero.string_of_uint (N.to_uint (N.of_nat i)).

End gostr.

Import gostr.

(** ** Tool-name shortening (chat-completions package) *)

Definition limit : nat := 64.

(** [shortenNameIfNeeded]. *)
Definition shortenNameIfNeeded (name : string) : string :=
  if (String.length name <=? limit)%nat then name
  else
    if HasPrefix name "mcp__" then
      let idx := LastIndex name "__" in
      if (0 <? idx)%Z then
        let candidate := "mcp__" +:+ slice_from (Z.to_nat (idx + 2)) name in
        if (limit <? String.length candidate)%nat then slice_to limit candidate
        else candidate
      else slice_to limit name
    else slice_to limit name.

(** The closure [baseCandidate] of [buildShortNameMap]. *)
Definition baseCandidate (n : string) : string :=
  if (String.length n <=? limit)%nat then n
  else
    if HasPrefix n "mcp__" then
      let idx := LastIndex n "__" in
      if (0 <? idx)%Z then
        let cand := "mcp__" +:+ slice_from (Z.to_nat (idx + 2)) n in
        let cand := if (limit <? String.length cand)%nat then slice_to limit cand
                    else cand in
        cand
      else slice_to limit n
    else slice_to limit n.

(** The candidate tried at round [i] of the loop in [makeUnique]. *)
Definition suffixed (base : string) (i : nat) : string :=
  let suffix := "_" +:+ Itoa i in
  let allowed := limit - String.length suffix in
  let tmp := base in
  let tmp := if (allowed <? String.length tmp)%nat then slice_to allowed tmp
             else tmp in
  tmp +:+ suffix.

(** The loop [for i := 1; ; i++] of [makeUnique], run for at most [fuel]
    rounds starting at round [i]. *)
Fixpoint makeUnique_loop (fuel : nat) (used : gset string) (base : string)
    (i : nat) : option string :=
  match fuel with
  | O => None
  | S fuel' =>
      let tmp := suffixed base i in
      if decide (tmp ∈ used) then makeUnique_loop fuel' used base (S i)
      else Some tmp
  end.

(** The closure [makeUnique].  The loop never needs more than
    [size used + 1] rounds ([makeUnique_loop_returns] below), so the
    fall-through branch is never taken. *)
Definition makeUnique (used : gset string) (cand : string) : string :=
  if decide (cand ∈ used) then
    match makeUnique_loop (S (size used)) used cand 1 with
    | Some tmp => tmp
    | None => cand
    end
  else cand.

(** The body of [for _, n := range names] in [buildShortNameMap], on the
    pair of maps [(used, m)]. *)
Definition buildShortNameMap_step (st : gset string * gmap string string)
    (n : string) : gset string * gmap string string :=
  let '(used, m) := st in
  let cand := baseCandidate n in
  let uniq := makeUnique used cand in
  ({[uniq]} ∪ used, <[n := uniq]> m).

Definition buildShortNameMap_loop (names : list string)
    (st : gset string * gmap string string) :=
  fold_left buildShortNameMap_step names st.

(** [buildShortNameMap]. *)
Definition buildShortNameMap (names : list string) : gmap string string :=
  snd (buildShortNameMap_loop names (∅, ∅)).

(** The aliases in the order in which the loop assigns them. *)
Fixpoint aliases (used : gset string) (names : list string) : list string :=
  match names with
  | [] => []
  | n :: names' =>
      let uniq := makeUnique used (baseCandidate n) in
      uniq :: aliases ({[uniq]} ∪ used) names'
  end.

(** ** [crypto/sha256] and [encoding/hex]

    The two standard-library functions used by the call-identifier
    shortener: SHA-256 as in FIPS 180-4, on 32-bit words kept in [N] with
    the wrap-around written out, and lower-case hexadecimal encoding. *)

Module sha256.

Local Open Scope N_scope.

Definition mask32 : N := 0xffffffff.
Definition add32 (x y : N) : N := N.land (x + y) mask32.
Definition rotr (n x : N) : N :=
  N.land (N.lor (N.shiftr x n) (N.shiftl x (32 - n))) mask32.
Definition Ch (x y z : N) : N :=
  N.lxor (N.land x y) (N.land (N.lxor x mask32) z).
Definition Maj (x y z : N) : N :=
  N.lxor (N.lxor (N.land x y) (N.land x z)) (N.land y z).
Definition Sigma0 (x : N) := N.lxor (N.lxor (rotr 2 x) (rotr 13 x)) (rotr 22 x).
Definition Sigma1 (x : N) := N.lxor (N.lxor (rotr 6 x) (rotr 11 x)) (rotr 25 x).
Definition sigma0 (x : N) := N.lxor (N.lxor (rotr 7 x) (rotr 18 x)) (N.shiftr x 3).
Definition sigma1 (x : N) := N.lxor (N.lxor (rotr 17 x) (rotr 19 x)) (N.shiftr x 10).

(** The round constants and the initial chaining value are the first 32
    bits of the fractional parts of the cube roots of the first 64 primes
    and of the square roots of the first 8. *)
Definition is_prime (n : N) : bool :=
  (1 <? n) &&
  forallb (fun d => negb (n mod d =? 0))
          (map N.of_nat (seq 2 (N.to_nat n - 2))).

Definition primes : list N :=
  List.filter is_prime (map N.of_nat (seq 2 310)).

(** Integer cube root, one bit at a time from bit [bits - 1] down. *)
Fixpoint root3 (bits : nat) (n r : N) : N :=
  match bits with
  | O => r
  | S b =>
      let r' := r + 2 ^ N.of_nat b in
      root3 b n (if r' * r' * r' <=? n then r' else r)
  end.

Definition K : list N :=
  map (fun p => N.land (root3 40 (N.shiftl p 96) 0) mask32) primes.

(** The eight working variables, also the chaining value. *)
Record state := State { ha : N; hb : N; hc : N; hd : N;
                        he : N; hf : N; hg : N; hh : N }.

Definition init : state :=
  match map (fun p => N.land (N.sqrt (N.shiftl p 64)) mask32) (firstn 8 primes)
  with
  | [a; b; c; d; e; f; g; h] => State a b c d e f g h
  | _ => State 0 0 0 0 0 0 0 0
  end.

Definition bytes_of_string (s : string) : list N :=
  map N_of_ascii (list_ascii_of_string s).

(** Big-endian bytes of the low [8 * n] bits of [x]. *)
Fixpoint be_bytes (n : nat) (x : N) : list N :=
  match n with
  | O => []
  | S n' => N.land (N.shiftr x (8 * N.of_nat n')) 0xff :: be_bytes n' x
  end.

(** Message, the bit 1, zero bytes up to 56 modulo 64, the bit length. *)
Definition pad (msg : list N) : list N :=
  let len := N.of_nat (length msg) in
  let zeros := N.to_nat ((119 - len mod 64) mod 64) in
  msg ++ [0x80] ++ repeat 0 zeros ++ be_bytes 8 (8 * len).

Fixpoint words (fuel : nat) (bs : list N) : list N :=
  match fuel, bs with
  | S fuel', b0 :: b1 :: b2 :: b3 :: bs' =>
      (N.shiftl b0 24 + N.shiftl b1 16 + N.shiftl b2 8 + b3)
        :: words fuel' bs'
  | _, _ => []
  end.

(** The message schedule, most recent word first: [rev] of [W_0..W_t]. *)
Fixpoint schedule (n : nat) (wrev : list N) : list N :=
  match n with
  | O => wrev
  | S n' =>
      let w := add32 (add32 (sigma1 (nth 1 wrev 0)) (nth 6 wrev 0))
                     (add32 (sigma0 (nth 14 wrev 0)) (nth 15 wrev 0)) in
      schedule n' (w :: wrev)
  end.

Definition round (s : state) (kw : N * N) : state :=
  let '(k, w) := kw in
  let t1 := add32 (add32 (add32 (hh s) (Sigma1 (he s)))
                         (add32 (Ch (he s) (hf s) (hg s)) k)) w in
  let t2 := add32 (Sigma0 (ha s)) (Maj (ha s) (hb s) (hc s)) in
  State (add32 t1 t2) (ha s) (hb s) (hc s)
        (add32 (hd s) t1) (he s) (hf s) (hg s).

Definition compress (h : state) (block : list N) : state :=
  let w := rev (schedule 48 (rev block)) in
  let s := fold_left round (combine K w) h in
  State (add32 (ha h) (ha s)) (add32 (hb h) (hb s))
        (add32 (hc h) (hc s)) (add32 (hd h) (hd s))
        (add32 (he h) (he s)) (add32 (hf h) (hf s))
        (add32 (hg h) (hg s)) (add32 (hh h) (hh s)).

Fixpoint blocks (fuel : nat) (ws : list N) (h : state) : state :=
  match fuel, ws with
  | S fuel', _ :: _ => blocks fuel' (skipn 16 ws) (compress h (firstn 16 ws))
  | _, _ => h
  end.

(** [sha256.Sum256]: the 32-byte digest. *)
Definition Sum256 (data : string) : list N :=
  let bs := pad (bytes_of_string data) in
  let ws := words (length bs) bs in
  let h := blocks (length ws) ws init in
  be_bytes 4 (ha h) ++ be_bytes 4 (hb h) ++ be_bytes 4 (hc h)
    ++ be_bytes 4 (hd h) ++ be_bytes 4 (he h) ++ be_bytes 4 (hf h)
    ++ be_bytes 4 (hg h) ++ be_bytes 4 (hh h).

End sha256.

Module hex.

Definition hextable : string := "0123456789abcdef".

Definition digit (n : N) : ascii :=
  match String.get (N.to_nat n) hextable with
  | Some c => c
  | None => "0"%char
  end.

(** [hex.EncodeToString]: two digits per byte. *)
Fixpoint EncodeToString (src : list N) : string :=
  match src with
  | [] => ""
  | b :: src' =>
      String (digit (N.shiftr b 4))
        (String (digit (N.land b 0x0f)) (EncodeToString src'))
  end.

End hex.

(** ** Call-identifier shortening *)

(** [shortenCallID] of the chat-completions package. *)
Definition shortenCallID (id : string) : string :=
  if (String.length id <=? limit)%nat then id
  else
    let sum := sha256.Sum256 id in
    let hash := hex.EncodeToString sum in
    let prefix := "call_" in
    let available := limit - String.length prefix in
    let hash := if (available <? String.length hash)%nat
                then slice_to available hash else hash in
    prefix +:+ hash.


(** ** JSON documents

    The translators never look at the bytes of a request themselves: every
    access goes through [gjson] (read by path) and [sjson] (write by path).
    A document is therefore kept in parsed form, together with what the two
    libraries still see of its text:

    - an object is the list of its members in document order, since both
      libraries scan members from the left and a name may occur more than
      once;
    - a string is the byte string [Result.Str] holds;
    - a number keeps its numeral and carries the [float64] gjson reads it
      as;
    - an array or object of a request carries its own bytes ([src]), which
      is what [Result.String()] and [Result.Raw] give for it.  A container
      that the translators write themselves (a literal, or what sjson built
      or wrote into) has [None] there: its bytes are not followed, and no
      translator reads them. *)

(** The [float64] of a numeral ([Result.Num]), by the two texts Go prints
    for it: [strconv.FormatFloat(f, 'f', -1, 64)], and what [encoding/json]
    writes for it, which does not exist for an infinity.  The conversion
    from the numeral is not computed here; a document carries it. *)
Record float64 : Type := Float64 { FormatFloat : string; Marshal : option string }.

#[warnings="-register-all"]
Inductive json : Type :=
| JNull
| JFalse
| JTrue
| JNumber (raw : string) (num : float64)
| JString (s : string)
| JArray (src : option string) (elems : list json)
| JObject (src : option string) (members : list (string * json)).

(** A Go string that holds JSON text; [None] is the empty string. *)
Definition jtext : Type := option json.

Definition JBool (b : bool) : json := if b then JTrue else JFalse.

(** First member with the given name. *)
Fixpoint member (k : string) (ms : list (string * json)) : option json :=
  match ms with
  | [] => None
  | (k', v) :: ms' => if String.eqb k k' then Some v else member k ms'
  end.

(** Replace the value of the first member named [k]. *)
Fixpoint set_member (k : string) (v : json) (ms : list (string * json))
    : list (string * json) :=
  match ms with
  | [] => []
  | (k', v') :: ms' =>
      if String.eqb k k' then (k', v) :: ms'
      else (k', v') :: set_member k v ms'
  end.

(** Remove the first member named [k]. *)
Fixpoint del_member (k : string) (ms : list (string * json))
    : list (string * json) :=
  match ms with
  | [] => []
  | (k', v') :: ms' =>
      if String.eqb k k' then ms' else (k', v') :: del_member k ms'
  end.

(** Path components: the text between the dots. *)
Fixpoint parts (path : string) : list string :=
  match path with
  | "" => [""]
  | String c rest =>
      if Ascii.eqb c "." then "" :: parts rest
      else match parts rest with
           | p :: ps => String c p :: ps
           | [] => [String c ""]
           end
  end.

Definition is_digit (c : ascii) : bool :=
  (48 <=? nat_of_ascii c)%nat && (nat_of_ascii c <=? 57)%nat.

Fixpoint all_digits (s : string) : bool :=
  match s with
  | "" => true
  | String c s' => is_digit c && all_digits s'
  end.

(** Decimal value of a string of digits. *)
Definition digits_value (s : string) : option nat :=
  if all_digits s then
    match NilEmpty.uint_of_string s with
    | Some d => Some (N.to_nat (N.of_uint d))
    | None => None
    end
  else None.

(** Go values of type [interface{}], as [Result.Value()] returns them and
    [sjson.Set] takes them.  A [map[string]interface{}] is given by its
    entries in the order of their keys, which is the order [encoding/json]
    writes them in; a [[]string] is a slice of strings. *)
#[warnings="-register-all"]
Inductive goval : Type :=
| GoNil
| GoBool (b : bool)
| GoString (s : string)
| GoFloat (f : float64)
| GoSlice (l : list goval)
| GoMap (m : list (string * goval)).

(** ** UTF-8 as [encoding/json] writes strings

    [encoding/json] writes a string rune by rune and puts U+FFFD in the
    place of every byte at which [utf8.DecodeRuneInString] reports an
    encoding error; sjson hands every string with a byte outside
    printable ASCII to it. *)

Module utf8.

(** For a leading byte from [0xC2] on: the length of the encoding and the
    range its second byte must lie in ([first] and [acceptRanges] of
    [unicode/utf8]). *)
Definition first (b : nat) : option (nat * nat * nat) :=
  if (b <? 194)%nat then None
  else if (b <=? 223)%nat then Some (2, 128, 191)
  else if (b =? 224)%nat then Some (3, 160, 191)
  else if (b =? 237)%nat then Some (3, 128, 159)
  else if (b <=? 239)%nat then Some (3, 128, 191)
  else if (b =? 240)%nat then Some (4, 144, 191)
  else if (b <=? 243)%nat then Some (4, 128, 191)
  else if (b =? 244)%nat then Some (4, 128, 143)
  else None.

Definition between (lo hi : nat) (c : ascii) : bool :=
  (lo <=? nat_of_ascii c)%nat && (nat_of_ascii c <=? hi)%nat.

(** A continuation byte. *)
Definition cont (c : ascii) : bool := between 128 191 c.

(** The encoding of [utf8.RuneError], U+FFFD. *)
Definition RuneError : string :=
  String (ascii_of_nat 239) (String (ascii_of_nat 191)
    (String (ascii_of_nat 189) "")).

(** The string with U+FFFD for every byte that does not start a valid
    encoding. *)
Fixpoint coerce (s : string) : string :=
  match s with
  | "" => ""
  | String b0 s1 =>
      if (nat_of_ascii b0 <? 128)%nat then String b0 (coerce s1)
      else
        match first (nat_of_ascii b0), s1 with
        | Some (size, lo, hi), String b1 s2 =>
            if between lo hi b1 then
              if (size =? 2)%nat then String b0 (String b1 (coerce s2))
              else
                match s2 with
                | String b2 s3 =>
                    if cont b2 then
                      if (size =? 3)%nat
                      then String b0 (String b1 (String b2 (coerce s3)))
                      else
                        match s3 with
                        | String b3 s4 =>
                            if cont b3
                            then String b0 (String b1 (String b2
                                   (String b3 (coerce s4))))
                            else RuneError +:+ coerce s1
                        | "" => RuneError +:+ coerce s1
                        end
                    else RuneError +:+ coerce s1
                | "" => RuneError +:+ coerce s1
                end
            else RuneError +:+ coerce s1
        | _, _ => RuneError +:+ coerce s1
        end
  end.

End utf8.

Module gjson.

(** A [gjson.Result]: [None] is the result that does not exist. *)
Definition Result : Type := option json.

Definition Exists (r : Result) : bool :=
  match r with Some _ => true | None => false end.

Definition IsArray (r : Result) : bool :=
  match r with Some (JArray _ _) => true | _ => false end.

Definition IsObject (r : Result) : bool :=
  match r with Some (JObject _ _) => true | _ => false end.

(** [r.Type == gjson.String]. *)
Definition IsString (r : Result) : bool :=
  match r with Some (JString _) => true | _ => false end.

(** [r.Array()]. *)
Definition Array (r : Result) : list json :=
  match r with
  | Some (JArray _ l) => l
  | Some JNull | None => []
  | Some j => [j]
  end.

(** The test [r.String()] makes on the numeral of a number: an optional
    minus sign, then digits only. *)
Definition integer_literal (raw : string) : bool :=
  match raw with
  | "" => false
  | String c rest => if Ascii.eqb c "-" then all_digits rest else all_digits raw
  end.

(** [r.String()]. *)
Definition String_ (r : Result) : string :=
  match r with
  | None | Some JNull => ""
  | Some JFalse => "false"
  | Some JTrue => "true"
  | Some (JNumber raw num) =>
      if integer_literal raw then raw else FormatFloat num
  | Some (JString s) => s
  | Some (JArray src _) | Some (JObject src _) => default "" src
  end.

(** [parseUint]: a non-empty string of digits. *)
Definition parseUint (s : string) : option nat :=
  match s with
  | "" => None
  | _ => digits_value s
  end.

(** One step of a path taken alone: the first member with that name in an
    object, the element with that index in an array. *)
Definition child (k : string) (j : json) : Result :=
  match j with
  | JObject _ ms => member k ms
  | JArray _ l =>
      match parseUint k with
      | Some n => l !! n
      | None => None
      end
  | _ => None
  end.

(** [parseObject]: the members are scanned from the left; a member named
    [k] ends the scan when [f], the rest of the path, finds something in
    its value, and the scan goes on to the later members otherwise. *)
Fixpoint first_hit (f : json -> Result) (k : string)
    (ms : list (string * json)) : Result :=
  match ms with
  | [] => None
  | (k', v) :: ms' =>
      if String.eqb k k' then
        match f v with
        | Some r => Some r
        | None => first_hit f k ms'
        end
      else first_hit f k ms'
  end.

(** [parseArray]: the rest of the path in the element with index [n]. *)
Fixpoint at_index (f : json -> Result) (l : list json) (n : nat) : Result :=
  match l, n with
  | [], _ => None
  | v :: _, O => f v
  | _ :: l', S n' => at_index f l' n'
  end.

(** Descent along the components of a path. *)
Fixpoint get_path (j : json) (p : list string) {struct j} : Result :=
  match p with
  | [] => Some j
  | k :: p' =>
      match j with
      | JObject _ ms => first_hit (fun v => get_path v p') k ms
      | JArray _ l =>
          match parseUint k with
          | Some n => at_index (fun v => get_path v p') l n
          | None => None
          end
      | _ => None
      end
  end.

(** [gjson.Get(json, path)] and [result.Get(path)] on an existing
    result. *)
Definition Get (j : json) (path : string) : Result :=
  get_path j (parts path).

(** [result.Get(path)], and [gjson.Get(text, path)] on a text that may be
    empty. *)
Definition GetR (r : Result) (path : string) : Result :=
  match r with
  | Some j => Get j path
  | None => None
  end.

(** Insertion into a list of entries sorted by key. *)
Fixpoint insert_sorted {A : Type} (k : string) (v : A) (m : list (string * A))
    : list (string * A) :=
  match m with
  | [] => [(k, v)]
  | (k', v') :: m' =>
      match String.compare k k' with
      | Lt => (k, v) :: m
      | Eq => (k, v) :: m'
      | Gt => (k', v') :: insert_sorted k v m'
      end
  end.

Definition has_key {A : Type} (k : string) (m : list (string * A)) : bool :=
  existsb (fun kv => String.eqb k (fst kv)) m.

(** [r.Value()] of an existing result.  The members of an object go into
    a Go map under their names, a name that is already there keeping the
    value it has. *)
Fixpoint Value (j : json) : goval :=
  match j with
  | JNull => GoNil
  | JFalse => GoBool false
  | JTrue => GoBool true
  | JNumber _ num => GoFloat num
  | JString s => GoString s
  | JArray _ l => GoSlice (map Value l)
  | JObject _ ms =>
      GoMap (fold_left
               (fun m kv => if has_key (fst kv) m then m
                            else insert_sorted (fst kv) (Value (snd kv)) m)
               ms [])
  end.

End gjson.

Module sjson.

(** [atoui]: the value of a string of digits. *)
Definition atoui (s : string) : option nat := digits_value s.

(** All results of [f] on the elements of [l], if there is one for each. *)
Fixpoint all_some {A B : Type} (f : A -> option B) (l : list A)
    : option (list B) :=
  match l with
  | [] => Some []
  | x :: l' =>
      match f x, all_some f l' with
      | Some y, Some ys => Some (y :: ys)
      | _, _ => None
      end
  end.

(** [json.Marshal(value)]: [None] is the error for a value that holds an
    infinity. *)
Fixpoint marshal (v : goval) : option json :=
  match v with
  | GoNil => Some JNull
  | GoBool b => Some (JBool b)
  | GoString s => Some (JString (utf8.coerce s))
  | GoFloat f =>
      match Marshal f with
      | Some numeral => Some (JNumber numeral f)
      | None => None
      end
  | GoSlice l => JArray None <$> all_some marshal l
  | GoMap m =>
      JObject None
        <$> all_some (fun kv => match marshal (snd kv) with
                                | Some e => Some (utf8.coerce (fst kv), e)
                                | None => None
                                end) m
  end.

(** The text [sjson.Set] writes for a value, by the cases of its type
    switch. *)
Definition encode (v : goval) : option json :=
  match v with
  | GoString s => Some (JString (utf8.coerce s))
  | GoBool b => Some (JBool b)
  | GoFloat f => Some (JNumber (FormatFloat f) f)
  | _ => marshal v
  end.

(** [appendBuild]: the value created for a path that does not exist
    yet. *)
Fixpoint build (p : list string) (v : json) : json :=
  match p with
  | [] => v
  | k :: p' =>
      match atoui k with
      | Some n => JArray None (repeat JNull n ++ [build p' v])
      | None =>
          if String.eqb k "-1" then JArray None [build p' v]
          else JObject None [(k, build p' v)]
      end
  end.

(** Put [c] in the place [gjson.child k] reads. *)
Definition replace_child (k : string) (c : json) (j : json) : json :=
  match j with
  | JObject _ ms => JObject None (set_member k c ms)
  | JArray _ l =>
      match gjson.parseUint k with
      | Some n => JArray None (<[n := c]> l)
      | None => j
      end
  | _ => j
  end.

(** [appendRawPaths] without [del]: [None] is the error
    "cannot set array element for non-numeric key". *)
Fixpoint set_path (p : list string) (v : json) (j : json) : option json :=
  match p with
  | [] => Some v
  | k :: p' =>
      match gjson.child k j with
      | Some c =>
          match set_path p' v c with
          | Some c' => Some (replace_child k c' j)
          | None => None
          end
      | None =>
          match j with
          | JObject _ ms => Some (JObject None (ms ++ [(k, build p' v)]))
          | JArray _ l =>
              match atoui k with
              | Some n =>
                  Some (JArray None (l ++ repeat JNull (n - length l)
                                       ++ [build p' v]))
              | None =>
                  if String.eqb k "-1"
                  then Some (JArray None (l ++ [build p' v]))
                  else None
              end
          | _ =>
              match atoui k with
              | Some n => Some (JArray None (repeat JNull n ++ [build p' v]))
              | None => Some (JObject None [(k, build p' v)])
              end
          end
      end
  end.

(** [set]: the text with [raw] at [path].  An empty text, like a text
    that is neither an object nor an array, is replaced by an empty
    container first; on an error the text is returned as it was. *)
Definition splice (t : jtext) (path : string) (raw : json) : jtext :=
  if String.eqb path "" then t
  else
    match set_path (parts path) raw (default JNull t) with
    | Some j => Some j
    | None => t
    end.

(** [x, _ = sjson.SetRaw(x, path, raw)].  An empty [raw] leaves a gap
    where a value should be; the translators can produce one only for the
    append of l. 319, after which gjson reads the array as before. *)
Definition SetRaw (t : jtext) (path : string) (raw : jtext) : jtext :=
  match raw with
  | Some r => splice t path r
  | None => t
  end.

(** [x, _ = sjson.Set(x, path, value)]: when [encoding/json] refuses the
    value, sjson returns the empty text. *)
Definition Set_ (t : jtext) (path : string) (value : goval) : jtext :=
  match encode value with
  | Some r => splice t path r
  | None => None
  end.

(** Remove what [gjson.child k] reads. *)
Definition remove_child (k : string) (j : json) : json :=
  match j with
  | JObject _ ms => JObject None (del_member k ms)
  | JArray _ l =>
      match gjson.parseUint k with
      | Some n => JArray None (firstn n l ++ skipn (S n) l)
      | None => j
      end
  | _ => j
  end.

(** [appendRawPaths] with [del]: [None] is [errNoChange]. *)
Fixpoint delete_path (p : list string) (j : json) : option json :=
  match p with
  | [] => None
  | k :: p' =>
      match gjson.child k j with
      | Some c =>
          match p' with
          | [] => Some (remove_child k j)
          | _ =>
              match delete_path p' c with
              | Some c' => Some (replace_child k c' j)
              | None => None
              end
          end
      | None => None
      end
  end.

(** [x, _ = sjson.Delete(x, path)]. *)
Definition Delete (t : jtext) (path : string) : jtext :=
  match t with
  | Some j =>
      match delete_path (parts path) j with
      | Some j' => Some j'
      | None => t
      end
  | None => None
  end.

End sjson.

(** What a write along a one-component path does to the members of an
    object: the first member of that name gets the value, or a new member
    is added at the end. *)
Definition put_member (k : string) (v : json) (ms : list (string * json))
    : list (string * json) :=
  match member k ms with
  | Some _ => set_member k v ms
  | None => ms ++ [(k, v)]
  end.

(** How many members of an object carry the name [k]. *)
Definition occurrences (k : string) (ms : list (string * json)) : nat :=
  count_occ String.string_dec ms.*1 k.

(** What a call-identifier cache holds during one conversion: shortened
    identifiers under their originals. *)
Definition cache_ok (cache : gmap string string) : Prop :=
  forall id short, cache !! id = Some short -> short = shortenCallID id.

(** The identifier both [normalizeCallID]s return, whatever their cache
    holds so far. *)
Definition norm_id (id : string) : string :=
  if String.eqb id "" || (String.length id <=? 64)%nat then id
  else shortenCallID id.

(** ** The Chat-Completions converter *)

Module chat_completions.

(** The closure [normalizeCallID] over the local [callIDMap]: the result
    and the map after the call. *)
Definition normalizeCallID (callIDMap : gmap string string) (id : string)
    : string * gmap string string :=
  if String.eqb id "" || (String.length id <=? 64)%nat then (id, callIDMap)
  else
    match callIDMap !! id with
    | Some short => (short, callIDMap)
    | None =>
        let short := shortenCallID id in
        (short, <[id := short]> callIDMap)
    end.

(** The names collected from the [function] tools, in order. *)
Definition collect_names (arr : list json) : list string :=
  flat_map
    (fun t =>
       if String.eqb (gjson.String_ (gjson.Get t "type")) "function" then
         match gjson.Get t "function" with
         | Some fn =>
             match gjson.Get fn "name" with
             | Some v => [gjson.String_ (Some v)]
             | None => []
             end
         | None => []
         end
       else [])
    arr.

(** [originalToolNameMap]. *)
Definition originalToolNameMap (rawJSON : json) : gmap string string :=
  let tools := gjson.Get rawJSON "tools" in
  if gjson.IsArray tools && (0 <? length (gjson.Array tools))%nat then
    let names := collect_names (gjson.Array tools) in
    if (0 <? length names)%nat then buildShortNameMap names else ∅
  else ∅.

(** [if short, ok := originalToolNameMap[name]; ok { name = short }
     else { name = shortenNameIfNeeded(name) }]. *)
Definition mapped_name (names : gmap string string) (name : string)
    : string :=
  match names !! name with
  | Some short => short
  | None => shortenNameIfNeeded name
  end.

(** [if v := r; v.Exists() { x, _ = sjson.Set(x, path, v.Value()) }]. *)
Definition copy_value (x : jtext) (path : string) (r : gjson.Result)
    : jtext :=
  match r with
  | Some v => sjson.Set_ x path (gjson.Value v)
  | None => x
  end.

(** [if v := r; v.Exists() { x, _ = sjson.SetRaw(x, path, v.Raw) }]. *)
Definition copy_raw (x : jtext) (path : string) (r : gjson.Result)
    : jtext :=
  match r with
  | Some v => sjson.SetRaw x path (Some v)
  | None => x
  end.

(** The literal [`{}`] and [`[]`]. *)
Definition empty_object : jtext := Some (JObject None []).
Definition empty_array : jtext := Some (JArray None []).

(** [case "tool"]: the [function_call_output] object. *)
Definition tool_output (toolCallID content : string) : jtext :=
  let funcOutput := empty_object in
  let funcOutput := sjson.Set_ funcOutput "type" (GoString "function_call_output") in
  let funcOutput := sjson.Set_ funcOutput "call_id" (GoString toolCallID) in
  let funcOutput := sjson.Set_ funcOutput "output" (GoString content) in
  funcOutput.

Definition text_part (role text : string) : jtext :=
  let partType := if String.eqb role "assistant" then "output_text"
                  else "input_text" in
  let part := empty_object in
  let part := sjson.Set_ part "type" (GoString partType) in
  let part := sjson.Set_ part "text" (GoString text) in
  part.

(** The body of [for j := 0; j < len(items); j++] over a content array. *)
Definition content_item (role : string) (msg : jtext) (it : json) : jtext :=
  let t := gjson.String_ (gjson.Get it "type") in
  if String.eqb t "text" then
    sjson.SetRaw msg "content.-1"
      (text_part role (gjson.String_ (gjson.Get it "text")))
  else if String.eqb t "image_url" then
    if String.eqb role "user" then
      let part := empty_object in
      let part := sjson.Set_ part "type" (GoString "input_image") in
      let part :=
        match gjson.Get it "image_url.url" with
        | Some u => sjson.Set_ part "image_url" (GoString (gjson.String_ (Some u)))
        | None => part
        end in
      sjson.SetRaw msg "content.-1" part
    else msg
  else msg.

(** [default]: the [message] object of a message that is not a tool
    response. *)
Definition message_item (role : string) (m : json) : jtext :=
  let msg := empty_object in
  let msg := sjson.Set_ msg "type" (GoString "message") in
  let msg := if String.eqb role "system"
             then sjson.Set_ msg "role" (GoString "developer")
             else sjson.Set_ msg "role" (GoString role) in
  let msg := sjson.SetRaw msg "content" empty_array in
  let c := gjson.Get m "content" in
  if gjson.Exists c && gjson.IsString c
     && negb (String.eqb (gjson.String_ c) "") then
    sjson.SetRaw msg "content.-1" (text_part role (gjson.String_ c))
  else if gjson.Exists c && gjson.IsArray c then
    fold_left (content_item role) (gjson.Array c) msg
  else msg.

(** The [function_call] object of one tool call, given its normalized
    call identifier. *)
Definition function_call (names : gmap string string) (callID : string)
    (tc : json) : jtext :=
  let funcCall := empty_object in
  let funcCall := sjson.Set_ funcCall "type" (GoString "function_call") in
  let funcCall := sjson.Set_ funcCall "call_id" (GoString callID) in
  let name := gjson.String_ (gjson.Get tc "function.name") in
  let name := mapped_name names name in
  let funcCall := sjson.Set_ funcCall "name" (GoString name) in
  let funcCall := sjson.Set_ funcCall "arguments"
                    (GoString (gjson.String_ (gjson.Get tc "function.arguments"))) in
  funcCall.

(** The state of the message loop: [out] and [callIDMap]. *)
Definition loop_state : Type := jtext * gmap string string.

(** The body of [for j := 0; j < len(toolCallsArr); j++]. *)
Definition tool_call_step (names : gmap string string) (st : loop_state)
    (tc : json) : loop_state :=
  let '(out, callIDMap) := st in
  if String.eqb (gjson.String_ (gjson.Get tc "type")) "function" then
    let '(callID, callIDMap) :=
      normalizeCallID callIDMap (gjson.String_ (gjson.Get tc "id")) in
    (sjson.SetRaw out "input.-1" (function_call names callID tc), callIDMap)
  else (out, callIDMap).

(** The body of [for i := 0; i < len(arr); i++] over the messages. *)
Definition message_step (names : gmap string string) (st : loop_state)
    (m : json) : loop_state :=
  let '(out, callIDMap) := st in
  let role := gjson.String_ (gjson.Get m "role") in
  if String.eqb role "tool" then
    let '(toolCallID, callIDMap) :=
      normalizeCallID callIDMap (gjson.String_ (gjson.Get m "tool_call_id")) in
    let content := gjson.String_ (gjson.Get m "content") in
    (sjson.SetRaw out "input.-1" (tool_output toolCallID content), callIDMap)
  else
    let out := sjson.SetRaw out "input.-1" (message_item role m) in
    if String.eqb role "assistant" then
      let toolCalls := gjson.Get m "tool_calls" in
      if gjson.Exists toolCalls && gjson.IsArray toolCalls then
        fold_left (tool_call_step names) (gjson.Array toolCalls)
                  (out, callIDMap)
      else (out, callIDMap)
    else (out, callIDMap).

(** "Build input from messages" (ll. 126-233). *)
Definition build_input (names : gmap string string) (rawJSON : json)
    (out : jtext) : jtext :=
  let messages := gjson.Get rawJSON "messages" in
  let out := sjson.SetRaw out "input" empty_array in
  if gjson.IsArray messages then
    fst (fold_left (message_step names) (gjson.Array messages) (out, ∅))
  else out.

(** "Map response_format and text settings to Responses API
    text.format" (ll. 235-278). *)
Definition map_response_format (rawJSON : json) (out : jtext) : jtext :=
  let rf := gjson.Get rawJSON "response_format" in
  let text := gjson.Get rawJSON "text" in
  if gjson.Exists rf then
    let out := if negb (gjson.Exists (gjson.GetR out "text"))
               then sjson.SetRaw out "text" empty_object else out in
    let rft := gjson.String_ (gjson.GetR rf "type") in
    let out :=
      if String.eqb rft "text" then
        sjson.Set_ out "text.format.type" (GoString "text")
      else if String.eqb rft "json_schema" then
        match gjson.GetR rf "json_schema" with
        | Some js =>
            let out := sjson.Set_ out "text.format.type" (GoString "json_schema") in
            let out := copy_value out "text.format.name" (gjson.Get js "name") in
            let out := copy_value out "text.format.strict" (gjson.Get js "strict") in
            let out := copy_raw out "text.format.schema" (gjson.Get js "schema") in
            out
        | None => out
        end
      else out in
    if gjson.Exists text then
      copy_value out "text.verbosity" (gjson.GetR text "verbosity")
    else out
  else if gjson.Exists text then
    match gjson.GetR text "verbosity" with
    | Some v =>
        let out := if negb (gjson.Exists (gjson.GetR out "text"))
                   then sjson.SetRaw out "text" empty_object else out in
        sjson.Set_ out "text.verbosity" (gjson.Value v)
    | None => out
    end
  else out.

(** The flattened object of a [function] tool. *)
Definition function_tool (names : gmap string string) (t : json) : jtext :=
  let item := empty_object in
  let item := sjson.Set_ item "type" (GoString "function") in
  match gjson.Get t "function" with
  | Some fn =>
      let item := match gjson.Get fn "name" with
                  | Some v =>
                      sjson.Set_ item "name"
                        (GoString (mapped_name names (gjson.String_ (Some v))))
                  | None => item
                  end in
      let item := copy_value item "description" (gjson.Get fn "description") in
      let item := copy_raw item "parameters" (gjson.Get fn "parameters") in
      let item := copy_value item "strict" (gjson.Get fn "strict") in
      item
  | None => item
  end.

(** The body of [for i := 0; i < len(arr); i++] over the tools. *)
Definition tool_step (names : gmap string string) (out : jtext) (t : json)
    : jtext :=
  let toolType := gjson.String_ (gjson.Get t "type") in
  if negb (String.eqb toolType "") && negb (String.eqb toolType "function")
     && gjson.IsObject (Some t) then
    sjson.SetRaw out "tools.-1" (Some t)
  else if String.eqb toolType "function" then
    sjson.SetRaw out "tools.-1" (function_tool names t)
  else out.

(** "Map tools (flatten function fields)" (ll. 280-322). *)
Definition map_tools (names : gmap string string) (rawJSON : json)
    (out : jtext) : jtext :=
  let tools := gjson.Get rawJSON "tools" in
  if gjson.IsArray tools && (0 <? length (gjson.Array tools))%nat then
    let out := sjson.SetRaw out "tools" empty_array in
    fold_left (tool_step names) (gjson.Array tools) out
  else out.

(** "Map tool_choice when present" (ll. 324-353). *)
Definition map_tool_choice (names : gmap string string) (rawJSON : json)
    (out : jtext) : jtext :=
  match gjson.Get rawJSON "tool_choice" with
  | Some tc =>
      if gjson.IsString (Some tc) then
        sjson.Set_ out "tool_choice" (GoString (gjson.String_ (Some tc)))
      else if gjson.IsObject (Some tc) then
        let tcType := gjson.String_ (gjson.Get tc "type") in
        if String.eqb tcType "function" then
          let name := gjson.String_ (gjson.Get tc "function.name") in
          let name := if negb (String.eqb name "")
                      then mapped_name names name else name in
          let choice := empty_object in
          let choice := sjson.Set_ choice "type" (GoString "function") in
          let choice := if negb (String.eqb name "")
                        then sjson.Set_ choice "name" (GoString name)
                        else choice in
          sjson.SetRaw out "tool_choice" choice
        else if negb (String.eqb tcType "") then
          sjson.SetRaw out "tool_choice" (Some tc)
        else out
      else out
  | None => out
  end.

(** The members written before the messages are looked at (ll. 34-69). *)
Definition preamble (modelName : string) (rawJSON : json) (stream : bool)
    : jtext :=
  let out : jtext := Some (JObject None [("instructions", JString "")]) in
  let out := sjson.Set_ out "stream" (GoBool stream) in
  let out := match gjson.Get rawJSON "reasoning_effort" with
             | Some v => sjson.Set_ out "reasoning.effort" (gjson.Value v)
             | None => sjson.Set_ out "reasoning.effort" (GoString "medium")
             end in
  let out := sjson.Set_ out "parallel_tool_calls" (GoBool true) in
  let out := sjson.Set_ out "reasoning.summary" (GoString "auto") in
  let out := sjson.Set_ out "include"
               (GoSlice [GoString "reasoning.encrypted_content"]) in
  let out := sjson.Set_ out "model" (GoString modelName) in
  out.

(** [ConvertOpenAIRequestToCodex]. *)
Definition ConvertOpenAIRequestToCodex (modelName : string)
    (inputRawJSON : json) (stream : bool) : jtext :=
  let rawJSON := inputRawJSON in
  let out := preamble modelName rawJSON stream in
  let names := originalToolNameMap rawJSON in
  let out := build_input names rawJSON out in
  let out := map_response_format rawJSON out in
  let out := map_tools names rawJSON out in
  let out := map_tool_choice names rawJSON out in
  let out := sjson.Set_ out "store" (GoBool false) in
  out.

(** *** The items each message contributes

    The loops above append to [out] and thread [callIDMap]; the functions
    below give, message by message, the items that end up in [input]. *)

(** What is read back from a string that sjson has written. *)
Definition written (s : string) : json := JString (utf8.coerce s).

(** The part of a text content. *)
Definition text_part_item (role text : string) : json :=
  JObject None
    [("type", JString (if String.eqb role "assistant" then "output_text"
                       else "input_text"));
     ("text", written text)].

(** The parts one element of a content array contributes. *)
Definition content_part (role : string) (it : json) : list json :=
  let t := gjson.String_ (gjson.Get it "type") in
  if String.eqb t "text" then
    [text_part_item role (gjson.String_ (gjson.Get it "text"))]
  else if String.eqb t "image_url" then
    if String.eqb role "user" then
      [match gjson.Get it "image_url.url" with
       | Some u => JObject None [("type", JString "input_image");
                                 ("image_url", written (gjson.String_ (Some u)))]
       | None => JObject None [("type", JString "input_image")]
       end]
    else []
  else [].

Definition content_parts (role : string) (m : json) : list json :=
  let c := gjson.Get m "content" in
  if gjson.Exists c && gjson.IsString c
     && negb (String.eqb (gjson.String_ c) "") then
    [text_part_item role (gjson.String_ c)]
  else if gjson.Exists c && gjson.IsArray c then
    flat_map (content_part role) (gjson.Array c)
  else [].

(** The [message] item of a message that is not a tool response. *)
Definition message_object (role : string) (m : json) : json :=
  JObject None
    [("type", JString "message");
     ("role", written (if String.eqb role "system" then "developer" else role));
     ("content", JArray None (content_parts role m))].

(** The [function_call] item of a tool call. *)
Definition function_call_object (names : gmap string string) (tc : json)
    : json :=
  JObject None
    [("type", JString "function_call");
     ("call_id", written (norm_id (gjson.String_ (gjson.Get tc "id"))));
     ("name", written (mapped_name names
                         (gjson.String_ (gjson.Get tc "function.name"))));
     ("arguments", written (gjson.String_ (gjson.Get tc "function.arguments")))].

(** The [function_call_output] item of a tool message. *)
Definition function_call_output_object (m : json) : json :=
  JObject None
    [("type", JString "function_call_output");
     ("call_id", written (norm_id (gjson.String_ (gjson.Get m "tool_call_id"))));
     ("output", written (gjson.String_ (gjson.Get m "content")))].

Definition is_function_call (tc : json) : bool :=
  String.eqb (gjson.String_ (gjson.Get tc "type")) "function".

(** The [function_call] items of the tool calls of a message. *)
Definition function_calls (names : gmap string string) (m : json)
    : list json :=
  let toolCalls := gjson.Get m "tool_calls" in
  if gjson.Exists toolCalls && gjson.IsArray toolCalls then
    map (function_call_object names)
        (List.filter is_function_call (gjson.Array toolCalls))
  else [].

Definition items_of_message (names : gmap string string) (m : json)
    : list json :=
  let role := gjson.String_ (gjson.Get m "role") in
  if String.eqb role "tool" then [function_call_output_object m]
  else
    message_object role m
      :: (if String.eqb role "assistant" then function_calls names m else []).

Definition input_items (names : gmap string string) (rawJSON : json)
    : list json :=
  let messages := gjson.Get rawJSON "messages" in
  if gjson.IsArray messages then
    flat_map (items_of_message names) (gjson.Array messages)
  else [].

(** Whether [sjson.Set] can write [r.Value()] for a result that is
    there. *)
Definition writable (r : gjson.Result) : bool :=
  match r with
  | Some v => bool_decide (is_Some (sjson.encode (gjson.Value v)))
  | None => true
  end.

(** Whether every value copied at ll. 253, 256, 267 or 276 can be
    written. *)
Definition writes_ok (rawJSON : json) : bool :=
  let rf := gjson.Get rawJSON "response_format" in
  let text := gjson.Get rawJSON "text" in
  if gjson.Exists rf then
    (if String.eqb (gjson.String_ (gjson.GetR rf "type")) "json_schema" then
       match gjson.GetR rf "json_schema" with
       | Some js => writable (gjson.Get js "name")
                    && writable (gjson.Get js "strict")
       | None => true
       end
     else true)
    && writable (gjson.GetR text "verbosity")
  else writable (gjson.GetR text "verbosity").

(** A member that is written only when its value is there. *)
Definition opt_member (k : string) (o : option json)
    : list (string * json) :=
  match o with
  | Some v => [(k, v)]
  | None => []
  end.

(** What [sjson.Set] writes for [r.Value()]. *)
Definition copied (r : gjson.Result) : option json :=
  r ≫= (fun v => sjson.encode (gjson.Value v)).

(** The [text.format] object written for a [json_schema] response
    format. *)
Definition schema_format (js : json) : json :=
  JObject None
    (("type", JString "json_schema")
       :: opt_member "name" (copied (gjson.Get js "name"))
       ++ opt_member "strict" (copied (gjson.Get js "strict"))
       ++ opt_member "schema" (gjson.Get js "schema")).

(** The [text] object written for a [json_schema] response format. *)
Definition schema_text (rawJSON js : json) : json :=
  JObject None
    (("format", schema_format js)
       :: opt_member "verbosity"
            (copied (gjson.GetR (gjson.Get rawJSON "text") "verbosity"))).

(** The entries one element of [tools] contributes to the output. *)
Definition tool_entries (names : gmap string string) (t : json) : list json :=
  let toolType := gjson.String_ (gjson.Get t "type") in
  if negb (String.eqb toolType "") && negb (String.eqb toolType "function")
     && gjson.IsObject (Some t) then [t]
  else if String.eqb toolType "function" then
    match function_tool names t with
    | Some item => [item]
    | None => []
    end
  else [].

End chat_completions.

(** ** The Responses normalizer *)

Module responses.

(** [normalizeCallID(id, cache)]: the result and the cache after the
    call; [None] is the [nil] map. *)
Definition normalizeCallID (id : string)
    (cache : option (gmap string string))
    : string * option (gmap string string) :=
  if String.eqb id "" || (String.length id <=? 64)%nat then (id, cache)
  else
    match cache ≫= (fun c => c !! id) with
    | Some short => (short, cache)
    | None =>
        let sum := sha256.Sum256 id in
        let hash := hex.EncodeToString sum in
        let prefix := "call_" in
        let available := 64 - String.length prefix in
        let hash := if (available <? String.length hash)%nat
                    then slice_to available hash else hash in
        let short := prefix +:+ hash in
        (short, (fun c => <[id := short]> c) <$> cache)
    end.

(** [fmt.Sprintf("input.%d.role", i)]. *)
Definition rolePath (i : nat) : string := "input." +:+ Itoa i +:+ ".role".

(** [fmt.Sprintf("input.%d.call_id", i)]. *)
Definition callIDPath (i : nat) : string :=
  "input." +:+ Itoa i +:+ ".call_id".

(** The body of [for i := 0; i < len(inputArray); i++]. *)
Definition role_step (result : jtext) (i : nat) : jtext :=
  if String.eqb (gjson.String_ (gjson.GetR result (rolePath i))) "system"
  then sjson.Set_ result (rolePath i) (GoString "developer")
  else result.

(** [convertSystemRoleToDeveloper]. *)
Definition convertSystemRoleToDeveloper (rawJSON : jtext) : jtext :=
  let inputResult := gjson.GetR rawJSON "input" in
  if negb (gjson.IsArray inputResult) then rawJSON
  else
    let inputArray := gjson.Array inputResult in
    let result := rawJSON in
    fold_left role_step (seq 0 (length inputArray)) result.

(** The body of [for i, item := range inputResult.Array()], on the pair
    [(result, callIDMap)]. *)
Definition callID_step (st : jtext * option (gmap string string))
    (ix : nat * json) : jtext * option (gmap string string) :=
  let '(result, callIDMap) := st in
  let '(i, item) := ix in
  let callID := gjson.String_ (gjson.Get item "call_id") in
  if String.eqb callID "" then (result, callIDMap)
  else
    let '(normalized, callIDMap) := normalizeCallID callID callIDMap in
    if String.eqb normalized callID then (result, callIDMap)
    else (sjson.Set_ result (callIDPath i) (GoString normalized), callIDMap).

(** [i, item] as [range] yields them. *)
Definition indexed (l : list json) : list (nat * json) :=
  combine (seq 0 (length l)) l.

(** [normalizeInputCallIDs]. *)
Definition normalizeInputCallIDs (rawJSON : jtext) : jtext :=
  let inputResult := gjson.GetR rawJSON "input" in
  if negb (gjson.IsArray inputResult) then rawJSON
  else
    let result := rawJSON in
    let callIDMap : option (gmap string string) := Some ∅ in
    fst (fold_left callID_step (indexed (gjson.Array inputResult))
                   (result, callIDMap)).

(** The one-message array a bare string [input] is wrapped into. *)
Definition wrapped_input_template : jtext :=
  Some (JArray None
          [JObject None
             [("type", JString "message"); ("role", JString "user");
              ("content",
               JArray None [JObject None [("type", JString "input_text");
                                          ("text", JString "")]])]]).

(** [ConvertOpenAIResponsesRequestToCodex]; neither the model name nor
    the flag is used. *)
Definition ConvertOpenAIResponsesRequestToCodex (modelName : string)
    (inputRawJSON : json) (_ : bool) : jtext :=
  let rawJSON : jtext := Some inputRawJSON in
  let inputResult := gjson.GetR rawJSON "input" in
  let rawJSON :=
    if gjson.IsString inputResult then
      let input := sjson.Set_ wrapped_input_template "0.content.0.text"
                     (GoString (gjson.String_ inputResult)) in
      sjson.SetRaw rawJSON "input" input
    else rawJSON in
  let rawJSON := sjson.Set_ rawJSON "stream" (GoBool true) in
  let rawJSON := sjson.Set_ rawJSON "store" (GoBool false) in
  let rawJSON := sjson.Set_ rawJSON "parallel_tool_calls" (GoBool true) in
  let rawJSON := sjson.Set_ rawJSON "include"
                   (GoSlice [GoString "reasoning.encrypted_content"]) in
  let rawJSON := sjson.Delete rawJSON "max_output_tokens" in
  let rawJSON := sjson.Delete rawJSON "max_completion_tokens" in
  let rawJSON := sjson.Delete rawJSON "temperature" in
  let rawJSON := sjson.Delete rawJSON "top_p" in
  let rawJSON := sjson.Delete rawJSON "service_tier" in
  let rawJSON := sjson.Delete rawJSON "user" in
  let rawJSON := convertSystemRoleToDeveloper rawJSON in
  let rawJSON := normalizeInputCallIDs rawJSON in
  rawJSON.

(** *** What the two loops do to one item of [input] *)

Definition fix_role (item : json) : json :=
  if String.eqb (gjson.String_ (gjson.Get item "role")) "system"
  then sjson.replace_child "role" (JString "developer") item
  else item.

Definition fix_call_id (item : json) : json :=
  let callID := gjson.String_ (gjson.Get item "call_id") in
  if String.eqb callID "" then item
  else if String.eqb (norm_id callID) callID then item
  else sjson.replace_child "call_id" (JString (utf8.coerce (norm_id callID)))
         item.

(** The four writes and the six deletions, on the members of a request
    object. *)
Definition forced (ms : list (string * json)) : list (string * json) :=
  put_member "include" (JArray None [JString "reasoning.encrypted_content"])
    (put_member "parallel_tool_calls" JTrue
       (put_member "store" JFalse (put_member "stream" JTrue ms))).

Definition deleted_names : list string :=
  ["max_output_tokens"; "max_completion_tokens"; "temperature"; "top_p";
   "service_tier"; "user"].

Definition stripped (ms : list (string * json)) : list (string * json) :=
  fold_left (fun ms k => del_member k ms) deleted_names ms.

(** The array a bare string [input] becomes. *)
Definition wrapped_input (s : string) : json :=
  JArray None
    [JObject None
       [("type", JString "message"); ("role", JString "user");
        ("content",
         JArray None [JObject None [("type", JString "input_text");
                                    ("text", JString (utf8.coerce s))]])]].

(** The names of the members the normalizer writes or removes. *)
Definition written_names : list string :=
  ["stream"; "store"; "parallel_tool_calls"; "include"; "input"].

End responses.

(** ** Auxiliary notions for the statements *)

(** A text that is empty or an object: what [out] is at every point of
    the converter. *)
Definition objish (t : jtext) : Prop :=
  match t with
  | None | Some (JObject _ _) => True
  | _ => False
  end.

(** A result that survives when [b] holds. *)
Definition keep (b : bool) (r : gjson.Result) : gjson.Result :=
  if b then r else None.

(** Whether [sjson.Set] has a text for the value. *)
Definition encodable (v : goval) : bool :=
  bool_decide (is_Some (sjson.encode v)).

(** A string of ASCII characters only. *)
Fixpoint is_ascii (s : string) : bool :=
  match s with
  | "" => true
  | String c s' => (nat_of_ascii c <? 128)%nat && is_ascii s'
  end.

(** A property of [out] that no write under the name [k0] destroys. *)
Definition preserved (k0 : string) (P : jtext -> Prop) : Prop :=
  forall t path raw,
    hd "" (parts path) = k0 -> P t -> P (sjson.splice t path raw).

(** An object, or the empty text, in which the name [k] occurs at most
    once. *)
Definition once (k : string) (t : jtext) : Prop :=
  match t with
  | None => True
  | Some (JObject _ ms) => occurrences k ms <= 1
  | _ => False
  end.

(** What the role loop of the normalizer leaves of an item of [input]:
    the call identifier as it is, and the item with its [system] role
    rewritten when the item has a role, or when [one] holds. *)
Definition role_kept (one : Prop) (it it' : json) : Prop :=
  gjson.child "call_id" it' = gjson.child "call_id" it /\
  (gjson.child "role" it <> None \/ one -> it' = responses.fix_role it).

(** An item of [input] that the two loops of the normalizer have nothing
    to do for: its role does not read [system], and its call identifier
    is as [normalizeCallID] returns it. *)
Definition settled (it : json) : Prop :=
  gjson.String_ (gjson.Get it "role") <> "system" /\
  norm_id (gjson.String_ (gjson.Get it "call_id"))
  = gjson.String_ (gjson.Get it "call_id").

(** ** Sample inputs *)

Module samples.

(** A name of exactly 64 characters. *)
Definition name64 : string :=
  "0123456789abcdef0123456789abcdef0123456789abcdef0123456789abcdef".

(** A name of 79 characters with a long namespace. *)
Definition mcp_long_pre : string :=
  "mcp__a_server_with_a_really_long_namespace_path_that_goes_on_and_on".

Definition mcp_long_name : string := mcp_long_pre +:+ "__read_file".

(** Two names of 70 characters that agree on their first 64, and the
    64 characters themselves. *)
Definition colliding_names : list string :=
  [name64 +:+ "_alpha"; name64 +:+ "_bravo"; name64].

(** *** Documents

    The sample documents are written without white space, unless their
    text is given with them, and their strings need no escape. *)

Definition dquote : ascii := ascii_of_nat 34.

Definition quote (s : string) : string :=
  String dquote (s +:+ String dquote "").

Definition join (sep : string) (l : list string) : string :=
  match l with
  | [] => ""
  | x :: l' => fold_left (fun acc y => acc +:+ sep +:+ y) l' x
  end.

(** The text of a sample; a container that comes with its text keeps
    it. *)
Fixpoint compact (j : json) : string :=
  match j with
  | JNull => "null"
  | JFalse => "false"
  | JTrue => "true"
  | JNumber raw _ => raw
  | JString s => quote s
  | JArray (Some src) _ | JObject (Some src) _ => src
  | JArray None l => "[" +:+ join "," (map compact l) +:+ "]"
  | JObject None ms =>
      "{" +:+ join "," (map (fun kv => quote (fst kv) +:+ ":" +:+ compact (snd kv)) ms)
          +:+ "}"
  end.

(** The sample as gjson reads it: every container with its text. *)
Fixpoint parsed (j : json) : json :=
  match j with
  | JArray _ l => JArray (Some (compact j)) (map parsed l)
  | JObject _ ms =>
      JObject (Some (compact j)) (map (fun kv => (fst kv, parsed (snd kv))) ms)
  | _ => j
  end.

Definition obj (ms : list (string * json)) : json := JObject None ms.
Definition arr (l : list json) : json := JArray None l.

(** A numeral that [float64] holds exactly and Go prints as it is
    written. *)
Definition number (numeral : string) : json :=
  JNumber numeral (Float64 numeral (Some numeral)).

(** [1e999], which is read as [+Inf]. *)
Definition huge : json := JNumber "1e999" (Float64 "+Inf" None).

(** A request that repeats the name [user]. *)
Definition repeated_user : json :=
  parsed (obj [("model", JString "gpt-5.2");
               ("user", JString "a"); ("user", JString "b");
               ("input", arr [obj [("role", JString "user");
                                   ("content", JString "Hello")]])]).

(** A request that repeats the name [input]: the first array holds an
    item without a role, the second a system message. *)
Definition repeated_input : json :=
  parsed (obj [("input", arr [obj [("type", JString "message")]]);
               ("input", arr [obj [("role", JString "system")]])]).

(** A request with a [user] field, a sampling parameter and a tool. *)
Definition plain_members : list (string * json) :=
  [("model", JString "gpt-5.2"); ("user", JString "test-user");
   ("temperature", number "0.2");
   ("tools", parsed (arr [obj [("type", JString "web_search")]]));
   ("input", parsed (arr [obj [("role", JString "system");
                               ("content", JString "Be terse.")];
                          obj [("role", JString "user");
                               ("content", JString "Hello")]]))].

Definition plain_request : json :=
  JObject (Some (compact (obj plain_members))) plain_members.

(** A request whose [input] is a bare string. *)
Definition string_members : list (string * json) :=
  [("model", JString "gpt-5.2"); ("input", JString "Say hi")].

(** An identifier of 80 characters. *)
Definition long_id : string :=
  "aaaaaaaaaaaaaaaaaaaaaaaaaaaaaaaaaaaaaaaaaaaaaaaaaaaaaaaaaaaaaaaaaaaaaaaaaaaaaaaa".

Definition sample_tool_call : json :=
  parsed (obj [("id", JString long_id); ("type", JString "function");
               ("function", obj [("name", JString "foo");
                                 ("arguments", JString "{}")])]).

Definition sample_assistant : json :=
  parsed (obj [("role", JString "assistant");
               ("tool_calls", arr [sample_tool_call])]).

(** A tool response whose content is an array, written with spaces. *)
Definition spaced_content : json :=
  JArray (Some ("[ " +:+ compact (obj [("type", JString "text");
                                       ("text", JString "42")]) +:+ " ]"))
         [parsed (obj [("type", JString "text"); ("text", JString "42")])].

Definition sample_tool_message : json :=
  parsed (obj [("role", JString "tool"); ("tool_call_id", JString long_id);
               ("content", spaced_content)]).

Definition sample_messages : list json :=
  [parsed (obj [("role", JString "system"); ("content", JString "Be terse.")]);
   parsed (obj [("role", JString "user"); ("content", JString "Hi")]);
   sample_assistant; sample_tool_message].

Definition sample_schema : json :=
  parsed (obj [("name", JString "N"); ("strict", JTrue);
               ("schema", obj [("type", JString "object")])]).

Definition sample_response_format : json :=
  parsed (obj [("type", JString "json_schema"); ("json_schema", sample_schema)]).

Definition sample_tools : list json :=
  [parsed (obj [("type", JString "function");
                ("function", obj [("name", JString "foo");
                                  ("parameters", obj [])])]);
   parsed (obj [("type", JString "web_search")]);
   parsed (obj [("name", JString "untyped")])].

(** A Chat-Completions request with a tool call, its response, tools and
    a structured output. *)
Definition chat_request : json :=
  parsed (obj [("messages", arr sample_messages);
               ("tools", arr sample_tools);
               ("response_format", sample_response_format)]).

(** A [json_schema] response format without the [json_schema] member. *)
Definition schema_without_body : json :=
  parsed (obj [("messages", arr []);
               ("response_format", obj [("type", JString "json_schema")])]).

(** A [json_schema] response format whose name is [[1e999]]. *)
Definition schema_with_huge_name : json :=
  parsed (obj [("messages", arr [obj [("role", JString "user");
                                      ("content", JString "Hi")]]);
               ("response_format",
                obj [("type", JString "json_schema");
                     ("json_schema", obj [("name", arr [huge]);
                                          ("schema", obj [])])])]).

(** A [json_schema] response format beside a verbosity of [[1e999]]. *)
Definition schema_with_huge_verbosity : json :=
  parsed (obj [("messages", arr [obj [("role", JString "user");
                                      ("content", JString "Hi")]]);
               ("response_format",
                obj [("type", JString "json_schema");
                     ("json_schema", obj [("name", JString "N")])]);
               ("text", obj [("verbosity", arr [huge])])]).

(** A message without a role. *)
Definition no_role_request : json :=
  parsed (obj [("messages", arr [obj [("content", JString "hi")]])]).

(** A Responses request with a call and its output. *)
Definition sample_items : list json :=
  [parsed (obj [("type", JString "function_call"); ("call_id", JString long_id);
                ("name", JString "foo"); ("arguments", JString "{}")]);
   parsed (obj [("type", JString "message"); ("role", JString "system")]);
   parsed (obj [("type", JString "function_call_output");
                ("call_id", JString long_id); ("output", JString "ok")])].

Definition responses_members : list (string * json) :=
  [("model", JString "gpt-5.2");
   ("input", parsed (arr sample_items))].

(** The request with these members, with its text. *)
Definition responses_request : json :=
  JObject (Some (compact (obj responses_members))) responses_members.

End samples.

Import samples.

(** * Properties *)

(** ** Go string primitives *)

#[local] Arguments String.append : simpl nomatch.

Section gostr_facts.

Lemma string_length_app (a b : string) :
  String.length (a +:+ b) = String.length a + String.length b.
Proof. induction a as [|c a IH]; simpl; [reflexivity | now rewrite IH]. Qed.

Lemma app_assoc_s (a b c : string) : (a +:+ b) +:+ c = a +:+ (b +:+ c).
Proof. induction a as [|x a IH]; simpl; [reflexivity | now rewrite IH]. Qed.

Lemma slice_to_length (n : nat) (s : string) :
  String.length (slice_to n s) = Nat.min n (String.length s).
Proof.
  revert s; induction n as [|n IH]; intros [|c s]; simpl; try reflexivity.
  now rewrite IH.
Qed.

Lemma slice_to_le (n : nat) (s : string) :
  String.length (slice_to n s) <= n.
Proof. rewrite slice_to_length. lia. Qed.

Lemma slice_to_all (n : nat) (s : string) :
  String.length s <= n -> slice_to n s = s.
Proof.
  revert s; induction n as [|n IH]; intros [|c s]; simpl; intros H;
    try reflexivity; try lia.
  f_equal. apply IH. lia.
Qed.

Lemma slice_from_app (a b : string) :
  slice_from (String.length a) (a +:+ b) = b.
Proof. induction a as [|c a IH]; simpl; [now destruct b | exact IH]. Qed.

Lemma slice_from_nil (n : nat) : slice_from n "" = "".
Proof. now destruct n. Qed.

Lemma prefix_nil (sep : string) :
  sep <> "" -> HasPrefix "" sep = false.
Proof. now destruct sep. Qed.

(** An occurrence found in a suffix is found in the whole string. *)
Lemma last_index_app (a s sep : string) (i : nat) :
  last_index s sep = Some i ->
  last_index (a +:+ s) sep = Some (String.length a + i).
Proof.
  intros H. induction a as [|c a IH]; [exact H |].
  simpl String.append. cbn [last_index]. now rewrite IH.
Qed.

End gostr_facts.

(** ** Name shortening: bound and identity on short names *)

Lemma baseCandidate_eq (n : string) : baseCandidate n = shortenNameIfNeeded n.
Proof.
  unfold baseCandidate, shortenNameIfNeeded.
  repeat match goal with |- context [if ?b then _ else _] => destruct b end;
    reflexivity.
Qed.

Lemma shortenNameIfNeeded_le (name : string) :
  String.length (shortenNameIfNeeded name) <= 64.
Proof.
  unfold shortenNameIfNeeded, limit.
  destruct (Nat.leb_spec (String.length name) 64) as [H|H]; [exact H|].
  destruct (HasPrefix name "mcp__"); [|apply slice_to_le].
  destruct (0 <? LastIndex name "__")%Z; [|apply slice_to_le].
  match goal with |- context [(64 <? ?n)%nat] =>
    destruct (Nat.ltb_spec 64 n) as [H'|H'] end;
    [apply slice_to_le | exact H'].
Qed.

Lemma shortenNameIfNeeded_short (name : string) :
  String.length name <= 64 -> shortenNameIfNeeded name = name.
Proof.
  intros H. unfold shortenNameIfNeeded, limit.
  destruct (Nat.leb_spec (String.length name) 64); [reflexivity | lia].
Qed.

(** C3: the single-name shortener returns at most 64 characters and
    returns a name of at most 64 characters (the empty name and a name of
    exactly 64 characters included) unchanged. *)
Theorem C3_shortenNameIfNeeded_bound (name : string) :
  String.length (shortenNameIfNeeded name) <= 64 /\
  (String.length name <= 64 -> shortenNameIfNeeded name = name).
Proof.
  split; [apply shortenNameIfNeeded_le | apply shortenNameIfNeeded_short].
Qed.

Lemma C3_witness :
  shortenNameIfNeeded "" = "" /\
  (String.length name64 = 64 /\ shortenNameIfNeeded name64 = name64).
Proof.
  split.
  - apply (proj2 (C3_shortenNameIfNeeded_bound "")). simpl. lia.
  - split; [reflexivity |].
    apply (proj2 (C3_shortenNameIfNeeded_bound name64)).
    unfold name64. simpl. lia.
Defined.

(** ** Name shortening: the [mcp__] rule *)

Lemma LastIndex_separator (pre suf : string) :
  LastIndex ("_" +:+ suf) "__" = (-1)%Z ->
  LastIndex (pre +:+ "__" +:+ suf) "__" = Z.of_nat (String.length pre).
Proof.
  unfold LastIndex. intros H.
  destruct (last_index ("_" +:+ suf) "__") as [i|] eqn:E; [lia |].
  rewrite (last_index_app pre _ _ 0).
  - now rewrite Nat.add_0_r.
  - change ("__" +:+ suf) with (String "_" ("_" +:+ suf)).
    cbn [last_index]. rewrite E. reflexivity.
Qed.

Lemma HasPrefix_nonempty (s p : string) :
  p <> "" -> HasPrefix s p = true -> s <> "".
Proof. intros Hp H ->. destruct p; [congruence | discriminate]. Qed.

(** C4: a name of more than 64 characters that begins with [mcp__] is cut at
    the last [__] (here the one between [pre] and [suf]: no further [__]
    begins after it): the result is [mcp__] followed by the segment after
    that separator, and this candidate is truncated to 64 characters only
    when it is itself longer than 64.  The closure [baseCandidate] of the
    pre-pass computes the same. *)
Theorem C4_mcp_last_segment (name pre suf : string) :
  name = pre +:+ "__" +:+ suf ->
  64 < String.length name ->
  HasPrefix name "mcp__" = true ->
  LastIndex ("_" +:+ suf) "__" = (-1)%Z ->
  let candidate := "mcp__" +:+ suf in
  shortenNameIfNeeded name =
    (if (64 <? String.length candidate)%nat then slice_to 64 candidate
     else candidate) /\
  baseCandidate name = shortenNameIfNeeded name.
Proof.
  intros Hname Hlen Hpre Hlast candidate.
  split; [| apply baseCandidate_eq].
  unfold shortenNameIfNeeded, limit.
  destruct (Nat.leb_spec (String.length name) 64) as [H|_]; [lia |].
  rewrite Hpre.
  assert (Hidx : LastIndex name "__" = Z.of_nat (String.length pre))
    by (rewrite Hname; now apply LastIndex_separator).
  rewrite Hidx.
  assert (Hpos : 0 < String.length pre).
  { destruct pre as [|c pre]; [| simpl; lia].
    rewrite Hname in Hpre. simpl in Hpre. discriminate. }
  destruct (Z.ltb_spec 0 (Z.of_nat (String.length pre))) as [_|H]; [| lia].
  replace (Z.to_nat (Z.of_nat (String.length pre) + 2))
    with (String.length (pre +:+ "__"))
    by (rewrite string_length_app; simpl; lia).
  rewrite Hname, <- app_assoc_s, slice_from_app.
  reflexivity.
Qed.

Lemma C4_witness :
  shortenNameIfNeeded mcp_long_name = "mcp__read_file".
Proof.
  apply (proj1 (C4_mcp_last_segment mcp_long_name mcp_long_pre "read_file"
                  eq_refl ltac:(simpl; lia) eq_refl eq_refl)).
Defined.

(** ** Decimal counters *)

Section Itoa_facts.

Lemma string_of_uint_digits (d : Decimal.uint) :
  all_digits (NilEmpty.string_of_uint d) = true.
Proof. induction d; simpl; auto. Qed.

Lemma string_of_uint_length (d : Decimal.uint) :
  String.length (NilEmpty.string_of_uint d) = Decimal.nb_digits d.
Proof. induction d; simpl; auto. Qed.

Lemma to_uint_nonnil (n : N) : N.to_uint n <> Decimal.Nil.
Proof.
  intros H. pose proof (DecimalN.Unsigned.of_to n) as E.
  rewrite H in E. simpl in E. subst n. discriminate H.
Qed.

Lemma Itoa_eq (i : nat) :
  Itoa i = NilEmpty.string_of_uint (N.to_uint (N.of_nat i)).
Proof.
  unfold Itoa, NilZero.string_of_uint.
  pose proof (to_uint_nonnil (N.of_nat i)).
  now destruct (N.to_uint (N.of_nat i)).
Qed.

Lemma Itoa_digits (i : nat) : all_digits (Itoa i) = true.
Proof. rewrite Itoa_eq. apply string_of_uint_digits. Qed.

Lemma Itoa_inj (i j : nat) : Itoa i = Itoa j -> i = j.
Proof.
  rewrite !Itoa_eq. intros H.
  apply (f_equal NilEmpty.uint_of_string) in H.
  rewrite !NilEmpty.usu in H. injection H as H.
  apply DecimalN.Unsigned.to_uint_inj in H. lia.
Qed.

Lemma digits_value_Itoa (i : nat) : digits_value (Itoa i) = Some i.
Proof.
  unfold digits_value. rewrite Itoa_digits, Itoa_eq, NilEmpty.usu.
  rewrite DecimalN.Unsigned.of_to. f_equal. lia.
Qed.

Lemma double_digits (d : Decimal.uint) :
  Decimal.nb_digits (Decimal.Little.double d) <= S (Decimal.nb_digits d) /\
  Decimal.nb_digits (Decimal.Little.succ_double d) <= S (Decimal.nb_digits d).
Proof. induction d; simpl; lia. Qed.

Lemma to_little_uint_digits (p : positive) :
  Decimal.nb_digits (Pos.to_little_uint p) <= Pos.size_nat p.
Proof.
  induction p as [p IH|p IH|]; simpl; [| | lia].
  - pose proof (proj2 (double_digits (Pos.to_little_uint p))). lia.
  - pose proof (proj1 (double_digits (Pos.to_little_uint p))). lia.
Qed.

Lemma size_nat_bound (p : positive) (k : nat) :
  (Z.pos p < 2 ^ Z.of_nat k)%Z -> Pos.size_nat p <= k.
Proof.
  revert k. induction p as [p IH|p IH|]; intros [|k] H; simpl;
    try (simpl in H; lia);
    rewrite Nat2Z.inj_succ, Z.pow_succ_r in H by lia;
    try (specialize (IH k); lia).
Qed.

(** A counter that fits a Go [int] has at most 63 digits. *)
Lemma Itoa_length (i : nat) :
  (Z.of_nat i < 2 ^ 63)%Z -> String.length (Itoa i) <= 63.
Proof.
  intros H. rewrite Itoa_eq, string_of_uint_length.
  destruct (N.of_nat i) as [|p] eqn:E; [simpl; lia |].
  simpl. unfold Pos.to_uint. rewrite DecimalFacts.nb_digits_rev.
  etransitivity; [apply to_little_uint_digits |].
  apply (size_nat_bound p 63). change (Z.of_nat 63) with 63%Z. lia.
Qed.

End Itoa_facts.

(** ** Uniqueness of the aliases *)

Section makeUnique_facts.

Lemma all_digits_underscore (x d : string) :
  all_digits (x +:+ String "_" d) = false.
Proof.
  induction x as [|c x IH]; simpl; [reflexivity |].
  rewrite IH. apply andb_false_r.
Qed.

(** The digits after the last underscore determine the counter. *)
Lemma underscore_digits_inj (x x' d d' : string) :
  all_digits d = true -> all_digits d' = true ->
  x +:+ String "_" d = x' +:+ String "_" d' -> d = d'.
Proof.
  intros Hd Hd'. revert x'.
  induction x as [|c x IH]; intros [|c' x'] H; simpl in H.
  - now injection H.
  - injection H as _ H. rewrite H, all_digits_underscore in Hd. discriminate.
  - injection H as _ H. rewrite <- H, all_digits_underscore in Hd'.
    discriminate.
  - injection H as _ H. now apply (IH x').
Qed.

#[local] Instance suffixed_inj (base : string) : Inj (=) (=) (suffixed base).
Proof.
  intros i j H. unfold suffixed in H. cbv zeta in H.
  apply Itoa_inj.
  change ("_" +:+ Itoa i) with (String "_" (Itoa i)) in H.
  change ("_" +:+ Itoa j) with (String "_" (Itoa j)) in H.
  eapply underscore_digits_inj; [apply Itoa_digits | apply Itoa_digits |].
  exact H.
Qed.

Lemma suffixed_length (base : string) (i : nat) :
  String.length (Itoa i) <= 63 -> String.length (suffixed base i) <= 64.
Proof.
  intros H. unfold suffixed, limit. cbv zeta.
  change ("_" +:+ Itoa i) with (String "_" (Itoa i)).
  rewrite string_length_app. simpl String.length.
  match goal with |- context [(?a <? ?b)%nat] =>
    destruct (Nat.ltb_spec a b) as [H'|H'] end.
  - rewrite slice_to_length. lia.
  - lia.
Qed.

(** Among [size used + 1] rounds one produces a fresh candidate. *)
Lemma some_round_fresh (used : gset string) (base : string) :
  exists k, 1 <= k <= S (size used) /\ suffixed base k ∉ used.
Proof.
  set (cands := suffixed base <$> seq 1 (S (size used))).
  destruct (decide (Forall (fun x => x ∈ used) cands)) as [HF|HF].
  - exfalso.
    assert (Hnd : NoDup cands)
      by (apply (NoDup_fmap_2 _), NoDup_seq).
    assert (Hsub : list_to_set (C := gset string) cands ⊆ used).
    { intros x Hx. apply elem_of_list_to_set in Hx.
      rewrite Forall_forall in HF. now apply HF. }
    apply subseteq_size in Hsub.
    rewrite size_list_to_set in Hsub by exact Hnd.
    unfold cands in Hsub. rewrite length_fmap, length_seq in Hsub. lia.
  - apply not_Forall_Exists in HF; [| intros x; apply _].
    apply Exists_exists in HF as (x & Hx & Hfresh).
    unfold cands in Hx. apply list_elem_of_fmap in Hx as (k & -> & Hk).
    apply elem_of_seq in Hk. exists k. split; [lia | exact Hfresh].
Qed.

Lemma makeUnique_loop_finds (used : gset string) (base : string)
    (fuel i k : nat) :
  i <= k < i + fuel -> suffixed base k ∉ used ->
  exists k', i <= k' <= k /\
    makeUnique_loop fuel used base i = Some (suffixed base k') /\
    suffixed base k' ∉ used.
Proof.
  revert i. induction fuel as [|fuel IH]; intros i Hk Hfresh; [lia |].
  simpl. destruct (decide (suffixed base i ∈ used)) as [Hin|Hout].
  - destruct (IH (S i)) as (k' & Hk' & Hrun & Hf).
    + assert (i <> k) by (intros ->; contradiction). lia.
    + exact Hfresh.
    + exists k'. split; [lia | now split].
  - exists i. split; [lia | now split].
Qed.

(** The loop of [makeUnique] returns. *)
Lemma makeUnique_loop_returns (used : gset string) (base : string) :
  exists k, 1 <= k <= S (size used) /\
    makeUnique_loop (S (size used)) used base 1 = Some (suffixed base k) /\
    suffixed base k ∉ used.
Proof.
  destruct (some_round_fresh used base) as (k & Hk & Hfresh).
  destruct (makeUnique_loop_finds used base (S (size used)) 1 k)
    as (k' & Hk' & Hrun & Hf); [lia | exact Hfresh |].
  exists k'. split; [lia | now split].
Qed.

Lemma makeUnique_spec (used : gset string) (cand : string) :
  (makeUnique used cand ∉ used) /\
  (makeUnique used cand = cand \/
   exists k, 1 <= k <= S (size used) /\
             makeUnique used cand = suffixed cand k).
Proof.
  unfold makeUnique. destruct (decide (cand ∈ used)) as [Hin|Hout].
  - destruct (makeUnique_loop_returns used cand) as (k & Hk & -> & Hf).
    split; [exact Hf | right; now exists k].
  - split; [exact Hout | now left].
Qed.

Lemma makeUnique_length (used : gset string) (cand : string) :
  String.length cand <= 64 ->
  (Z.of_nat (S (size used)) < 2 ^ 63)%Z ->
  String.length (makeUnique used cand) <= 64.
Proof.
  intros Hc Hsz.
  destruct (makeUnique_spec used cand) as [_ [-> | (k & Hk & ->)]];
    [exact Hc |].
  apply suffixed_length, Itoa_length. lia.
Qed.

End makeUnique_facts.

(** ** The pre-pass name map *)

Section buildShortNameMap_facts.

Lemma baseCandidate_le (n : string) : String.length (baseCandidate n) <= 64.
Proof. rewrite baseCandidate_eq. apply shortenNameIfNeeded_le. Qed.

Lemma buildShortNameMap_loop_cons (n : string) (names : list string)
    (used : gset string) (m : gmap string string) :
  buildShortNameMap_loop (n :: names) (used, m) =
  buildShortNameMap_loop names
    ({[makeUnique used (baseCandidate n)]} ∪ used,
     <[n := makeUnique used (baseCandidate n)]> m).
Proof. reflexivity. Qed.

Lemma aliases_length (names : list string) (used : gset string) :
  length (aliases used names) = length names.
Proof.
  revert used. induction names as [|n names IH]; intros used.
  - reflexivity.
  - simpl. now rewrite IH.
Qed.

(** Every alias is new when it is assigned. *)
Lemma aliases_fresh (names : list string) (used : gset string) :
  NoDup (aliases used names) /\
  (forall a, a ∈ aliases used names -> a ∉ used).
Proof.
  revert used. induction names as [|n names IH]; intros used; simpl.
  - split; [constructor | intros a Ha; inversion Ha].
  - set (u := makeUnique used (baseCandidate n)).
    destruct (IH ({[u]} ∪ used)) as [Hnd Hfresh].
    destruct (makeUnique_spec used (baseCandidate n)) as [Hu _]. fold u in Hu.
    split.
    + constructor; [| exact Hnd].
      intros Hin. apply Hfresh in Hin. apply Hin.
      apply elem_of_union_l, elem_of_singleton. reflexivity.
    + intros a Ha. apply elem_of_cons in Ha as [-> | Ha]; [exact Hu |].
      apply Hfresh in Ha. intros Hc. apply Ha.
      apply elem_of_union_r. exact Hc.
Qed.

Lemma aliases_bound (names : list string) (used : gset string) :
  (Z.of_nat (size used + length names) < 2 ^ 63)%Z ->
  Forall (fun a => String.length a <= 64) (aliases used names).
Proof.
  revert used. induction names as [|n names IH]; intros used Hsz; simpl;
    constructor.
  - apply makeUnique_length; [apply baseCandidate_le |].
    simpl in Hsz. lia.
  - apply IH.
    destruct (makeUnique_spec used (baseCandidate n)) as [Hu _].
    rewrite size_union by (apply disjoint_singleton_l; exact Hu).
    rewrite size_singleton.
    simpl in Hsz. lia.
Qed.

(** The map holds, for the name at each position, the alias assigned at
    that position, and nothing else is changed. *)
Lemma buildShortNameMap_loop_lookup (names : list string) :
  NoDup names ->
  forall (used : gset string) (m : gmap string string),
    (forall i n, names !! i = Some n ->
       (buildShortNameMap_loop names (used, m)).2 !! n
       = aliases used names !! i) /\
    (forall n, n ∉ names ->
       (buildShortNameMap_loop names (used, m)).2 !! n = m !! n).
Proof.
  induction names as [|n0 names IH]; intros Hnd used m.
  - split; [intros i n H; rewrite lookup_nil in H; discriminate | reflexivity].
  - apply NoDup_cons in Hnd as [Hn0 Hnd].
    rewrite buildShortNameMap_loop_cons.
    set (u := makeUnique used (baseCandidate n0)).
    destruct (IH Hnd ({[u]} ∪ used) (<[n0 := u]> m)) as [IH1 IH2].
    split.
    + intros [|i] n H; simpl in H.
      * injection H as <-. rewrite IH2 by exact Hn0.
        simpl. apply lookup_insert_eq.
      * simpl. now apply IH1.
    + intros n Hn. apply not_elem_of_cons in Hn as [Hne Hn].
      rewrite IH2 by exact Hn. now apply lookup_insert_ne.
Qed.

End buildShortNameMap_facts.

(** C2: for pairwise distinct tool names (a Go slice, so fewer than 2^63 of
    them) the pre-pass map gives every name an alias of at most 64
    characters, gives different names different aliases, and holds exactly
    the given names; a lookup is a function of the name, so a name has one
    alias throughout the call. *)
Theorem C2_buildShortNameMap_unique (names : list string) :
  NoDup names ->
  (Z.of_nat (length names) < 2 ^ 63)%Z ->
  let m := buildShortNameMap names in
  (forall n, n ∈ names ->
     exists a, m !! n = Some a /\ String.length a <= 64) /\
  (forall n1 n2 a, m !! n1 = Some a -> m !! n2 = Some a -> n1 = n2) /\
  (forall n, is_Some (m !! n) <-> n ∈ names) /\
  (forall n a b, m !! n = Some a -> m !! n = Some b -> a = b).
Proof.
  intros Hnd Hlen m.
  destruct (buildShortNameMap_loop_lookup names Hnd ∅ ∅) as [H1 H2].
  fold (buildShortNameMap names) in H1, H2. fold m in H1, H2.
  destruct (aliases_fresh names ∅) as [Hals _].
  assert (Hb := aliases_bound names ∅).
  rewrite size_empty in Hb. specialize (Hb Hlen).
  assert (Hdom : forall n, is_Some (m !! n) <-> n ∈ names).
  { intros n. split.
    - intros [a Ha]. destruct (decide (n ∈ names)) as [Hin|Hout]; [exact Hin |].
      rewrite H2, lookup_empty in Ha by exact Hout. discriminate.
    - intros Hin. apply list_elem_of_lookup in Hin as [i Hi].
      rewrite (H1 i n Hi). apply lookup_lt_is_Some.
      rewrite aliases_length. now apply lookup_lt_Some in Hi. }
  split; [| split; [| split; [exact Hdom |]]].
  - intros n Hin. apply Hdom in Hin as [a Ha]. exists a. split; [exact Ha |].
    assert (Hin : n ∈ names) by (apply Hdom; eauto).
    apply list_elem_of_lookup in Hin as [i Hi].
    rewrite (H1 i n Hi) in Ha.
    rewrite Forall_forall in Hb. apply Hb.
    apply list_elem_of_lookup. eauto.
  - intros n1 n2 a Ha1 Ha2.
    assert (Hin1 : n1 ∈ names) by (apply Hdom; eauto).
    assert (Hin2 : n2 ∈ names) by (apply Hdom; eauto).
    apply list_elem_of_lookup in Hin1 as [i Hi], Hin2 as [j Hj].
    rewrite (H1 i n1 Hi) in Ha1. rewrite (H1 j n2 Hj) in Ha2.
    assert (i = j) by (eapply NoDup_lookup; eauto). subst j.
    congruence.
  - intros n a b Ha Hb'. congruence.
Qed.

Lemma C2_witness :
  (forall n, n ∈ colliding_names ->
     exists a, buildShortNameMap colliding_names !! n = Some a /\
               String.length a <= 64) /\
  (forall n1 n2 a,
     buildShortNameMap colliding_names !! n1 = Some a ->
     buildShortNameMap colliding_names !! n2 = Some a -> n1 = n2).
Proof.
  assert (Hnd : NoDup colliding_names).
  { apply (bool_decide_unpack (NoDup colliding_names)). vm_compute. exact I. }
  assert (Hlen : (Z.of_nat (length colliding_names) < 2 ^ 63)%Z)
    by (simpl; lia).
  split.
  - apply (proj1 (C2_buildShortNameMap_unique colliding_names Hnd Hlen)).
  - apply (proj1 (proj2 (C2_buildShortNameMap_unique colliding_names Hnd Hlen))).
Defined.

(** ** Call identifiers *)

Section callid_facts.

Lemma be_bytes_length (n : nat) (x : N) : length (sha256.be_bytes n x) = n.
Proof. induction n as [|n IH]; simpl; [reflexivity | now rewrite IH]. Qed.

(** The digest is a [[32]byte]. *)
Lemma Sum256_length (data : string) : length (sha256.Sum256 data) = 32.
Proof.
  unfold sha256.Sum256. cbv zeta.
  rewrite !length_app, !be_bytes_length. reflexivity.
Qed.

Lemma EncodeToString_length (src : list N) :
  String.length (hex.EncodeToString src) = 2 * length src.
Proof. induction src as [|b src IH]; simpl; [reflexivity | rewrite IH; lia]. Qed.

Lemma shortenCallID_long (id : string) :
  64 < String.length id ->
  shortenCallID id
  = "call_" +:+ slice_to 59 (hex.EncodeToString (sha256.Sum256 id)).
Proof.
  intros H. unfold shortenCallID, limit.
  destruct (Nat.leb_spec (String.length id) 64) as [H'|_]; [lia |].
  cbv zeta. rewrite EncodeToString_length, Sum256_length. reflexivity.
Qed.

Lemma shortenCallID_length (id : string) :
  64 < String.length id -> String.length (shortenCallID id) = 64.
Proof.
  intros H. rewrite shortenCallID_long by exact H.
  rewrite string_length_app, slice_to_length, EncodeToString_length, Sum256_length.
  reflexivity.
Qed.

Lemma shortenCallID_prefix (id : string) :
  64 < String.length id -> HasPrefix (shortenCallID id) "call_" = true.
Proof. intros H. rewrite shortenCallID_long by exact H. reflexivity. Qed.

Lemma shortenCallID_nonempty (id : string) :
  64 < String.length id -> shortenCallID id <> "".
Proof. intros H. rewrite shortenCallID_long by exact H. discriminate. Qed.

End callid_facts.

(** ** Members of an object *)

Ltac case_eqb :=
  match goal with
  | |- context [String.eqb ?a ?b] => destruct (String.eqb_spec a b)
  | H : context [String.eqb ?a ?b] |- _ => destruct (String.eqb_spec a b)
  end.

Section member_facts.

Implicit Types (k : string) (v : json) (ms : list (string * json)).

Lemma member_set_member_eq k v ms :
  is_Some (member k ms) -> member k (set_member k v ms) = Some v.
Proof.
  induction ms as [|[k' v'] ms IH]; simpl; intros [x Hx]; [discriminate |].
  case_eqb; simpl; case_eqb; try congruence. apply IH. eauto.
Qed.

Lemma member_set_member_ne k k' v ms :
  k <> k' -> member k' (set_member k v ms) = member k' ms.
Proof.
  intros Hne. induction ms as [|[k0 v0] ms IH]; simpl; [reflexivity |].
  destruct (String.eqb_spec k k0); simpl.
  - subst k0. destruct (String.eqb_spec k' k); [congruence | reflexivity].
  - now rewrite IH.
Qed.

Lemma set_member_twice k v w ms :
  set_member k v (set_member k w ms) = set_member k v ms.
Proof.
  induction ms as [|[k0 v0] ms IH]; simpl; [reflexivity |].
  destruct (String.eqb_spec k k0) as [->|Hne]; simpl.
  - now rewrite String.eqb_refl.
  - destruct (String.eqb_spec k k0); [contradiction | now rewrite IH].
Qed.

Lemma set_member_same k v ms : member k ms = Some v -> set_member k v ms = ms.
Proof.
  induction ms as [|[k0 v0] ms IH]; simpl; [reflexivity |].
  destruct (String.eqb_spec k k0); intros H; [congruence | now rewrite IH].
Qed.

Lemma set_member_absent k v ms : member k ms = None -> set_member k v ms = ms.
Proof.
  induction ms as [|[k0 v0] ms IH]; simpl; [reflexivity |].
  destruct (String.eqb_spec k k0); intros H; [discriminate | now rewrite IH].
Qed.

Lemma set_member_comm k k' v v' ms :
  k <> k' ->
  set_member k v (set_member k' v' ms) = set_member k' v' (set_member k v ms).
Proof.
  intros Hne. induction ms as [|[k0 v0] ms IH]; simpl; [reflexivity |].
  destruct (String.eqb_spec k' k0) as [->|H1];
    destruct (String.eqb_spec k k0) as [->|H2]; simpl;
    rewrite ?String.eqb_refl; try congruence.
  - destruct (String.eqb_spec k k0); [congruence | reflexivity].
  - destruct (String.eqb_spec k' k0); [congruence | reflexivity].
  - destruct (String.eqb_spec k k0); [congruence |].
    destruct (String.eqb_spec k' k0); [congruence |]. now rewrite IH.
Qed.

Lemma keys_set_member k v ms : (set_member k v ms).*1 = ms.*1.
Proof.
  induction ms as [|[k0 v0] ms IH]; simpl; [reflexivity |].
  destruct (String.eqb_spec k k0); simpl; [reflexivity | f_equal; exact IH].
Qed.

Lemma member_app k ms ms' :
  member k (ms ++ ms') =
  match member k ms with Some v => Some v | None => member k ms' end.
Proof.
  induction ms as [|[k0 v0] ms IH]; simpl; [reflexivity |].
  now destruct (String.eqb_spec k k0).
Qed.

Lemma member_None k ms : member k ms = None <-> k ∉ ms.*1.
Proof.
  induction ms as [|[k0 v0] ms IH]; simpl.
  - split; [intros _ H; inversion H | reflexivity].
  - rewrite not_elem_of_cons. destruct (String.eqb_spec k k0).
    + split; [discriminate | intros [? _]; contradiction].
    + rewrite IH. tauto.
Qed.

Lemma member_del_member_ne k k' ms :
  k <> k' -> member k' (del_member k ms) = member k' ms.
Proof.
  intros Hne. induction ms as [|[k0 v0] ms IH]; simpl; [reflexivity |].
  destruct (String.eqb_spec k k0); simpl.
  - subst k0. destruct (String.eqb_spec k' k); [congruence | reflexivity].
  - now rewrite IH.
Qed.

Lemma del_member_absent k ms : member k ms = None -> del_member k ms = ms.
Proof.
  induction ms as [|[k0 v0] ms IH]; simpl; [reflexivity |].
  destruct (String.eqb_spec k k0); intros H; [discriminate | now rewrite IH].
Qed.

Lemma keys_del_member_sub k ms x : x ∈ (del_member k ms).*1 -> x ∈ ms.*1.
Proof.
  induction ms as [|[k0 v0] ms IH]; simpl; [trivial |].
  destruct (String.eqb_spec k k0); simpl; rewrite ?elem_of_cons; intuition.
Qed.

Lemma NoDup_del_member k ms : NoDup ms.*1 -> NoDup (del_member k ms).*1.
Proof.
  induction ms as [|[k0 v0] ms IH]; simpl; [trivial |].
  intros [Hk0 Hnd]%NoDup_cons.
  destruct (String.eqb_spec k k0); simpl; [exact Hnd |].
  apply NoDup_cons. split; [| now apply IH].
  intros Hin. apply Hk0. now apply keys_del_member_sub in Hin.
Qed.

(** With distinct names, deleting a name leaves no member of that name. *)
Lemma member_del_member_eq k ms :
  NoDup ms.*1 -> member k (del_member k ms) = None.
Proof.
  induction ms as [|[k0 v0] ms IH]; simpl; [reflexivity |].
  intros [Hk0 Hnd]%NoDup_cons.
  destruct (String.eqb_spec k k0) as [->|Hne]; simpl.
  - now apply member_None.
  - destruct (String.eqb_spec k k0); [contradiction | now apply IH].
Qed.

Lemma member_put_member_eq k v ms : member k (put_member k v ms) = Some v.
Proof.
  unfold put_member. destruct (member k ms) as [x|] eqn:E.
  - apply member_set_member_eq. eauto.
  - rewrite member_app, E. simpl. now rewrite String.eqb_refl.
Qed.

Lemma member_put_member_ne k k' v ms :
  k <> k' -> member k' (put_member k v ms) = member k' ms.
Proof.
  intros Hne. unfold put_member. destruct (member k ms) as [x|] eqn:E.
  - now apply member_set_member_ne.
  - rewrite member_app. destruct (member k' ms); [reflexivity |].
    simpl. destruct (String.eqb_spec k' k); [congruence | reflexivity].
Qed.

Lemma put_member_same k v ms : member k ms = Some v -> put_member k v ms = ms.
Proof. intros H. unfold put_member. rewrite H. now apply set_member_same. Qed.

Lemma set_member_put_member k v w ms :
  set_member k v (put_member k w ms) = put_member k v ms.
Proof.
  unfold put_member. destruct (member k ms) as [x|] eqn:E.
  - apply set_member_twice.
  - induction ms as [|[k0 v0] ms IH]; simpl.
    + now rewrite String.eqb_refl.
    + simpl in E. destruct (String.eqb_spec k k0); [discriminate |].
      now rewrite IH.
Qed.

Lemma NoDup_put_member k v ms : NoDup ms.*1 -> NoDup (put_member k v ms).*1.
Proof.
  intros Hnd. unfold put_member. destruct (member k ms) as [x|] eqn:E.
  - now rewrite keys_set_member.
  - rewrite fmap_app. simpl. apply NoDup_app. split; [exact Hnd |].
    split; [| apply NoDup_singleton].
    intros x Hx Hx'. apply list_elem_of_singleton in Hx'. subst x.
    now apply member_None in E.
Qed.

End member_facts.

(** ** Paths *)

Section path_facts.

Lemma is_digit_not_dot (c : ascii) : is_digit c = true -> Ascii.eqb c "." = false.
Proof.
  intros H. destruct (Ascii.eqb_spec c "."); [subst c; discriminate H | reflexivity].
Qed.

Lemma parts_digits_dot (a b : string) :
  all_digits a = true -> parts (a +:+ String "." b) = a :: parts b.
Proof.
  induction a as [|c a IH]; simpl; intros H; [reflexivity |].
  apply andb_true_iff in H as [Hc Ha].
  rewrite (is_digit_not_dot c Hc), (IH Ha). reflexivity.
Qed.

Lemma Itoa_nonempty (i : nat) : Itoa i <> "".
Proof.
  rewrite Itoa_eq. pose proof (to_uint_nonnil (N.of_nat i)).
  now destruct (N.to_uint (N.of_nat i)).
Qed.

Lemma parseUint_Itoa (i : nat) : gjson.parseUint (Itoa i) = Some i.
Proof.
  unfold gjson.parseUint. pose proof (Itoa_nonempty i).
  destruct (Itoa i) eqn:E; [contradiction |]. rewrite <- E.
  apply digits_value_Itoa.
Qed.

Lemma parts_rolePath (i : nat) :
  parts (responses.rolePath i) = ["input"; Itoa i; "role"].
Proof.
  unfold responses.rolePath.
  change (parts ("input." +:+ Itoa i +:+ ".role"))
    with ("input" :: parts (Itoa i +:+ String "." "role")).
  rewrite parts_digits_dot by apply Itoa_digits. reflexivity.
Qed.

Lemma parts_callIDPath (i : nat) :
  parts (responses.callIDPath i) = ["input"; Itoa i; "call_id"].
Proof.
  unfold responses.callIDPath.
  change (parts ("input." +:+ Itoa i +:+ ".call_id"))
    with ("input" :: parts (Itoa i +:+ String "." "call_id")).
  rewrite parts_digits_dot by apply Itoa_digits. reflexivity.
Qed.

End path_facts.

(** ** Reads along a path *)

Section read_facts.

Implicit Types (k : string) (v : json) (ms : list (string * json)).
Implicit Types (f : json -> gjson.Result).

Lemma get_path_nil (j : json) : gjson.get_path j [] = Some j.
Proof. destruct j; reflexivity. Qed.

Lemma first_hit_member k ms : gjson.first_hit Some k ms = member k ms.
Proof.
  induction ms as [|[k' v] ms IH]; simpl; [reflexivity |].
  destruct (String.eqb k k'); [reflexivity | exact IH].
Qed.

Lemma first_hit_ext f g k ms :
  (forall v, f v = g v) -> gjson.first_hit f k ms = gjson.first_hit g k ms.
Proof.
  intros E. induction ms as [|[k' v] ms IH]; simpl; [reflexivity |].
  rewrite E, IH. reflexivity.
Qed.

Lemma first_hit_found f k ms v (r : json) :
  member k ms = Some v -> f v = Some r -> gjson.first_hit f k ms = Some r.
Proof.
  induction ms as [|[k' v'] ms IH]; simpl; [discriminate |].
  destruct (String.eqb k k'); [| exact IH].
  intros [= ->] ->. reflexivity.
Qed.

Lemma first_hit_absent f k ms :
  member k ms = None -> gjson.first_hit f k ms = None.
Proof.
  induction ms as [|[k' v'] ms IH]; simpl; [reflexivity |].
  destruct (String.eqb k k'); [discriminate | exact IH].
Qed.

Lemma occurrences_cons k k' v ms :
  occurrences k ((k', v) :: ms)
  = (if String.eqb k k' then S (occurrences k ms) else occurrences k ms).
Proof.
  unfold occurrences. simpl. destruct (String.string_dec k' k) as [->|Hne].
  - now rewrite String.eqb_refl.
  - destruct (String.eqb_spec k k'); [congruence | reflexivity].
Qed.

Lemma occurrences_zero k ms : occurrences k ms = 0 -> member k ms = None.
Proof.
  induction ms as [|[k' v'] ms IH]; [reflexivity |].
  rewrite occurrences_cons. simpl.
  destruct (String.eqb k k'); [discriminate | exact IH].
Qed.

Lemma member_occurrences k ms : member k ms = None -> occurrences k ms = 0.
Proof.
  induction ms as [|[k' v'] ms IH]; [reflexivity |].
  rewrite occurrences_cons. simpl.
  destruct (String.eqb k k'); [discriminate | exact IH].
Qed.

(** Where a name occurs once, the scan is the descent from its member. *)
Lemma first_hit_once f k ms :
  occurrences k ms <= 1 -> gjson.first_hit f k ms = member k ms ≫= f.
Proof.
  induction ms as [|[k' v'] ms IH]; [reflexivity |].
  rewrite occurrences_cons. simpl.
  destruct (String.eqb k k'); [| exact IH].
  intros H. assert (H0 : occurrences k ms = 0) by lia.
  rewrite (first_hit_absent f k ms (occurrences_zero k ms H0)). simpl.
  now destruct (f v').
Qed.

Lemma at_index_lookup f (l : list json) (n : nat) :
  gjson.at_index f l n = l !! n ≫= f.
Proof.
  revert n. induction l as [|x l IH]; intros [|n]; simpl; try reflexivity.
  apply IH.
Qed.

Lemma get_path_object (s : option string) ms k (p : list string) :
  gjson.get_path (JObject s ms) (k :: p)
  = gjson.first_hit (fun v => gjson.get_path v p) k ms.
Proof. reflexivity. Qed.

Lemma get_path_array (s : option string) (l : list json) k (p : list string) :
  gjson.get_path (JArray s l) (k :: p)
  = gjson.parseUint k ≫= (fun n => l !! n ≫= (fun v => gjson.get_path v p)).
Proof.
  simpl. destruct (gjson.parseUint k); [| reflexivity].
  apply at_index_lookup.
Qed.

Lemma get_path_one (j : json) k : gjson.get_path j [k] = gjson.child k j.
Proof.
  destruct j; try reflexivity.
  - rewrite get_path_array. simpl. destruct (gjson.parseUint k); [| reflexivity].
    simpl. destruct (elems !! n); [apply get_path_nil | reflexivity].
  - rewrite get_path_object.
    rewrite (first_hit_ext _ Some) by apply get_path_nil.
    apply first_hit_member.
Qed.

Lemma Get_plain (j : json) k : parts k = [k] -> gjson.Get j k = gjson.child k j.
Proof. intros H. unfold gjson.Get. rewrite H. apply get_path_one. Qed.

Lemma Get_member (s : option string) ms k :
  parts k = [k] -> gjson.Get (JObject s ms) k = member k ms.
Proof. intros H. now rewrite Get_plain. Qed.

(** A descent that succeeds from the first child is the one gjson
    makes. *)
Lemma get_path_step (j c r : json) k (p : list string) :
  gjson.child k j = Some c -> gjson.get_path c p = Some r ->
  gjson.get_path j (k :: p) = Some r.
Proof.
  intros Hc Hr. destruct j; try discriminate.
  - rewrite get_path_array. simpl in Hc.
    destruct (gjson.parseUint k); [| discriminate]. simpl. rewrite Hc. exact Hr.
  - rewrite get_path_object. now apply (first_hit_found _ k members c r).
Qed.

Lemma get_path_once (s : option string) ms k (p : list string) :
  occurrences k ms <= 1 ->
  gjson.get_path (JObject s ms) (k :: p)
  = member k ms ≫= (fun v => gjson.get_path v p).
Proof. intros H. rewrite get_path_object. now apply first_hit_once. Qed.

(** Nothing is read from a value that is no container. *)
Lemma child_scalar (j : json) k :
  gjson.IsArray (Some j) = false -> gjson.IsObject (Some j) = false ->
  gjson.child k j = None.
Proof. destruct j; simpl; congruence. Qed.

End read_facts.

(** ** Writes along a path *)

Section write_facts.

Implicit Types (k : string) (v : json) (ms : list (string * json)).
Implicit Types (t : jtext).

Lemma parts_cons (path : string) : exists k p, parts path = k :: p.
Proof.
  induction path as [|c path IH]; simpl; [eauto |].
  destruct (Ascii.eqb c "."); [eauto |].
  destruct (parts path); eauto.
Qed.

Lemma atoui_parseUint k : sjson.atoui k = None -> gjson.parseUint k = None.
Proof. unfold gjson.parseUint, sjson.atoui. now destruct k. Qed.

Lemma splice_object (s : option string) ms k v :
  parts k = [k] -> k <> "" ->
  sjson.splice (Some (JObject s ms)) k v
  = Some (JObject None (put_member k v ms)).
Proof.
  intros Hp Hk. unfold sjson.splice, put_member.
  destruct (String.eqb_spec k ""); [contradiction |].
  rewrite Hp. simpl. now destruct (member k ms).
Qed.

(** A write leaves what is read under another name as it is. *)
Lemma set_path_frame (p : list string) v (j j' : json) k k' :
  k <> k' -> gjson.parseUint k' = None ->
  sjson.set_path (k :: p) v j = Some j' ->
  gjson.child k' j' = gjson.child k' j.
Proof.
  intros Hne Hk' H. simpl in H.
  destruct (gjson.child k j) as [c|] eqn:Ec.
  - destruct (sjson.set_path p v c) as [c'|]; [| discriminate].
    injection H as <-. destruct j; try reflexivity; simpl.
    + destruct (gjson.parseUint k); simpl; now rewrite Hk'.
    + now apply member_set_member_ne.
  - destruct j; simpl.
    1-5: destruct (sjson.atoui k); injection H as <-; simpl;
         [now rewrite Hk' | destruct (String.eqb_spec k' k); congruence].
    + rewrite Hk'.
      destruct (sjson.atoui k);
        [| destruct (String.eqb k "-1"); [| discriminate]];
        injection H as <-; simpl; now rewrite Hk'.
    + injection H as <-. simpl. rewrite member_app.
      destruct (member k' members); [reflexivity |]. simpl.
      destruct (String.eqb_spec k' k); congruence.
Qed.

Lemma splice_frame t (path : string) (raw : json) k' :
  parts k' = [k'] -> gjson.parseUint k' = None ->
  hd "" (parts path) <> k' ->
  gjson.GetR (sjson.splice t path raw) k' = gjson.GetR t k'.
Proof.
  intros Hp Hk' Hne. unfold sjson.splice.
  destruct (String.eqb path ""); [reflexivity |].
  destruct (parts_cons path) as (k & p & E). rewrite E in Hne |- *. simpl in Hne.
  destruct (sjson.set_path (k :: p) raw (default JNull t)) as [j'|] eqn:Es;
    [| reflexivity].
  simpl. rewrite Get_plain by exact Hp.
  rewrite (set_path_frame p raw _ j' k k' Hne Hk' Es).
  destruct t as [j|]; simpl; [now rewrite Get_plain | reflexivity].
Qed.

Lemma Set_frame t (path : string) (value : goval) k' :
  parts k' = [k'] -> gjson.parseUint k' = None ->
  hd "" (parts path) <> k' ->
  gjson.GetR (sjson.Set_ t path value) k'
  = keep (encodable value) (gjson.GetR t k').
Proof.
  intros Hp Hk' Hne. unfold sjson.Set_, keep, encodable.
  destruct (sjson.encode value) as [r|].
  - rewrite bool_decide_true by eauto. now apply splice_frame.
  - rewrite bool_decide_false by (intros [? ?]; discriminate). reflexivity.
Qed.

Lemma SetRaw_frame t (path : string) (raw : jtext) k' :
  parts k' = [k'] -> gjson.parseUint k' = None ->
  hd "" (parts path) <> k' ->
  gjson.GetR (sjson.SetRaw t path raw) k' = gjson.GetR t k'.
Proof.
  intros Hp Hk' Hne. unfold sjson.SetRaw.
  destruct raw; [now apply splice_frame | reflexivity].
Qed.

(** A write along a path that starts with a name keeps [out] an object
    or empty. *)
Lemma objish_splice t (path : string) (raw : json) :
  objish t -> sjson.atoui (hd "" (parts path)) = None ->
  objish (sjson.splice t path raw).
Proof.
  intros Ht Hk. unfold sjson.splice.
  destruct (String.eqb path ""); [exact Ht |].
  destruct (parts_cons path) as (k & p & E). rewrite E in Hk |- *. simpl in Hk.
  destruct (sjson.set_path (k :: p) raw (default JNull t)) as [j'|] eqn:Es;
    [| exact Ht].
  simpl in Es. destruct t as [[]|]; try contradiction; simpl in Es.
  - destruct (member k members) as [c|].
    + destruct (sjson.set_path p raw c); [| discriminate]. now injection Es as <-.
    + now injection Es as <-.
  - rewrite Hk in Es. now injection Es as <-.
Qed.

Lemma objish_Set t (path : string) (value : goval) :
  objish t -> sjson.atoui (hd "" (parts path)) = None ->
  objish (sjson.Set_ t path value).
Proof.
  intros Ht Hk. unfold sjson.Set_.
  destruct (sjson.encode value); [now apply objish_splice | exact I].
Qed.

Lemma objish_SetRaw t (path : string) (raw : jtext) :
  objish t -> sjson.atoui (hd "" (parts path)) = None ->
  objish (sjson.SetRaw t path raw).
Proof.
  intros Ht Hk. unfold sjson.SetRaw.
  destruct raw; [now apply objish_splice | exact Ht].
Qed.

(** Writing a member of [out]. *)
Lemma splice_objish t k v :
  objish t -> parts k = [k] -> k <> "" -> sjson.atoui k = None ->
  exists ms, sjson.splice t k v = Some (JObject None ms) /\
             member k ms = Some v.
Proof.
  intros Ht Hp Hk Ha. destruct t as [[]|]; try contradiction.
  - rewrite splice_object by assumption. eexists. split; [reflexivity |].
    apply member_put_member_eq.
  - unfold sjson.splice. destruct (String.eqb_spec k ""); [contradiction |].
    rewrite Hp. simpl. rewrite Ha. eexists. split; [reflexivity |].
    simpl. now rewrite String.eqb_refl.
Qed.

(** Appending to an array member: [key.-1]. *)
Lemma splice_append (s sa : option string) ms (key p : string)
    (cur : list json) v :
  parts p = [key; "-1"] -> member key ms = Some (JArray sa cur) ->
  sjson.splice (Some (JObject s ms)) p v
  = Some (JObject None (set_member key (JArray None (cur ++ [v])) ms)).
Proof.
  intros Hp Hm. unfold sjson.splice.
  destruct (String.eqb_spec p "") as [->|_]; [discriminate Hp |].
  rewrite Hp. simpl. rewrite Hm. reflexivity.
Qed.

End write_facts.

(** ** The call-identifier caches *)

Section cache_facts.

Lemma cache_ok_empty : cache_ok ∅.
Proof. intros id short H. rewrite lookup_empty in H. discriminate. Qed.

Lemma cache_ok_insert (c : gmap string string) (id : string) :
  cache_ok c -> cache_ok (<[id := shortenCallID id]> c).
Proof.
  intros Hc id' short H. destruct (decide (id = id')) as [<-|Hne].
  - rewrite lookup_insert_eq in H. congruence.
  - rewrite lookup_insert_ne in H by exact Hne. now apply Hc.
Qed.

Lemma norm_id_long (id : string) :
  (String.eqb id "" || (String.length id <=? 64)%nat) = false ->
  64 < String.length id /\ norm_id id = shortenCallID id.
Proof.
  intros H. unfold norm_id. rewrite H. split; [| reflexivity].
  apply orb_false_iff in H as [_ H]. apply Nat.leb_gt in H. exact H.
Qed.

(** The closure of the converter returns [norm_id] and keeps the cache
    sound. *)
Lemma chat_normalizeCallID_ok (c : gmap string string) (id : string) :
  cache_ok c ->
  exists c', chat_completions.normalizeCallID c id = (norm_id id, c') /\
             cache_ok c'.
Proof.
  intros Hc. unfold chat_completions.normalizeCallID.
  destruct (String.eqb id "" || (String.length id <=? 64)%nat) eqn:E.
  - exists c. unfold norm_id. now rewrite E.
  - destruct (norm_id_long id E) as [_ ->].
    destruct (c !! id) as [short|] eqn:El.
    + exists c. now rewrite (Hc id short El).
    + eexists. split; [reflexivity | now apply cache_ok_insert].
Qed.

(** So does the function of the normalizer. *)
Lemma responses_normalizeCallID_ok (c : gmap string string) (id : string) :
  cache_ok c ->
  exists c', responses.normalizeCallID id (Some c) = (norm_id id, Some c') /\
             cache_ok c'.
Proof.
  intros Hc. unfold responses.normalizeCallID.
  destruct (String.eqb id "" || (String.length id <=? 64)%nat) eqn:E.
  - exists c. unfold norm_id. now rewrite E.
  - destruct (norm_id_long id E) as [Hlen ->]. simpl mbind.
    destruct (c !! id) as [short|] eqn:El.
    + exists c. now rewrite (Hc id short El).
    + exists (<[id := shortenCallID id]> c).
      split; [| now apply cache_ok_insert].
      cbv zeta. rewrite EncodeToString_length, Sum256_length.
      rewrite (shortenCallID_long id Hlen). reflexivity.
Qed.

Lemma norm_id_idem (id : string) : norm_id (norm_id id) = norm_id id.
Proof.
  destruct (String.eqb id "" || (String.length id <=? 64)%nat) eqn:E.
  - assert (H : norm_id id = id) by (unfold norm_id; now rewrite E).
    now rewrite !H.
  - destruct (norm_id_long id E) as [Hlen H]. rewrite H.
    unfold norm_id. rewrite shortenCallID_length by exact Hlen.
    now rewrite orb_true_r.
Qed.

Lemma norm_id_length (id : string) :
  64 < String.length id ->
  norm_id id = shortenCallID id /\ String.length (norm_id id) <= 64 /\
  HasPrefix (norm_id id) "call_" = true.
Proof.
  intros H. assert (E : norm_id id = shortenCallID id).
  { unfold norm_id. destruct (String.eqb_spec id "") as [->|_];
      [simpl in H; lia |].
    destruct (Nat.leb_spec (String.length id) 64); [lia | reflexivity]. }
  rewrite E. split; [reflexivity |]. split.
  - rewrite shortenCallID_length by exact H. lia.
  - now apply shortenCallID_prefix.
Qed.

End cache_facts.

(** ** Strings as sjson writes them *)

Section utf8_facts.

Lemma coerce_ascii (s : string) : is_ascii s = true -> utf8.coerce s = s.
Proof.
  induction s as [|c s IH]; simpl; [reflexivity |].
  intros [Hc Hs]%andb_true_iff. rewrite Hc, (IH Hs). reflexivity.
Qed.

Lemma is_ascii_app (a b : string) :
  is_ascii (a +:+ b) = is_ascii a && is_ascii b.
Proof.
  induction a as [|c a IH]; simpl; [reflexivity |].
  now rewrite IH, andb_assoc.
Qed.

Lemma is_ascii_slice_to (n : nat) (s : string) :
  is_ascii s = true -> is_ascii (slice_to n s) = true.
Proof.
  revert s. induction n as [|n IH]; intros [|c s]; simpl; try reflexivity.
  intros [Hc Hs]%andb_true_iff. now rewrite Hc, (IH s Hs).
Qed.

Lemma hex_digit_ascii (n : N) : (nat_of_ascii (hex.digit n) <? 128)%nat = true.
Proof.
  unfold hex.digit.
  destruct (String.get (N.to_nat n) hex.hextable) as [c|] eqn:E;
    [| reflexivity].
  revert E. generalize (N.to_nat n). intros i.
  do 16 (destruct i as [|i]; [intros [= <-]; reflexivity |]).
  discriminate.
Qed.

Lemma is_ascii_EncodeToString (src : list N) :
  is_ascii (hex.EncodeToString src) = true.
Proof.
  induction src as [|b src IH]; simpl; [reflexivity |].
  now rewrite !hex_digit_ascii, IH.
Qed.

(** A shortened identifier is written as it is. *)
Lemma coerce_shortenCallID (id : string) :
  64 < String.length id -> utf8.coerce (shortenCallID id) = shortenCallID id.
Proof.
  intros H. apply coerce_ascii. rewrite shortenCallID_long by exact H.
  rewrite is_ascii_app. apply andb_true_iff. split; [reflexivity |].
  apply is_ascii_slice_to, is_ascii_EncodeToString.
Qed.

End utf8_facts.

(** ** An array member of a text *)

Section array_member.

Context (key : string) (ms : list (string * json)).
Hypothesis has_key : is_Some (member key ms).

(** The text whose member [key] is the array [cur]. *)
Local Abbreviation W cur :=
  (Some (JObject None (set_member key (JArray None cur) ms))).

Lemma W_member (cur : list json) :
  member key (set_member key (JArray None cur) ms) = Some (JArray None cur).
Proof. now apply member_set_member_eq. Qed.

(** Appending to the array: [key.-1]. *)
Lemma append_array (cur : list json) (p : string) (v : json) :
  parts p = [key; "-1"] -> sjson.SetRaw (W cur) p (Some v) = W (cur ++ [v]).
Proof.
  intros Hp. unfold sjson.SetRaw.
  rewrite (splice_append None None _ key p cur v Hp (W_member cur)).
  now rewrite set_member_twice.
Qed.

End array_member.

(** ** The items of the Chat-Completions converter *)

Section chat_items.

Implicit Types (role : string) (m it tc : json).

Lemma tool_output_eq m :
  chat_completions.tool_output
    (norm_id (gjson.String_ (gjson.Get m "tool_call_id")))
    (gjson.String_ (gjson.Get m "content"))
  = Some (chat_completions.function_call_output_object m).
Proof. reflexivity. Qed.

Lemma text_part_eq role (text : string) :
  chat_completions.text_part role text
  = Some (chat_completions.text_part_item role text).
Proof.
  unfold chat_completions.text_part, chat_completions.text_part_item.
  now destruct (String.eqb role "assistant").
Qed.

Lemma function_call_eq (names : gmap string string) tc :
  chat_completions.function_call names
    (norm_id (gjson.String_ (gjson.Get tc "id"))) tc
  = Some (chat_completions.function_call_object names tc).
Proof. reflexivity. Qed.

(** A message object under construction: type, role, content so far. *)
Local Abbreviation msg_obj r parts_ :=
  (Some (JObject None [("type", JString "message");
                       ("role", chat_completions.written r);
                       ("content", JArray None parts_)])).

Lemma content_append (r : string) (l : list json) (v : json) :
  sjson.SetRaw (msg_obj r l) "content.-1" (Some v) = msg_obj r (l ++ [v]).
Proof. reflexivity. Qed.

Lemma content_item_eq role (r : string) (l : list json) it :
  chat_completions.content_item role (msg_obj r l) it
  = msg_obj r (l ++ chat_completions.content_part role it).
Proof.
  unfold chat_completions.content_item, chat_completions.content_part.
  cbv zeta.
  destruct (String.eqb (gjson.String_ (gjson.Get it "type")) "text").
  { now rewrite text_part_eq, content_append. }
  destruct (String.eqb (gjson.String_ (gjson.Get it "type")) "image_url");
    [| now rewrite app_nil_r].
  destruct (String.eqb role "user"); [| now rewrite app_nil_r].
  now destruct (gjson.Get it "image_url.url").
Qed.

Lemma content_items_eq role (r : string) (items l : list json) :
  fold_left (chat_completions.content_item role) items (msg_obj r l)
  = msg_obj r (l ++ flat_map (chat_completions.content_part role) items).
Proof.
  revert l. induction items as [|it items IH]; intros l; simpl.
  - now rewrite app_nil_r.
  - rewrite content_item_eq, IH, <- app_assoc. reflexivity.
Qed.

(** The message item, written out. *)
Lemma message_item_eq role m :
  chat_completions.message_item role m
  = Some (chat_completions.message_object role m).
Proof.
  unfold chat_completions.message_item, chat_completions.message_object,
    chat_completions.content_parts.
  cbv zeta.
  set (r := if String.eqb role "system" then "developer" else role).
  assert (E : sjson.SetRaw
                (if String.eqb role "system"
                 then sjson.Set_ (sjson.Set_ chat_completions.empty_object
                                    "type" (GoString "message"))
                        "role" (GoString "developer")
                 else sjson.Set_ (sjson.Set_ chat_completions.empty_object
                                    "type" (GoString "message"))
                        "role" (GoString role))
                "content" chat_completions.empty_array
              = msg_obj r []).
  { subst r. now destruct (String.eqb role "system"). }
  rewrite E. clear E.
  destruct (gjson.Exists (gjson.Get m "content")
            && gjson.IsString (gjson.Get m "content")
            && negb (String.eqb (gjson.String_ (gjson.Get m "content")) "")).
  { now rewrite text_part_eq, content_append. }
  destruct (gjson.Exists (gjson.Get m "content")
            && gjson.IsArray (gjson.Get m "content")); [| reflexivity].
  now rewrite content_items_eq.
Qed.

End chat_items.

(** ** The message loop of the converter *)

Section chat_loops.

Context (names : gmap string string) (ms : list (string * json)).
Hypothesis has_input : is_Some (member "input" ms).

Local Abbreviation W cur :=
  (Some (JObject None (set_member "input" (JArray None cur) ms))).

Lemma tool_call_loop (tcs : list json) (acc : list json)
    (c : gmap string string) :
  cache_ok c ->
  exists c',
    fold_left (chat_completions.tool_call_step names) tcs (W acc, c)
    = (W (acc ++ map (chat_completions.function_call_object names)
                     (List.filter chat_completions.is_function_call tcs)), c') /\
    cache_ok c'.
Proof.
  revert acc c. induction tcs as [|tc tcs IH]; intros acc c Hc.
  - exists c. simpl. now rewrite app_nil_r.
  - cbn [fold_left List.filter].
    unfold chat_completions.tool_call_step at 2.
    unfold chat_completions.is_function_call at 1.
    destruct (String.eqb (gjson.String_ (gjson.Get tc "type")) "function").
    + destruct (chat_normalizeCallID_ok c
                  (gjson.String_ (gjson.Get tc "id")) Hc) as (c1 & -> & Hc1).
      rewrite function_call_eq.
      rewrite (append_array "input" ms has_input) by reflexivity.
      destruct (IH (acc ++ [chat_completions.function_call_object names tc])
                   c1 Hc1) as (c' & E & Hc').
      exists c'. split; [| exact Hc']. rewrite <- app_assoc in E. exact E.
    + destruct (IH acc c Hc) as (c' & E & Hc'). exists c'. now split.
Qed.

Lemma message_step_items (m : json) (acc : list json)
    (c : gmap string string) :
  cache_ok c ->
  exists c',
    chat_completions.message_step names (W acc, c) m
    = (W (acc ++ chat_completions.items_of_message names m), c') /\
    cache_ok c'.
Proof.
  intros Hc.
  unfold chat_completions.message_step, chat_completions.items_of_message.
  cbv zeta.
  destruct (String.eqb (gjson.String_ (gjson.Get m "role")) "tool").
  - destruct (chat_normalizeCallID_ok c
                (gjson.String_ (gjson.Get m "tool_call_id")) Hc)
      as (c1 & -> & Hc1).
    rewrite tool_output_eq.
    rewrite (append_array "input" ms has_input) by reflexivity.
    exists c1. now split.
  - rewrite message_item_eq.
    rewrite (append_array "input" ms has_input) by reflexivity.
    unfold chat_completions.function_calls. cbv zeta.
    destruct (String.eqb (gjson.String_ (gjson.Get m "role")) "assistant");
      [| exists c; now split].
    destruct (gjson.Exists (gjson.Get m "tool_calls")
              && gjson.IsArray (gjson.Get m "tool_calls"));
      [| exists c; now split].
    destruct (tool_call_loop (gjson.Array (gjson.Get m "tool_calls"))
                (acc ++ [chat_completions.message_object
                           (gjson.String_ (gjson.Get m "role")) m]) c Hc)
      as (c' & E & Hc').
    exists c'. split; [| exact Hc']. rewrite <- app_assoc in E. exact E.
Qed.

Lemma message_loop (msgs : list json) (acc : list json)
    (c : gmap string string) :
  cache_ok c ->
  exists c',
    fold_left (chat_completions.message_step names) msgs (W acc, c)
    = (W (acc ++ flat_map (chat_completions.items_of_message names) msgs), c') /\
    cache_ok c'.
Proof.
  revert acc c. induction msgs as [|m msgs IH]; intros acc c Hc.
  - exists c. simpl. now rewrite app_nil_r.
  - cbn [fold_left flat_map].
    destruct (message_step_items m acc c Hc) as (c1 & E1 & Hc1).
    destruct (IH (acc ++ chat_completions.items_of_message names m) c1 Hc1)
      as (c' & E & Hc').
    exists c'. split; [| exact Hc'].
    rewrite <- app_assoc in E. etransitivity; [| exact E].
    f_equal. exact E1.
Qed.

End chat_loops.

(** ** Properties that the writes of the converter keep *)

Section preserved_facts.

Implicit Types (P : jtext -> Prop) (t out : jtext).

Lemma preserved_objish (k0 : string) :
  sjson.atoui k0 = None -> preserved k0 objish.
Proof.
  intros Hk t path raw Hp Ht. apply objish_splice; [exact Ht | now rewrite Hp].
Qed.

Lemma preserved_read (k0 k' : string) (r : gjson.Result) :
  parts k' = [k'] -> gjson.parseUint k' = None -> k0 <> k' ->
  preserved k0 (fun t => gjson.GetR t k' = r).
Proof.
  intros Hp Hk Hne t path raw Hh Ht.
  rewrite splice_frame; [exact Ht | exact Hp | exact Hk | now rewrite Hh].
Qed.

Lemma occurrences_set_member (k k' : string) (v : json)
    (ms : list (string * json)) :
  occurrences k' (set_member k v ms) = occurrences k' ms.
Proof. unfold occurrences. now rewrite keys_set_member. Qed.

Lemma occurrences_app (k : string) (ms ms' : list (string * json)) :
  occurrences k (ms ++ ms') = occurrences k ms + occurrences k ms'.
Proof. unfold occurrences. rewrite fmap_app. apply count_occ_app. Qed.

Lemma preserved_once (k0 k' : string) :
  sjson.atoui k0 = None -> k0 <> k' -> preserved k0 (once k').
Proof.
  intros Hk Hne t path raw Hh Ht. unfold sjson.splice.
  destruct (String.eqb path ""); [exact Ht |].
  destruct (parts_cons path) as (k & p & E). rewrite E in Hh |- *.
  simpl in Hh. subst k.
  destruct (sjson.set_path (k0 :: p) raw (default JNull t)) as [j'|] eqn:Es;
    [| exact Ht].
  simpl in Es. destruct t as [[]|]; try contradiction; simpl in Es.
  - destruct (member k0 members) as [c|].
    + destruct (sjson.set_path p raw c); [| discriminate]. injection Es as <-.
      simpl. now rewrite occurrences_set_member.
    + injection Es as <-. simpl. rewrite occurrences_app.
      simpl in Ht. rewrite occurrences_cons.
      destruct (String.eqb_spec k' k0); [congruence |].
      change (occurrences k' []) with 0. lia.
  - rewrite Hk in Es. injection Es as <-. simpl. rewrite occurrences_cons.
    destruct (String.eqb_spec k' k0); [congruence |].
    change (occurrences k' []) with 0. lia.
Qed.

Lemma once_objish (k : string) t : once k t -> objish t.
Proof. now destruct t as [[]|]. Qed.

Lemma SetRaw_preserved P (k0 : string) t (path : string) (raw : jtext) :
  preserved k0 P -> hd "" (parts path) = k0 -> P t ->
  P (sjson.SetRaw t path raw).
Proof.
  intros HP Hh Ht. unfold sjson.SetRaw.
  destruct raw; [now apply HP | exact Ht].
Qed.

Lemma Set_preserved P (k0 : string) t (path : string) (value : goval) :
  preserved k0 P -> P None -> hd "" (parts path) = k0 -> P t ->
  P (sjson.Set_ t path value).
Proof.
  intros HP HN Hh Ht. unfold sjson.Set_.
  destruct (sjson.encode value); [now apply HP | exact HN].
Qed.

(** A string can always be written. *)
Lemma Set_string_preserved P (k0 : string) t (path s : string) :
  preserved k0 P -> hd "" (parts path) = k0 -> P t ->
  P (sjson.Set_ t path (GoString s)).
Proof. intros HP Hh Ht. now apply HP. Qed.

Lemma Set_bool_preserved P (k0 : string) t (path : string) (b : bool) :
  preserved k0 P -> hd "" (parts path) = k0 -> P t ->
  P (sjson.Set_ t path (GoBool b)).
Proof. intros HP Hh Ht. now apply HP. Qed.

End preserved_facts.

(** ** The converter, phase by phase *)

Section chat_phases.

Implicit Types (P : jtext -> Prop) (out : jtext).
Implicit Types (names : gmap string string) (rawJSON : json).

(** *** The preamble *)

Lemma preamble_preserved P (modelName : string) rawJSON (stream : bool) :
  P None ->
  preserved "stream" P -> preserved "reasoning" P ->
  preserved "parallel_tool_calls" P -> preserved "include" P ->
  preserved "model" P ->
  P (Some (JObject None [("instructions", JString "")])) ->
  P (chat_completions.preamble modelName rawJSON stream).
Proof.
  intros HN H1 H2 H3 H4 H5 H0. unfold chat_completions.preamble. cbv zeta.
  apply H5; [reflexivity |].
  apply H4; [reflexivity |].
  apply H2; [reflexivity |].
  apply H3; [reflexivity |].
  assert (Hs : P (sjson.Set_ (Some (JObject None [("instructions", JString "")]))
                    "stream" (GoBool stream)))
    by (apply H1; [reflexivity | exact H0]).
  destruct (gjson.Get rawJSON "reasoning_effort").
  - apply (Set_preserved P "reasoning"); auto.
  - apply H2; [reflexivity | exact Hs].
Qed.

Lemma preamble_objish (modelName : string) rawJSON (stream : bool) :
  objish (chat_completions.preamble modelName rawJSON stream).
Proof.
  apply preamble_preserved; try (apply preserved_objish; reflexivity);
    exact I.
Qed.

(** Nothing but the six members of the preamble is in [out] after it. *)
Lemma preamble_absent (modelName : string) rawJSON (stream : bool) (k : string) :
  parts k = [k] -> gjson.parseUint k = None ->
  k ∉ ["instructions"; "stream"; "reasoning"; "parallel_tool_calls";
       "include"; "model"] ->
  gjson.GetR (chat_completions.preamble modelName rawJSON stream) k = None.
Proof.
  intros Hp Hk Hn.
  repeat (apply not_elem_of_cons in Hn as [? Hn]).
  apply (preamble_preserved (fun t => gjson.GetR t k = None));
    try (apply preserved_read; assumption || congruence).
  - reflexivity.
  - simpl. rewrite Get_member by exact Hp. simpl.
    destruct (String.eqb_spec k "instructions"); congruence.
Qed.

(** *** The messages *)

Lemma tool_calls_preserved P names (tcs : list json)
    (st : chat_completions.loop_state) :
  preserved "input" P -> P st.1 ->
  P (fold_left (chat_completions.tool_call_step names) tcs st).1.
Proof.
  intros HP. revert st. induction tcs as [|tc tcs IH]; intros [out c] H;
    [exact H |].
  cbn [fold_left]. apply IH.
  unfold chat_completions.tool_call_step.
  destruct (String.eqb (gjson.String_ (gjson.Get tc "type")) "function");
    [| exact H].
  destruct (chat_completions.normalizeCallID c _) as [callID c'].
  now apply (SetRaw_preserved P "input").
Qed.

Lemma message_step_preserved P names (m : json)
    (st : chat_completions.loop_state) :
  preserved "input" P -> P st.1 ->
  P (chat_completions.message_step names st m).1.
Proof.
  intros HP. destruct st as [out c]. intros H.
  unfold chat_completions.message_step. cbv zeta.
  destruct (String.eqb (gjson.String_ (gjson.Get m "role")) "tool").
  - destruct (chat_completions.normalizeCallID c _) as [callID c'].
    now apply (SetRaw_preserved P "input").
  - assert (H1 : P (sjson.SetRaw out "input.-1"
                      (chat_completions.message_item
                         (gjson.String_ (gjson.Get m "role")) m)))
      by now apply (SetRaw_preserved P "input").
    destruct (String.eqb (gjson.String_ (gjson.Get m "role")) "assistant");
      [| exact H1].
    destruct (gjson.Exists (gjson.Get m "tool_calls")
              && gjson.IsArray (gjson.Get m "tool_calls")); [| exact H1].
    now apply tool_calls_preserved.
Qed.

Lemma build_input_preserved P names rawJSON out :
  preserved "input" P -> P out ->
  P (chat_completions.build_input names rawJSON out).
Proof.
  intros HP H. unfold chat_completions.build_input. cbv zeta.
  assert (H1 : P (sjson.SetRaw out "input" chat_completions.empty_array))
    by now apply (SetRaw_preserved P "input").
  destruct (gjson.IsArray (gjson.Get rawJSON "messages")); [| exact H1].
  generalize (gjson.Array (gjson.Get rawJSON "messages")). intros msgs.
  set (st := (sjson.SetRaw out "input" chat_completions.empty_array,
              (∅ : gmap string string))).
  change (P st.1) in H1. clearbody st. revert st H1.
  induction msgs as [|m msgs IH]; intros st H1; [exact H1 |].
  cbn [fold_left]. apply IH. now apply message_step_preserved.
Qed.

(** The loop over the messages leaves in [input] the items of the
    messages, in order, whatever [out] held before. *)
Lemma build_input_items names rawJSON out :
  objish out ->
  exists ms,
    chat_completions.build_input names rawJSON out = Some (JObject None ms) /\
    member "input" ms
    = Some (JArray None (chat_completions.input_items names rawJSON)).
Proof.
  intros Ho. unfold chat_completions.build_input, chat_completions.input_items.
  cbv zeta.
  destruct (splice_objish out "input" (JArray None []) Ho)
    as (ms0 & E0 & Hm0); try reflexivity; [discriminate |].
  change (sjson.SetRaw out "input" chat_completions.empty_array)
    with (sjson.splice out "input" (JArray None [])).
  rewrite E0.
  destruct (gjson.IsArray (gjson.Get rawJSON "messages")); [| eauto].
  assert (H0 : is_Some (member "input" ms0)) by eauto.
  destruct (message_loop names ms0 H0
              (gjson.Array (gjson.Get rawJSON "messages")) [] ∅ cache_ok_empty)
    as (c' & E & _).
  rewrite (set_member_same "input" _ ms0 Hm0) in E.
  apply (f_equal fst) in E. cbn [app] in E.
  eexists. split; [exact E |]. now apply member_set_member_eq.
Qed.

(** *** The response format *)

Lemma keep_keep (a b : bool) (r : gjson.Result) :
  keep b (keep a r) = keep (a && b) r.
Proof. now destruct a, b. Qed.

Lemma keep_true (r : gjson.Result) : keep true r = r.
Proof. reflexivity. Qed.

Lemma encodable_string (s : string) : encodable (GoString s) = true.
Proof. reflexivity. Qed.

Lemma encodable_bool (b : bool) : encodable (GoBool b) = true.
Proof. reflexivity. Qed.

(** What the mapping of the response format leaves of another member of
    [out]: the member as it was, or nothing when a write has failed. *)
Lemma copy_value_frame out (path k' : string) (r : gjson.Result) :
  parts k' = [k'] -> gjson.parseUint k' = None ->
  hd "" (parts path) <> k' ->
  gjson.GetR (chat_completions.copy_value out path r) k'
  = keep (chat_completions.writable r) (gjson.GetR out k').
Proof.
  intros Hp Hk Hne. destruct r as [v|]; [| reflexivity].
  now apply Set_frame.
Qed.

Lemma copy_raw_frame out (path k' : string) (r : gjson.Result) :
  parts k' = [k'] -> gjson.parseUint k' = None ->
  hd "" (parts path) <> k' ->
  gjson.GetR (chat_completions.copy_raw out path r) k' = gjson.GetR out k'.
Proof.
  intros Hp Hk Hne. destruct r as [v|]; [| reflexivity].
  now apply SetRaw_frame.
Qed.

Lemma copy_value_preserved P (k0 : string) out (path : string)
    (r : gjson.Result) :
  preserved k0 P -> P None -> hd "" (parts path) = k0 -> P out ->
  P (chat_completions.copy_value out path r).
Proof.
  intros HP HN Hh H. destruct r; [now apply (Set_preserved P k0) | exact H].
Qed.

Lemma copy_raw_preserved P (k0 : string) out (path : string)
    (r : gjson.Result) :
  preserved k0 P -> hd "" (parts path) = k0 -> P out ->
  P (chat_completions.copy_raw out path r).
Proof.
  intros HP Hh H. destruct r; [now apply (SetRaw_preserved P k0) | exact H].
Qed.

Lemma map_response_format_frame rawJSON out (k' : string) :
  parts k' = [k'] -> gjson.parseUint k' = None -> k' <> "text" ->
  gjson.GetR (chat_completions.map_response_format rawJSON out) k'
  = keep (chat_completions.writes_ok rawJSON) (gjson.GetR out k').
Proof.
  intros Hp Hk Hne.
  unfold chat_completions.map_response_format, chat_completions.writes_ok.
  cbv zeta.
  destruct (gjson.Get rawJSON "response_format") as [rf|];
    destruct (gjson.Get rawJSON "text") as [text|];
    cbn [gjson.Exists gjson.GetR];
    try (generalize (gjson.String_ (gjson.Get rf "type")); intros rft;
         destruct (String.eqb_spec rft "text") as [->|_];
         [change (String.eqb "text" "json_schema") with false; cbv iota
         | destruct (String.eqb rft "json_schema")]);
    try destruct (gjson.Get rf "json_schema") as [js|];
    try destruct (gjson.Get text "verbosity") as [verbosity|];
    destruct (negb (gjson.Exists (gjson.GetR out "text")));
    repeat first
      [ rewrite copy_value_frame by (first [assumption | simpl; congruence])
      | rewrite copy_raw_frame by (first [assumption | simpl; congruence])
      | rewrite Set_frame by (first [assumption | simpl; congruence])
      | rewrite SetRaw_frame by (first [assumption | simpl; congruence]) ];
    rewrite ?encodable_string;
    cbn [chat_completions.writable andb keep];
    rewrite ?keep_keep, ?andb_true_r, ?andb_assoc; reflexivity.
Qed.

End chat_phases.
(** *** The later phases keep what they do not write *)

Section chat_later_phases.

Implicit Types (P : jtext -> Prop) (out : jtext).
Implicit Types (names : gmap string string) (rawJSON : json).

Ltac keeps HP HN H :=
  repeat first
    [ exact H
    | apply (Set_preserved _ _ _ _ _ HP HN); [reflexivity |]
    | apply (SetRaw_preserved _ _ _ _ _ HP); [reflexivity |]
    | apply (copy_value_preserved _ _ _ _ _ HP HN); [reflexivity |]
    | apply (copy_raw_preserved _ _ _ _ _ HP); [reflexivity |] ].

Lemma map_response_format_preserved P rawJSON out :
  P None -> preserved "text" P -> P out ->
  P (chat_completions.map_response_format rawJSON out).
Proof.
  intros HN HP H. unfold chat_completions.map_response_format. cbv zeta.
  destruct (gjson.Get rawJSON "response_format") as [rf|];
    destruct (gjson.Get rawJSON "text") as [text|];
    cbn [gjson.Exists gjson.GetR];
    try destruct (gjson.Get text "verbosity") as [verbosity|];
    try destruct (String.eqb (gjson.String_ (gjson.Get rf "type")) "text");
    try destruct (String.eqb (gjson.String_ (gjson.Get rf "type")) "json_schema");
    try destruct (gjson.Get rf "json_schema") as [js|];
    destruct (negb (gjson.Exists (gjson.GetR out "text")));
    keeps HP HN H.
Qed.

Lemma tool_step_preserved P names out (t : json) :
  preserved "tools" P -> P out -> P (chat_completions.tool_step names out t).
Proof.
  intros HP H. unfold chat_completions.tool_step. cbv zeta.
  destruct (negb (String.eqb (gjson.String_ (gjson.Get t "type")) "")
            && negb (String.eqb (gjson.String_ (gjson.Get t "type")) "function")
            && gjson.IsObject (Some t)).
  { now apply (SetRaw_preserved P "tools"). }
  destruct (String.eqb (gjson.String_ (gjson.Get t "type")) "function");
    [| exact H].
  now apply (SetRaw_preserved P "tools").
Qed.

Lemma map_tools_preserved P names rawJSON out :
  preserved "tools" P -> P out ->
  P (chat_completions.map_tools names rawJSON out).
Proof.
  intros HP H. unfold chat_completions.map_tools. cbv zeta.
  destruct (gjson.IsArray (gjson.Get rawJSON "tools")
            && (0 <? length (gjson.Array (gjson.Get rawJSON "tools")))%nat);
    [| exact H].
  assert (H1 : P (sjson.SetRaw out "tools" chat_completions.empty_array))
    by now apply (SetRaw_preserved P "tools").
  revert H1. generalize (sjson.SetRaw out "tools" chat_completions.empty_array).
  generalize (gjson.Array (gjson.Get rawJSON "tools")). intros tools.
  induction tools as [|t tools IH]; intros o Ho; [exact Ho |].
  cbn [fold_left]. apply IH. now apply tool_step_preserved.
Qed.

Lemma map_tool_choice_preserved P names rawJSON out :
  preserved "tool_choice" P -> P out ->
  P (chat_completions.map_tool_choice names rawJSON out).
Proof.
  intros HP H. unfold chat_completions.map_tool_choice. cbv zeta.
  destruct (gjson.Get rawJSON "tool_choice") as [tc|]; [| exact H].
  destruct (gjson.IsString (Some tc)).
  { now apply (Set_string_preserved P "tool_choice"). }
  destruct (gjson.IsObject (Some tc)); [| exact H].
  destruct (String.eqb (gjson.String_ (gjson.Get tc "type")) "function").
  { now apply (SetRaw_preserved P "tool_choice"). }
  destruct (negb (String.eqb (gjson.String_ (gjson.Get tc "type")) ""));
    [| exact H].
  now apply (SetRaw_preserved P "tool_choice").
Qed.

(** The loop over the tools. *)
Lemma tools_loop names (ms : list (string * json))
    (H : is_Some (member "tools" ms)) (tools acc : list json) :
  fold_left (chat_completions.tool_step names) tools
            (Some (JObject None (set_member "tools" (JArray None acc) ms)))
  = Some (JObject None
            (set_member "tools"
               (JArray None
                  (acc ++ flat_map (chat_completions.tool_entries names) tools))
               ms)).
Proof.
  revert acc. induction tools as [|t tools IH]; intros acc; simpl.
  - now rewrite app_nil_r.
  - unfold chat_completions.tool_step at 2, chat_completions.tool_entries at 1.
    cbv zeta.
    destruct (negb (String.eqb (gjson.String_ (gjson.Get t "type")) "")
              && negb (String.eqb (gjson.String_ (gjson.Get t "type")) "function")
              && gjson.IsObject (Some t)).
    { rewrite (append_array "tools" ms H) by reflexivity.
      rewrite IH, <- app_assoc. reflexivity. }
    destruct (String.eqb (gjson.String_ (gjson.Get t "type")) "function");
      [| apply IH].
    destruct (chat_completions.function_tool names t) as [item|].
    + rewrite (append_array "tools" ms H) by reflexivity.
      rewrite IH, <- app_assoc. reflexivity.
    + apply IH.
Qed.

Lemma map_tools_entries names rawJSON out :
  objish out ->
  gjson.IsArray (gjson.Get rawJSON "tools")
  && (0 <? length (gjson.Array (gjson.Get rawJSON "tools")))%nat = true ->
  exists ms,
    chat_completions.map_tools names rawJSON out = Some (JObject None ms) /\
    member "tools" ms
    = Some (JArray None (flat_map (chat_completions.tool_entries names)
                           (gjson.Array (gjson.Get rawJSON "tools")))).
Proof.
  intros Ho Ht. unfold chat_completions.map_tools. cbv zeta. rewrite Ht.
  destruct (splice_objish out "tools" (JArray None []) Ho)
    as (ms0 & E0 & Hm0); try reflexivity; [discriminate |].
  change (sjson.SetRaw out "tools" chat_completions.empty_array)
    with (sjson.splice out "tools" (JArray None [])).
  rewrite E0.
  assert (H0 : is_Some (member "tools" ms0)) by eauto.
  pose proof (tools_loop names ms0 H0
                (gjson.Array (gjson.Get rawJSON "tools")) []) as E.
  rewrite (set_member_same "tools" _ ms0 Hm0) in E. cbn [app] in E.
  eexists. split; [exact E |]. now apply member_set_member_eq.
Qed.

(** *** The whole converter *)

Lemma convert_objish (modelName : string) rawJSON (stream : bool) :
  let names := chat_completions.originalToolNameMap rawJSON in
  objish (chat_completions.map_tool_choice names rawJSON
            (chat_completions.map_tools names rawJSON
               (chat_completions.map_response_format rawJSON
                  (chat_completions.build_input names rawJSON
                     (chat_completions.preamble modelName rawJSON stream))))).
Proof.
  intros names.
  apply map_tool_choice_preserved; [now apply preserved_objish |].
  apply map_tools_preserved; [now apply preserved_objish |].
  apply map_response_format_preserved;
    [exact I | now apply preserved_objish |].
  apply build_input_preserved; [now apply preserved_objish |].
  apply preamble_objish.
Qed.

(** What the phases after the response format leave of a member that
    they do not write. *)
Lemma later_phases_frame names rawJSON out (k' : string) :
  parts k' = [k'] -> gjson.parseUint k' = None ->
  k' <> "tools" -> k' <> "tool_choice" -> k' <> "store" ->
  gjson.GetR
    (sjson.Set_ (chat_completions.map_tool_choice names rawJSON
                   (chat_completions.map_tools names rawJSON out))
                "store" (GoBool false)) k'
  = gjson.GetR out k'.
Proof.
  intros Hp Hk H1 H2 H3.
  rewrite Set_frame by (first [assumption | simpl; congruence]).
  rewrite encodable_bool, keep_true.
  apply (map_tool_choice_preserved (fun t => gjson.GetR t k' = gjson.GetR out k'));
    [apply preserved_read; auto |].
  apply (map_tools_preserved (fun t => gjson.GetR t k' = gjson.GetR out k'));
    [apply preserved_read; auto | reflexivity].
Qed.

(** The [input] of the output: the items of the messages, unless a copied
    value could not be written, which leaves no [input] at all. *)
Lemma convert_input (modelName : string) rawJSON (stream : bool) :
  gjson.GetR (chat_completions.ConvertOpenAIRequestToCodex
                modelName rawJSON stream) "input"
  = keep (chat_completions.writes_ok rawJSON)
         (Some (JArray None
                  (chat_completions.input_items
                     (chat_completions.originalToolNameMap rawJSON) rawJSON))).
Proof.
  unfold chat_completions.ConvertOpenAIRequestToCodex. cbv zeta.
  rewrite later_phases_frame by (reflexivity || discriminate).
  rewrite map_response_format_frame by (reflexivity || discriminate).
  f_equal.
  destruct (build_input_items (chat_completions.originalToolNameMap rawJSON)
              rawJSON (chat_completions.preamble modelName rawJSON stream)
              (preamble_objish modelName rawJSON stream)) as (ms & -> & Hm).
  simpl. now rewrite Get_member.
Qed.

(** The [tools] of the output. *)
Lemma convert_tools (modelName : string) rawJSON (stream : bool) :
  gjson.IsArray (gjson.Get rawJSON "tools")
  && (0 <? length (gjson.Array (gjson.Get rawJSON "tools")))%nat = true ->
  gjson.GetR (chat_completions.ConvertOpenAIRequestToCodex
                modelName rawJSON stream) "tools"
  = Some (JArray None
            (flat_map (chat_completions.tool_entries
                         (chat_completions.originalToolNameMap rawJSON))
                      (gjson.Array (gjson.Get rawJSON "tools")))).
Proof.
  intros Ht. unfold chat_completions.ConvertOpenAIRequestToCodex. cbv zeta.
  rewrite Set_frame by (reflexivity || discriminate).
  rewrite encodable_bool, keep_true.
  set (names := chat_completions.originalToolNameMap rawJSON).
  set (out := chat_completions.map_response_format rawJSON _).
  assert (Ho : objish out).
  { apply map_response_format_preserved;
      [exact I | now apply preserved_objish |].
    apply build_input_preserved; [now apply preserved_objish |].
    apply preamble_objish. }
  destruct (map_tools_entries names rawJSON out Ho Ht) as (ms & E & Hm).
  apply (map_tool_choice_preserved
           (fun t => gjson.GetR t "tools" = Some (JArray None _)));
    [apply preserved_read; (reflexivity || discriminate) |].
  rewrite E. simpl. now rewrite Get_member.
Qed.

End chat_later_phases.
(** *** The response format, written out *)

Section response_format.

Implicit Types (ms fmt tms : list (string * json)).
Implicit Types (rawJSON js : json) (r : gjson.Result).

Lemma set_member_app_absent (k : string) (v w : json) ms :
  member k ms = None -> set_member k v (ms ++ [(k, w)]) = ms ++ [(k, v)].
Proof.
  induction ms as [|[k0 v0] ms IH]; simpl; intros H.
  - now rewrite String.eqb_refl.
  - destruct (String.eqb_spec k k0); [discriminate | now rewrite IH].
Qed.

Lemma member_app_absent (k : string) (w : json) ms :
  member k ms = None -> member k (ms ++ [(k, w)]) = Some w.
Proof.
  intros H. rewrite member_app, H. simpl. now rewrite String.eqb_refl.
Qed.

(** A write below [text], the last member. *)
Lemma splice_text ms (T T' : json) (p : string) (rest : list string)
    (v : json) :
  member "text" ms = None -> parts p = "text" :: rest ->
  sjson.set_path rest v T = Some T' ->
  sjson.splice (Some (JObject None (ms ++ [("text", T)]))) p v
  = Some (JObject None (ms ++ [("text", T')])).
Proof.
  intros Hm Hp HT. unfold sjson.splice.
  destruct (String.eqb_spec p "") as [->|_]; [discriminate Hp |].
  rewrite Hp. simpl.
  rewrite (member_app_absent "text" T ms Hm), HT.
  now rewrite set_member_app_absent.
Qed.

Lemma writable_encode (v : json) :
  chat_completions.writable (Some v) = true ->
  exists e, sjson.encode (gjson.Value v) = Some e.
Proof.
  unfold chat_completions.writable. intros H%bool_decide_eq_true. exact H.
Qed.

(** A value copied into [text.format]. *)
Lemma copy_format_member ms fmt tms (p k : string) r :
  member "text" ms = None -> parts p = ["text"; "format"; k] ->
  member k fmt = None -> chat_completions.writable r = true ->
  chat_completions.copy_value
    (Some (JObject None
             (ms ++ [("text", JObject None (("format", JObject None fmt) :: tms))])))
    p r
  = Some (JObject None
            (ms ++ [("text",
                     JObject None
                       (("format",
                         JObject None
                           (fmt ++ chat_completions.opt_member k
                                     (chat_completions.copied r)))
                          :: tms))])).
Proof.
  intros Hm Hp Hk Hw. destruct r as [v|]; simpl.
  - destruct (writable_encode v Hw) as [e He].
    unfold sjson.Set_. rewrite He.
    apply (splice_text ms _ _ _ ["format"; k] e Hm Hp).
    simpl. rewrite Hk. reflexivity.
  - now rewrite app_nil_r.
Qed.

Lemma copy_raw_format_member ms fmt tms (p k : string) r :
  member "text" ms = None -> parts p = ["text"; "format"; k] ->
  member k fmt = None ->
  chat_completions.copy_raw
    (Some (JObject None
             (ms ++ [("text", JObject None (("format", JObject None fmt) :: tms))])))
    p r
  = Some (JObject None
            (ms ++ [("text",
                     JObject None
                       (("format",
                         JObject None (fmt ++ chat_completions.opt_member k r))
                          :: tms))])).
Proof.
  intros Hm Hp Hk. destruct r as [v|]; simpl.
  - apply (splice_text ms _ _ _ ["format"; k] v Hm Hp).
    simpl. rewrite Hk. reflexivity.
  - now rewrite app_nil_r.
Qed.

Lemma copy_verbosity ms tms r :
  member "text" ms = None -> member "verbosity" tms = None ->
  chat_completions.writable r = true ->
  chat_completions.copy_value
    (Some (JObject None (ms ++ [("text", JObject None tms)])))
    "text.verbosity" r
  = Some (JObject None
            (ms ++ [("text",
                     JObject None
                       (tms ++ chat_completions.opt_member "verbosity"
                                 (chat_completions.copied r)))])).
Proof.
  intros Hm Hk Hw. destruct r as [v|]; simpl.
  - destruct (writable_encode v Hw) as [e He].
    unfold sjson.Set_. rewrite He.
    apply (splice_text ms _ _ _ ["verbosity"] e Hm); [reflexivity |].
    simpl. now rewrite Hk.
  - now rewrite app_nil_r.
Qed.

Lemma member_opt_member_ne (k k' : string) (o : option json) :
  k <> k' -> member k (chat_completions.opt_member k' o) = None.
Proof.
  intros Hne. destruct o; [| reflexivity]. simpl.
  destruct (String.eqb_spec k k'); congruence.
Qed.


Lemma map_response_format_schema rawJSON (rf js : json) ms :
  member "text" ms = None ->
  gjson.Get rawJSON "response_format" = Some rf ->
  gjson.String_ (gjson.Get rf "type") = "json_schema" ->
  gjson.Get rf "json_schema" = Some js ->
  chat_completions.writes_ok rawJSON = true ->
  chat_completions.map_response_format rawJSON (Some (JObject None ms))
  = Some (JObject None
            (ms ++ [("text", chat_completions.schema_text rawJSON js)])).
Proof.
  intros Hm Hrf Ht Hjs Hw.
  unfold chat_completions.writes_ok in Hw. rewrite Hrf in Hw.
  cbn [gjson.Exists gjson.GetR] in Hw. rewrite Ht, Hjs in Hw.
  change (String.eqb "json_schema" "json_schema") with true in Hw.
  cbv iota in Hw.
  apply andb_true_iff in Hw as [[Hname Hstrict]%andb_true_iff Hverb].
  unfold chat_completions.map_response_format. cbv zeta.
  rewrite Hrf. cbn [gjson.Exists gjson.GetR]. rewrite Ht, Hjs.
  change (String.eqb "json_schema" "text") with false.
  change (String.eqb "json_schema" "json_schema") with true. cbv iota.
  rewrite (Get_member None ms "text") by reflexivity. rewrite Hm.
  cbn [gjson.Exists negb].
  change (sjson.SetRaw (Some (JObject None ms)) "text"
            chat_completions.empty_object)
    with (sjson.splice (Some (JObject None ms)) "text" (JObject None [])).
  rewrite splice_object by (reflexivity || discriminate).
  unfold put_member. rewrite Hm.
  change (sjson.Set_ ?t "text.format.type" (GoString "json_schema"))
    with (sjson.splice t "text.format.type" (JString "json_schema")).
  rewrite (splice_text ms _ (JObject None [("format",
             JObject None [("type", JString "json_schema")])]) _
             ["format"; "type"] _ Hm) by reflexivity.
  rewrite (copy_format_member ms _ [] "text.format.name" "name")
    by (assumption || reflexivity).
  rewrite (copy_format_member ms _ [] "text.format.strict" "strict")
    by (first [assumption | reflexivity
              | apply (member_opt_member_ne "strict" "name"); discriminate]).
  rewrite (copy_raw_format_member ms _ [] "text.format.schema" "schema").
  2: exact Hm. 2: reflexivity.
  2:{ rewrite member_app. simpl.
      rewrite (member_opt_member_ne "schema" "name") by discriminate.
      apply (member_opt_member_ne "schema" "strict"). discriminate. }
  assert (E : forall o : jtext,
            (if gjson.Exists (gjson.Get rawJSON "text")
             then chat_completions.copy_value o "text.verbosity"
                    (gjson.GetR (gjson.Get rawJSON "text") "verbosity")
             else o)
            = chat_completions.copy_value o "text.verbosity"
                (gjson.GetR (gjson.Get rawJSON "text") "verbosity")).
  { intros o. now destruct (gjson.Get rawJSON "text"). }
  rewrite E, (copy_verbosity ms _ _ Hm) by (reflexivity || assumption).
  unfold chat_completions.schema_text, chat_completions.schema_format.
  rewrite <- !app_assoc. reflexivity.
Qed.

Lemma preserved_and (k0 : string) (P Q : jtext -> Prop) :
  preserved k0 P -> preserved k0 Q -> preserved k0 (fun t => P t /\ Q t).
Proof.
  intros HP HQ t path raw Hh [H1 H2]. split; [now apply HP | now apply HQ].
Qed.

(** The [text] of the output for a [json_schema] response format whose
    values can be written. *)
Lemma convert_text (modelName : string) rawJSON (stream : bool) (rf js : json) :
  gjson.Get rawJSON "response_format" = Some rf ->
  gjson.String_ (gjson.Get rf "type") = "json_schema" ->
  gjson.Get rf "json_schema" = Some js ->
  chat_completions.writes_ok rawJSON = true ->
  exists s ms,
    chat_completions.ConvertOpenAIRequestToCodex modelName rawJSON stream
    = Some (JObject s ms) /\
    member "text" ms = Some (chat_completions.schema_text rawJSON js) /\
    occurrences "text" ms <= 1.
Proof.
  intros Hrf Ht Hjs Hw.
  unfold chat_completions.ConvertOpenAIRequestToCodex. cbv zeta.
  set (names := chat_completions.originalToolNameMap rawJSON).
  set (pre := chat_completions.preamble modelName rawJSON stream).
  destruct (build_input_items names rawJSON pre
              (preamble_objish modelName rawJSON stream)) as (ms0 & E0 & _).
  assert (Hm0 : member "text" ms0 = None).
  { assert (H : gjson.GetR (chat_completions.build_input names rawJSON pre)
                  "text" = None).
    { apply (build_input_preserved (fun t => gjson.GetR t "text" = None));
        [apply preserved_read; (reflexivity || discriminate) |].
      apply preamble_absent; [reflexivity | reflexivity |].
      repeat (apply not_elem_of_cons; split; [discriminate |]).
      apply not_elem_of_nil. }
    rewrite E0 in H. simpl in H. now rewrite Get_member in H. }
  rewrite E0, (map_response_format_schema rawJSON rf js ms0 Hm0 Hrf Ht Hjs Hw).
  set (T := chat_completions.schema_text rawJSON js).
  pose (P := fun t : jtext => once "text" t /\ gjson.GetR t "text" = Some T).
  assert (HP : P (Some (JObject None (ms0 ++ [("text", T)])))).
  { split.
    - simpl. rewrite occurrences_app, (member_occurrences "text" ms0 Hm0).
      reflexivity.
    - simpl. rewrite Get_member by reflexivity. now apply member_app_absent. }
  assert (Hk : forall k0 : string, sjson.atoui k0 = None -> k0 <> "text" ->
               preserved k0 P).
  { intros k0 H1 H2. apply preserved_and;
      [now apply preserved_once
      | apply preserved_read; (reflexivity || assumption)]. }
  apply (map_tools_preserved P names rawJSON) in HP;
    [| apply Hk; (reflexivity || discriminate)].
  apply (map_tool_choice_preserved P names rawJSON) in HP;
    [| apply Hk; (reflexivity || discriminate)].
  apply (Set_bool_preserved P "store" _ "store" false) in HP;
    [| apply Hk; (reflexivity || discriminate) | reflexivity].
  destruct HP as [H1 H2].
  destruct (sjson.Set_ _ "store" (GoBool false)) as [[]|];
    try contradiction; try discriminate.
  simpl in H2. rewrite Get_member in H2 by reflexivity. eauto.
Qed.

End response_format.
(** ** Messages to items *)

Lemma input_items_messages (names : gmap string string) (rawJSON : json)
    (src : option string) (msgs : list json) :
  gjson.Get rawJSON "messages" = Some (JArray src msgs) ->
  chat_completions.input_items names rawJSON
  = flat_map (chat_completions.items_of_message names) msgs.
Proof.
  intros H. unfold chat_completions.input_items. cbv zeta. now rewrite H.
Qed.

Lemma build_input_read (names : gmap string string) (rawJSON : json)
    (out : jtext) :
  objish out ->
  gjson.GetR (chat_completions.build_input names rawJSON out) "input"
  = Some (JArray None (chat_completions.input_items names rawJSON)).
Proof.
  intros Ho. destruct (build_input_items names rawJSON out Ho) as (ms & -> & Hm).
  simpl. now rewrite Get_member.
Qed.

Lemma keep_if (b : bool) (r : gjson.Result) :
  keep b r = if b then r else None.
Proof. reflexivity. Qed.

(** C5: the converter turns the messages into the items of [input] in one
    pass and in order.  The pass (ll. 126-233) leaves in [input] the items
    of the messages, whatever [out] held before; the output carries them
    unless a value copied later (ll. 253-276) cannot be written, which
    empties [out].  A message with role [tool] gives exactly one
    [function_call_output] item (its call identifier shortened, its
    content as the string [String()] makes of it) and no message item;
    every other message gives one [message] item, followed, for an
    assistant message with a [tool_calls] array, by one [function_call]
    item for each tool call of type [function], in call order, and by
    nothing otherwise.  Every string is as sjson writes it
    ([utf8.coerce]). *)
Theorem C5_messages_to_items (modelName : string) (rawJSON : json)
    (stream : bool) (src : option string) (msgs : list json) :
  gjson.Get rawJSON "messages" = Some (JArray src msgs) ->
  let names := chat_completions.originalToolNameMap rawJSON in
  let items := flat_map (chat_completions.items_of_message names) msgs in
  (forall out, objish out ->
     gjson.GetR (chat_completions.build_input names rawJSON out) "input"
     = Some (JArray None items)) /\
  gjson.GetR (chat_completions.ConvertOpenAIRequestToCodex
                modelName rawJSON stream) "input"
  = (if chat_completions.writes_ok rawJSON then Some (JArray None items)
     else None) /\
  forall m, let role := gjson.String_ (gjson.Get m "role") in
    (role = "tool" ->
     chat_completions.items_of_message names m
     = [JObject None
          [("type", JString "function_call_output");
           ("call_id",
            JString (utf8.coerce
                       (norm_id (gjson.String_ (gjson.Get m "tool_call_id")))));
           ("output",
            JString (utf8.coerce (gjson.String_ (gjson.Get m "content"))))]]) /\
    (role <> "tool" ->
     exists calls,
       chat_completions.items_of_message names m
       = JObject None
           [("type", JString "message");
            ("role", JString (utf8.coerce (if String.eqb role "system"
                                           then "developer" else role)));
            ("content", JArray None (chat_completions.content_parts role m))]
           :: calls /\
       (role <> "assistant" -> calls = []) /\
       (gjson.IsArray (gjson.Get m "tool_calls") = false -> calls = []) /\
       (forall s tcs, role = "assistant" ->
          gjson.Get m "tool_calls" = Some (JArray s tcs) ->
          calls
          = map (fun tc =>
                   JObject None
                     [("type", JString "function_call");
                      ("call_id",
                       JString (utf8.coerce
                                  (norm_id (gjson.String_ (gjson.Get tc "id")))));
                      ("name",
                       JString (utf8.coerce
                                  (chat_completions.mapped_name names
                                     (gjson.String_
                                        (gjson.Get tc "function.name")))));
                      ("arguments",
                       JString (utf8.coerce
                                  (gjson.String_
                                     (gjson.Get tc "function.arguments"))))])
                (List.filter
                   (fun tc =>
                      String.eqb (gjson.String_ (gjson.Get tc "type")) "function")
                   tcs))).
Proof.
  intros Hmsgs names items. split; [| split].
  - intros out Ho. rewrite build_input_read by exact Ho.
    now rewrite (input_items_messages names rawJSON src msgs Hmsgs).
  - rewrite convert_input, keep_if. fold names.
    now rewrite (input_items_messages names rawJSON src msgs Hmsgs).
  - intros m role. unfold chat_completions.items_of_message. cbv zeta.
    fold role. split.
    + intros ->. reflexivity.
    + intros Hrole.
      destruct (String.eqb_spec role "tool") as [E|_]; [contradiction |].
      eexists. split; [reflexivity |].
      unfold chat_completions.function_calls. cbv zeta.
      split; [| split].
      * intros Hne. destruct (String.eqb_spec role "assistant");
          [contradiction | reflexivity].
      * intros Ha. rewrite Ha, andb_false_r. now destruct (String.eqb role "assistant").
      * intros s tcs -> Htcs. cbn [String.eqb Ascii.eqb Bool.eqb].
        rewrite Htcs. reflexivity.
Qed.

Lemma C5_witness :
  gjson.GetR (chat_completions.ConvertOpenAIRequestToCodex
                "gpt-5" chat_request true) "input"
  = Some (JArray None
            (flat_map (chat_completions.items_of_message
                         (chat_completions.originalToolNameMap chat_request))
                      sample_messages)) /\
  chat_completions.items_of_message
    (chat_completions.originalToolNameMap chat_request) sample_tool_message
  = [JObject None
       [("type", JString "function_call_output");
        ("call_id", JString (norm_id long_id));
        ("output",
         JString ("[ " +:+ compact (obj [("type", JString "text");
                                        ("text", JString "42")]) +:+ " ]"))]].
Proof.
  destruct (C5_messages_to_items "gpt-5" chat_request true
              (Some (compact (arr sample_messages))) sample_messages eq_refl)
    as (_ & H1 & H2).
  split; [exact H1 |].
  rewrite (proj1 (H2 sample_tool_message) eq_refl).
  vm_compute. reflexivity.
Defined.

(** ** Tools *)

(** C10: the output [tools] array holds, in order, what each entry of the
    input array contributes, and an entry whose [type] is absent or the
    empty string, or whose [type] is neither empty nor [function] while the
    entry is not an object, contributes nothing: it is neither converted
    nor passed through. *)
Theorem C10_untyped_tools_dropped (modelName : string) (rawJSON : json)
    (stream : bool) (src : option string) (tools : list json) :
  gjson.Get rawJSON "tools" = Some (JArray src tools) -> tools <> [] ->
  let names := chat_completions.originalToolNameMap rawJSON in
  let out := chat_completions.ConvertOpenAIRequestToCodex
               modelName rawJSON stream in
  gjson.GetR out "tools"
  = Some (JArray None (flat_map (chat_completions.tool_entries names) tools)) /\
  forall t,
    gjson.Get t "type" = None \/ gjson.Get t "type" = Some (JString "") \/
    (gjson.String_ (gjson.Get t "type") <> "" /\
     gjson.String_ (gjson.Get t "type") <> "function" /\
     gjson.IsObject (Some t) = false) ->
    chat_completions.tool_entries names t = [].
Proof.
  intros Htools Hne names out. split.
  - unfold out. rewrite convert_tools; rewrite Htools.
    + reflexivity.
    + cbn [gjson.IsArray gjson.Array andb].
      destruct tools; [contradiction | reflexivity].
  - intros t H. unfold chat_completions.tool_entries. cbv zeta.
    destruct H as [H | [H | (H1 & H2 & H3)]].
    + rewrite H. reflexivity.
    + rewrite H. reflexivity.
    + rewrite H3, andb_false_r.
      destruct (String.eqb_spec (gjson.String_ (gjson.Get t "type")) "function");
        [contradiction | reflexivity].
Qed.

Lemma C10_witness :
  gjson.GetR (chat_completions.ConvertOpenAIRequestToCodex
                "gpt-5" chat_request true) "tools"
  = Some (JArray None
            (flat_map (chat_completions.tool_entries
                         (chat_completions.originalToolNameMap chat_request))
                      sample_tools)) /\
  chat_completions.tool_entries
    (chat_completions.originalToolNameMap chat_request)
    (parsed (obj [("name", JString "untyped")])) = [].
Proof.
  destruct (C10_untyped_tools_dropped "gpt-5" chat_request true
              (Some (compact (arr sample_tools))) sample_tools
              eq_refl ltac:(discriminate)) as [H1 H2].
  split; [exact H1 |]. apply H2. left. reflexivity.
Defined.

(** ** Structured output *)

Section schema_reads.

Context (rawJSON js : json) (s : option string) (ms : list (string * json)).
Hypothesis text_member :
  member "text" ms = Some (chat_completions.schema_text rawJSON js).
Hypothesis text_once : occurrences "text" ms <= 1.

(** Reading below [text.format] in the output. *)
Lemma read_format (rest : list string) :
  gjson.get_path (JObject s ms) ("text" :: "format" :: rest)
  = gjson.get_path (chat_completions.schema_format js) rest.
Proof.
  rewrite get_path_once by exact text_once. rewrite text_member.
  cbn [mbind option_bind].
  unfold chat_completions.schema_text. rewrite get_path_object.
  cbn [gjson.first_hit]. change (String.eqb "format" "format") with true.
  cbv iota.
  destruct (gjson.get_path (chat_completions.schema_format js) rest);
    [reflexivity |].
  now destruct (chat_completions.copied _).
Qed.

Lemma read_format_member (k : string) :
  gjson.get_path (JObject s ms) ["text"; "format"; k]
  = member k (("type", JString "json_schema")
                :: chat_completions.opt_member "name"
                     (chat_completions.copied (gjson.Get js "name"))
                ++ chat_completions.opt_member "strict"
                     (chat_completions.copied (gjson.Get js "strict"))
                ++ chat_completions.opt_member "schema" (gjson.Get js "schema")).
Proof. rewrite read_format. apply get_path_one. Qed.

End schema_reads.

(** C7 (amended): when the input's [response_format.type] is
    [json_schema], [response_format.json_schema] is present and the values
    copied from [name], [strict] and [text.verbosity] can be written, the
    output has [text.format.type = "json_schema"]; [name] and [strict] are
    copied by value when present (a string or a boolean as it is),
    [schema] is in the output the very document it is in the request,
    with the same bytes, and [text.format] has no member for what is
    absent from the input. *)
Theorem C7_json_schema_format (modelName : string) (rawJSON : json)
    (stream : bool) (rf js : json) :
  gjson.Get rawJSON "response_format" = Some rf ->
  gjson.String_ (gjson.Get rf "type") = "json_schema" ->
  gjson.Get rf "json_schema" = Some js ->
  chat_completions.writes_ok rawJSON = true ->
  let out := chat_completions.ConvertOpenAIRequestToCodex
               modelName rawJSON stream in
  gjson.GetR out "text.format"
  = Some (JObject None
            (("type", JString "json_schema")
               :: chat_completions.opt_member "name"
                    (chat_completions.copied (gjson.Get js "name"))
               ++ chat_completions.opt_member "strict"
                    (chat_completions.copied (gjson.Get js "strict"))
               ++ chat_completions.opt_member "schema"
                    (gjson.Get js "schema"))) /\
  gjson.GetR out "text.format.type" = Some (JString "json_schema") /\
  gjson.GetR out "text.format.name"
  = chat_completions.copied (gjson.Get js "name") /\
  gjson.GetR out "text.format.strict"
  = chat_completions.copied (gjson.Get js "strict") /\
  gjson.GetR out "text.format.schema" = gjson.Get js "schema" /\
  gjson.String_ (gjson.GetR out "text.format.schema")
  = gjson.String_ (gjson.Get js "schema") /\
  (forall s, gjson.Get js "name" = Some (JString s) ->
             gjson.GetR out "text.format.name"
             = Some (JString (utf8.coerce s))) /\
  (forall b, gjson.Get js "strict" = Some (JBool b) ->
             gjson.GetR out "text.format.strict" = Some (JBool b)).
Proof.
  intros Hrf Ht Hjs Hw out.
  destruct (convert_text modelName rawJSON stream rf js Hrf Ht Hjs Hw)
    as (s & ms & E & Hm & Ho).
  assert (Hname : gjson.GetR out "text.format.name"
                  = chat_completions.copied (gjson.Get js "name")).
  { unfold out. rewrite E.
    change (gjson.GetR (Some (JObject s ms)) "text.format.name")
      with (gjson.get_path (JObject s ms) ["text"; "format"; "name"]).
    rewrite (read_format_member rawJSON js s ms Hm Ho). simpl.
    destruct (chat_completions.copied (gjson.Get js "name")); simpl;
      destruct (chat_completions.copied (gjson.Get js "strict")); simpl;
      now destruct (gjson.Get js "schema"). }
  assert (Hstrict : gjson.GetR out "text.format.strict"
                    = chat_completions.copied (gjson.Get js "strict")).
  { unfold out. rewrite E.
    change (gjson.GetR (Some (JObject s ms)) "text.format.strict")
      with (gjson.get_path (JObject s ms) ["text"; "format"; "strict"]).
    rewrite (read_format_member rawJSON js s ms Hm Ho). simpl.
    destruct (chat_completions.copied (gjson.Get js "name")); simpl;
      destruct (chat_completions.copied (gjson.Get js "strict")); simpl;
      now destruct (gjson.Get js "schema"). }
  assert (Hschema : gjson.GetR out "text.format.schema"
                    = gjson.Get js "schema").
  { unfold out. rewrite E.
    change (gjson.GetR (Some (JObject s ms)) "text.format.schema")
      with (gjson.get_path (JObject s ms) ["text"; "format"; "schema"]).
    rewrite (read_format_member rawJSON js s ms Hm Ho). simpl.
    destruct (chat_completions.copied (gjson.Get js "name")); simpl;
      destruct (chat_completions.copied (gjson.Get js "strict")); simpl;
      now destruct (gjson.Get js "schema"). }
  repeat split.
  - unfold out. rewrite E.
    change (gjson.GetR (Some (JObject s ms)) "text.format")
      with (gjson.get_path (JObject s ms) ["text"; "format"]).
    rewrite (read_format rawJSON js s ms Hm Ho). apply get_path_nil.
  - unfold out. rewrite E.
    change (gjson.GetR (Some (JObject s ms)) "text.format.type")
      with (gjson.get_path (JObject s ms) ["text"; "format"; "type"]).
    now rewrite (read_format_member rawJSON js s ms Hm Ho).
  - exact Hname.
  - exact Hstrict.
  - exact Hschema.
  - now rewrite Hschema.
  - intros x Hx. rewrite Hname, Hx. reflexivity.
  - intros b Hb. rewrite Hstrict, Hb. now destruct b.
Qed.

Lemma C7_witness :
  let out := chat_completions.ConvertOpenAIRequestToCodex
               "gpt-5" chat_request true in
  gjson.GetR out "text.format.type" = Some (JString "json_schema") /\
  gjson.GetR out "text.format.name" = Some (JString "N") /\
  gjson.GetR out "text.format.strict" = Some JTrue /\
  gjson.GetR out "text.format.schema"
  = Some (parsed (obj [("type", JString "object")])).
Proof.
  destruct (C7_json_schema_format "gpt-5" chat_request true
              sample_response_format sample_schema
              eq_refl eq_refl eq_refl eq_refl)
    as (_ & H1 & H2 & H3 & H4 & _).
  repeat split; assumption.
Defined.

(** Without a [json_schema] member the output has no [text.format], and
    neither has it when [name] is [[1e999]], which [encoding/json] refuses,
    or when [text.verbosity] is: the failed write leaves [out] empty, and
    with it [input]. *)
Lemma C7_counterexample :
  (gjson.String_ (gjson.Get schema_without_body "response_format.type")
   = "json_schema" /\
   gjson.GetR (chat_completions.ConvertOpenAIRequestToCodex
                 "gpt-5" schema_without_body true) "text.format.type" = None) /\
  (gjson.String_ (gjson.Get schema_with_huge_name "response_format.type")
   = "json_schema" /\
   gjson.Exists (gjson.Get schema_with_huge_name "response_format.json_schema")
   = true /\
   gjson.GetR (chat_completions.ConvertOpenAIRequestToCodex
                 "gpt-5" schema_with_huge_name true) "text.format.type" = None /\
   gjson.GetR (chat_completions.ConvertOpenAIRequestToCodex
                 "gpt-5" schema_with_huge_name true) "input" = None) /\
  (gjson.String_ (gjson.Get schema_with_huge_verbosity "response_format.type")
   = "json_schema" /\
   gjson.Exists (gjson.Get schema_with_huge_verbosity
                   "response_format.json_schema") = true /\
   gjson.GetR (chat_completions.ConvertOpenAIRequestToCodex
                 "gpt-5" schema_with_huge_verbosity true) "text.format.type"
   = None).
Proof. vm_compute. repeat split. Qed.
(** ** The normalizer before its loops *)

Section normalizer_head.

Implicit Types (k : string) (ms : list (string * json)).

Lemma Delete_object k ms :
  parts k = [k] ->
  sjson.Delete (Some (JObject None ms)) k
  = Some (JObject None (del_member k ms)).
Proof.
  intros H. unfold sjson.Delete. rewrite H. simpl.
  destruct (member k ms) eqn:E; [reflexivity |].
  now rewrite del_member_absent.
Qed.

Lemma occurrences_put_member_ne k k' (v : json) ms :
  k <> k' -> occurrences k' (put_member k v ms) = occurrences k' ms.
Proof.
  intros Hne. unfold put_member. destruct (member k ms).
  - apply occurrences_set_member.
  - rewrite occurrences_app, occurrences_cons.
    destruct (String.eqb_spec k' k); [congruence |].
    change (occurrences k' []) with 0. lia.
Qed.

Lemma occurrences_del_member_ne k k' ms :
  k <> k' -> occurrences k' (del_member k ms) = occurrences k' ms.
Proof.
  intros Hne. induction ms as [|[k0 v0] ms IH]; simpl; [reflexivity |].
  destruct (String.eqb_spec k k0) as [->|H0].
  - rewrite occurrences_cons.
    destruct (String.eqb_spec k' k0); [congruence | reflexivity].
  - rewrite !occurrences_cons, IH. reflexivity.
Qed.

(** The four writes and the six deletions. *)
Lemma normalizer_head (modelName : string) (s : option string) ms (b : bool) :
  gjson.IsString (member "input" ms) = false ->
  responses.ConvertOpenAIResponsesRequestToCodex modelName (JObject s ms) b
  = responses.normalizeInputCallIDs
      (responses.convertSystemRoleToDeveloper
         (Some (JObject None (responses.stripped (responses.forced ms))))).
Proof.
  intros Hs. unfold responses.ConvertOpenAIResponsesRequestToCodex. cbv zeta.
  cbn [gjson.GetR]. rewrite (Get_member s ms "input") by reflexivity.
  rewrite Hs.
  change (sjson.Set_ ?t "stream" (GoBool true))
    with (sjson.splice t "stream" JTrue).
  change (sjson.Set_ ?t "store" (GoBool false))
    with (sjson.splice t "store" JFalse).
  change (sjson.Set_ ?t "parallel_tool_calls" (GoBool true))
    with (sjson.splice t "parallel_tool_calls" JTrue).
  change (sjson.Set_ ?t "include"
            (GoSlice [GoString "reasoning.encrypted_content"]))
    with (sjson.splice t "include"
            (JArray None [JString "reasoning.encrypted_content"])).
  rewrite !splice_object by (reflexivity || discriminate).
  rewrite !Delete_object by reflexivity.
  reflexivity.
Qed.

Lemma member_input_head ms :
  member "input" (responses.stripped (responses.forced ms))
  = member "input" ms.
Proof.
  unfold responses.stripped, responses.forced. cbn [fold_left responses.deleted_names].
  rewrite !member_del_member_ne by discriminate.
  rewrite !member_put_member_ne by discriminate. reflexivity.
Qed.

Lemma occurrences_input_head ms :
  occurrences "input" (responses.stripped (responses.forced ms))
  = occurrences "input" ms.
Proof.
  unfold responses.stripped, responses.forced. cbn [fold_left responses.deleted_names].
  rewrite !occurrences_del_member_ne by discriminate.
  rewrite !occurrences_put_member_ne by discriminate. reflexivity.
Qed.

End normalizer_head.

(** ** The loops of the normalizer *)

Section normalizer_loops.

Implicit Types (ms : list (string * json)) (cur l : list json) (it : json).

(** A write into item [i] of [input]. *)
Lemma splice_input_item ms (sa : option string) cur (i : nat) it
    (p k : string) (v : json) :
  parts p = ["input"; Itoa i; k] ->
  member "input" ms = Some (JArray sa cur) -> cur !! i = Some it ->
  sjson.splice (Some (JObject None ms)) p v
  = match sjson.set_path [k] v it with
    | Some it' =>
        Some (JObject None
                (set_member "input" (JArray None (<[i := it']> cur)) ms))
    | None => Some (JObject None ms)
    end.
Proof.
  intros Hp Hm Hi. unfold sjson.splice.
  destruct (String.eqb_spec p "") as [->|_]; [discriminate Hp |].
  rewrite Hp. cbn [default from_option id].
  change (sjson.set_path ["input"; Itoa i; k] v (JObject None ms))
    with (match gjson.child "input" (JObject None ms) with
          | Some c =>
              match sjson.set_path [Itoa i; k] v c with
              | Some c' => Some (sjson.replace_child "input" c' (JObject None ms))
              | None => None
              end
          | None => Some (JObject None (ms ++ [("input", sjson.build [Itoa i; k] v)]))
          end).
  cbn [gjson.child]. rewrite Hm.
  change (sjson.set_path [Itoa i; k] v (JArray sa cur))
    with (match gjson.child (Itoa i) (JArray sa cur) with
          | Some c =>
              match sjson.set_path [k] v c with
              | Some c' => Some (sjson.replace_child (Itoa i) c' (JArray sa cur))
              | None => None
              end
          | None =>
              match sjson.atoui (Itoa i) with
              | Some n =>
                  Some (JArray None (cur ++ repeat JNull (n - length cur)
                                       ++ [sjson.build [k] v]))
              | None =>
                  if String.eqb (Itoa i) "-1"
                  then Some (JArray None (cur ++ [sjson.build [k] v]))
                  else None
              end
          end).
  cbn [gjson.child]. rewrite parseUint_Itoa, Hi.
  destruct (sjson.set_path [k] v it) as [it'|]; [| reflexivity].
  cbn [sjson.replace_child]. rewrite parseUint_Itoa. reflexivity.
Qed.


Lemma list_insert_middle {A} (done rest : list A) (x y : A) :
  <[length done := y]> (done ++ x :: rest) = done ++ y :: rest.
Proof. induction done as [|d done IH]; simpl; [reflexivity | now rewrite IH]. Qed.

(** A member read under a name that is not a number belongs to an
    object. *)
Lemma child_member it (k : string) (r : json) :
  gjson.parseUint k = None -> gjson.child k it = Some r ->
  exists s ims, it = JObject s ims /\ member k ims = Some r.
Proof.
  intros Hk H. destruct it; simpl in H; try discriminate.
  - rewrite Hk in H. discriminate.
  - eauto.
Qed.

(** *** The call-identifier loop *)

Lemma callID_step_item ms (sa : option string) (done rest : list json) it
    (c : gmap string string) :
  member "input" ms = Some (JArray sa (done ++ it :: rest)) -> cache_ok c ->
  exists sa' c',
    responses.callID_step (Some (JObject None ms), Some c) (length done, it)
    = (Some (JObject None
               (set_member "input"
                  (JArray sa' (done ++ responses.fix_call_id it :: rest)) ms)),
       Some c') /\
    cache_ok c'.
Proof.
  intros Hm Hc. unfold responses.callID_step, responses.fix_call_id.
  set (callID := gjson.String_ (gjson.Get it "call_id")).
  destruct (String.eqb_spec callID "") as [E|E].
  { exists sa, c. now rewrite (set_member_same _ _ _ Hm). }
  destruct (responses_normalizeCallID_ok c callID Hc) as (c' & -> & Hc').
  destruct (String.eqb_spec (norm_id callID) callID) as [E'|E'].
  { exists sa, c'. now rewrite (set_member_same _ _ _ Hm). }
  assert (Hold : exists old, gjson.child "call_id" it = Some old).
  { subst callID. rewrite (Get_plain it "call_id") in E by reflexivity.
    destruct (gjson.child "call_id" it); [eauto | contradiction]. }
  destruct Hold as [old Hold].
  change (sjson.Set_ ?t ?p (GoString (norm_id callID)))
    with (sjson.splice t p (JString (utf8.coerce (norm_id callID)))).
  rewrite (splice_input_item ms sa _ (length done) it _ "call_id" _
             (parts_callIDPath (length done)) Hm)
    by (apply list_lookup_middle; reflexivity).
  cbn [sjson.set_path]. rewrite Hold. rewrite list_insert_middle.
  exists None, c'. now split.
Qed.

Lemma callID_loop (rest : list json) :
  forall (done : list json) ms (sa : option string) (c : gmap string string),
    member "input" ms = Some (JArray sa (done ++ rest)) -> cache_ok c ->
    exists sa' c',
      fold_left responses.callID_step
                (combine (seq (length done) (length rest)) rest)
                (Some (JObject None ms), Some c)
      = (Some (JObject None
                 (set_member "input"
                    (JArray sa' (done ++ map responses.fix_call_id rest)) ms)),
         Some c') /\
      cache_ok c'.
Proof.
  induction rest as [|it rest IH]; intros done ms sa c Hm Hc.
  - exists sa, c. cbn [map length seq combine fold_left].
    now rewrite (set_member_same _ _ _ Hm).
  - cbn [length seq combine fold_left map].
    destruct (callID_step_item ms sa done rest it c Hm Hc)
      as (sa1 & c1 & -> & Hc1).
    specialize (IH (done ++ [responses.fix_call_id it])
                  (set_member "input"
                     (JArray sa1 (done ++ responses.fix_call_id it :: rest)) ms)
                  sa1 c1).
    rewrite length_app, Nat.add_1_r, <- !app_assoc in IH.
    destruct IH as (sa' & c' & E & Hc'); [| exact Hc1 |].
    { apply member_set_member_eq. eauto. }
    exists sa', c'. split; [| exact Hc'].
    rewrite set_member_twice in E. exact E.
Qed.

Lemma normalizeInputCallIDs_eq ms (sa : option string) cur :
  member "input" ms = Some (JArray sa cur) ->
  exists sa',
    responses.normalizeInputCallIDs (Some (JObject None ms))
    = Some (JObject None
              (set_member "input"
                 (JArray sa' (map responses.fix_call_id cur)) ms)).
Proof.
  intros Hm. unfold responses.normalizeInputCallIDs. cbv zeta.
  cbn [gjson.GetR]. rewrite (Get_member None ms "input") by reflexivity.
  rewrite Hm. cbn [gjson.IsArray negb gjson.Array]. unfold responses.indexed.
  destruct (callID_loop cur [] ms sa ∅ Hm cache_ok_empty)
    as (sa' & c' & E & _).
  cbn [length app] in E. exists sa'.
  apply (f_equal fst) in E. exact E.
Qed.

(** *** What the corrections do to an item *)

Lemma fix_call_id_long it (id : string) :
  gjson.String_ (gjson.Get it "call_id") = id -> 64 < String.length id ->
  gjson.Get (responses.fix_call_id it) "call_id"
  = Some (JString (shortenCallID id)).
Proof.
  intros Hid Hlen. unfold responses.fix_call_id. cbv zeta. rewrite Hid.
  destruct (norm_id_length id Hlen) as (En & _ & _).
  destruct (String.eqb_spec id "") as [->|_]; [simpl in Hlen; lia |].
  rewrite En, coerce_shortenCallID by exact Hlen.
  destruct (String.eqb_spec (shortenCallID id) id) as [E|_].
  { pose proof (shortenCallID_length id Hlen) as H. rewrite E in H. lia. }
  rewrite (Get_plain it "call_id") in Hid by reflexivity.
  destruct (gjson.child "call_id" it) as [old|] eqn:Hold;
    [| subst id; simpl in Hlen; lia].
  destruct (child_member it "call_id" old eq_refl Hold) as (s & ims & -> & Hm).
  cbn [sjson.replace_child]. rewrite Get_member by reflexivity.
  apply member_set_member_eq. eauto.
Qed.

Lemma replace_child_frame it (k k' : string) (v : json) :
  k <> k' -> gjson.parseUint k = None ->
  gjson.child k' (sjson.replace_child k v it) = gjson.child k' it.
Proof.
  intros Hne Hk. destruct it; try reflexivity; simpl.
  - now rewrite Hk.
  - now apply member_set_member_ne.
Qed.

Lemma fix_call_id_role it :
  gjson.Get (responses.fix_call_id it) "role" = gjson.Get it "role".
Proof.
  unfold responses.fix_call_id. cbv zeta.
  destruct (String.eqb _ ""); [reflexivity |].
  destruct (String.eqb _ _); [reflexivity |].
  rewrite !Get_plain by reflexivity.
  apply replace_child_frame; [discriminate | reflexivity].
Qed.

Lemma fix_role_role it :
  gjson.Get (responses.fix_role it) "role"
  = if String.eqb (gjson.String_ (gjson.Get it "role")) "system"
    then Some (JString "developer") else gjson.Get it "role".
Proof.
  unfold responses.fix_role.
  destruct (String.eqb_spec (gjson.String_ (gjson.Get it "role")) "system")
    as [E|_]; [| reflexivity].
  rewrite (Get_plain it "role") in E by reflexivity.
  destruct (gjson.child "role" it) as [old|] eqn:Hold; [| discriminate E].
  destruct (child_member it "role" old eq_refl Hold) as (s & ims & -> & Hm).
  cbn [sjson.replace_child]. rewrite Get_member by reflexivity.
  apply member_set_member_eq. eauto.
Qed.

(** *** The role loop *)

(** One round of the role loop on the item at index [length done'].
    What is read at [input.i.role] is the role of the item when the item
    has one, or when [input] occurs once; otherwise gjson may take it
    from a later [input]. *)
Lemma role_step_item (one : Prop) ms (sa : option string)
    (done' rest : list json) it :
  member "input" ms = Some (JArray sa (done' ++ it :: rest)) ->
  (one -> occurrences "input" ms <= 1) ->
  exists sa' it',
    responses.role_step (Some (JObject None ms)) (length done')
    = Some (JObject None
              (set_member "input" (JArray sa' (done' ++ it' :: rest)) ms)) /\
    role_kept one it it'.
Proof.
  intros Hm Ho. unfold responses.role_step.
  set (r := gjson.GetR (Some (JObject None ms))
              (responses.rolePath (length done'))).
  assert (Hit : (done' ++ it :: rest) !! length done' = Some it)
    by (apply list_lookup_middle; reflexivity).
  assert (Hread : gjson.child "role" it <> None \/ one ->
                  r = gjson.child "role" it).
  { intros [Hr | H1]; subst r; cbn [gjson.GetR]; unfold gjson.Get;
      rewrite parts_rolePath.
    - destruct (gjson.child "role" it) as [v|] eqn:Ev; [| contradiction].
      apply (get_path_step _ (JArray sa (done' ++ it :: rest)) v);
        [exact Hm |].
      apply (get_path_step _ it v); [| now rewrite get_path_one].
      cbn [gjson.child]. rewrite parseUint_Itoa. exact Hit.
    - rewrite get_path_once by auto. rewrite Hm. cbn [mbind option_bind].
      rewrite get_path_array, parseUint_Itoa. cbn [mbind option_bind].
      rewrite Hit. apply get_path_one. }
  destruct (String.eqb_spec (gjson.String_ r) "system") as [E|E].
  - change (sjson.Set_ ?t ?p (GoString "developer"))
      with (sjson.splice t p (JString "developer")).
    rewrite (splice_input_item ms sa _ (length done') it _ "role" _
               (parts_rolePath (length done')) Hm Hit).
    destruct (sjson.set_path ["role"] (JString "developer") it) as [it'|] eqn:Es.
    + rewrite list_insert_middle. exists None, it'.
      split; [reflexivity |]. split.
      * apply (set_path_frame [] (JString "developer") it it' "role" "call_id");
          [discriminate | reflexivity | exact Es].
      * intros H. rewrite (Hread H) in E. unfold responses.fix_role.
        rewrite (Get_plain it "role") by reflexivity. rewrite E.
        cbn [String.eqb Ascii.eqb Bool.eqb].
        cbn [sjson.set_path] in Es.
        destruct (gjson.child "role" it); [| discriminate E].
        now injection Es as <-.
    + exists sa, it. rewrite (set_member_same _ _ _ Hm).
      split; [reflexivity |]. split; [reflexivity |].
      intros H. rewrite (Hread H) in E. cbn [sjson.set_path] in Es.
      destruct (gjson.child "role" it); [discriminate Es | discriminate E].
  - exists sa, it. rewrite (set_member_same _ _ _ Hm).
    split; [reflexivity |]. split; [reflexivity |].
    intros H. rewrite (Hread H) in E. unfold responses.fix_role.
    rewrite (Get_plain it "role") by reflexivity.
    now destruct (String.eqb_spec (gjson.String_ (gjson.child "role" it))
                    "system").
Qed.

Lemma role_loop (one : Prop) (rest : list json) :
  forall (done done' : list json) ms (sa : option string),
    member "input" ms = Some (JArray sa (done' ++ rest)) ->
    (one -> occurrences "input" ms <= 1) ->
    Forall2 (role_kept one) done done' ->
    exists sa' cur,
      fold_left responses.role_step (seq (length done') (length rest))
                (Some (JObject None ms))
      = Some (JObject None (set_member "input" (JArray sa' cur) ms)) /\
      Forall2 (role_kept one) (done ++ rest) cur.
Proof.
  induction rest as [|it rest IH]; intros done done' ms sa Hm Ho Hd.
  - exists sa, done'. rewrite !app_nil_r in *.
    now rewrite (set_member_same _ _ _ Hm).
  - cbn [length seq fold_left].
    destruct (role_step_item one ms sa done' rest it Hm Ho)
      as (sa1 & it' & -> & Hk).
    specialize (IH (done ++ [it]) (done' ++ [it'])
                  (set_member "input" (JArray sa1 (done' ++ it' :: rest)) ms)
                  sa1).
    rewrite length_app, Nat.add_1_r, <- !app_assoc in IH.
    destruct IH as (sa' & cur & E & HF).
    + apply member_set_member_eq. eauto.
    + now rewrite occurrences_set_member.
    + apply Forall2_app; [exact Hd | now constructor].
    + exists sa', cur. split; [| exact HF].
      rewrite set_member_twice in E. exact E.
Qed.

Lemma convertSystemRoleToDeveloper_items (one : Prop) ms
    (sa : option string) l :
  member "input" ms = Some (JArray sa l) ->
  (one -> occurrences "input" ms <= 1) ->
  exists sa' cur,
    responses.convertSystemRoleToDeveloper (Some (JObject None ms))
    = Some (JObject None (set_member "input" (JArray sa' cur) ms)) /\
    Forall2 (role_kept one) l cur.
Proof.
  intros Hm Ho. unfold responses.convertSystemRoleToDeveloper. cbv zeta.
  cbn [gjson.GetR]. rewrite (Get_member None ms "input") by reflexivity.
  rewrite Hm. cbn [gjson.IsArray negb gjson.Array].
  apply (role_loop one l [] [] ms sa Hm Ho). constructor.
Qed.

(** The output of the normalizer for a request whose [input] is an
    array: the members of the request after the four writes and the six
    deletions, with, in [input], the items that the role loop leaves,
    their call identifiers corrected. *)
Lemma normalizer_output (modelName : string) (s sa : option string) ms
    (b : bool) l :
  member "input" ms = Some (JArray sa l) ->
  exists sa' cur,
    responses.ConvertOpenAIResponsesRequestToCodex modelName (JObject s ms) b
    = Some (JObject None
              (set_member "input"
                 (JArray sa' (map responses.fix_call_id cur))
                 (responses.stripped (responses.forced ms)))) /\
    Forall2 (role_kept (occurrences "input" ms <= 1)) l cur.
Proof.
  intros Hm. rewrite normalizer_head by now rewrite Hm.
  set (ms0 := responses.stripped (responses.forced ms)).
  assert (Hm0 : member "input" ms0 = Some (JArray sa l))
    by (unfold ms0; now rewrite member_input_head).
  destruct (convertSystemRoleToDeveloper_items
              (occurrences "input" ms <= 1) ms0 sa l Hm0)
    as (sa1 & cur & -> & Hk).
  { unfold ms0. now rewrite occurrences_input_head. }
  destruct (normalizeInputCallIDs_eq
              (set_member "input" (JArray sa1 cur) ms0) sa1 cur)
    as (sa' & ->).
  { apply member_set_member_eq. eauto. }
  exists sa', cur. now rewrite set_member_twice.
Qed.

Lemma normalizer_input (modelName : string) (s sa : option string) ms
    (b : bool) l :
  member "input" ms = Some (JArray sa l) ->
  exists ms' sa' cur,
    responses.ConvertOpenAIResponsesRequestToCodex modelName (JObject s ms) b
    = Some (JObject None ms') /\
    member "input" ms'
    = Some (JArray sa' (map responses.fix_call_id cur)) /\
    Forall2 (role_kept (occurrences "input" ms <= 1)) l cur.
Proof.
  intros Hm.
  destruct (normalizer_output modelName s sa ms b l Hm) as (sa' & cur & E & Hk).
  eexists _, sa', cur. split; [exact E |]. split; [| exact Hk].
  apply member_set_member_eq. rewrite member_input_head, Hm. eauto.
Qed.

End normalizer_loops.
(** ** Roles *)

Section role_facts.

Lemma function_calls_no_role (names : gmap string string) (m : json) :
  Forall (fun c => gjson.Get c "role" = None)
         (chat_completions.function_calls names m).
Proof.
  unfold chat_completions.function_calls. cbv zeta.
  destruct (_ && _); [| constructor].
  apply Forall_forall. intros c Hc. apply list_elem_of_In, in_map_iff in Hc.
  destruct Hc as (tc & <- & _). reflexivity.
Qed.

Lemma calls_no_role (names : gmap string string) (m : json) (b : bool) :
  Forall (fun c => gjson.Get c "role" = None)
         (if b then chat_completions.function_calls names m else []).
Proof. destruct b; [apply function_calls_no_role | constructor]. Qed.

Lemma role_kept_role (one : Prop) (it c : json) :
  role_kept one it c ->
  gjson.child "role" it <> None \/ one ->
  gjson.Get (responses.fix_call_id c) "role"
  = if String.eqb (gjson.String_ (gjson.Get it "role")) "system"
    then Some (JString "developer") else gjson.Get it "role".
Proof.
  intros [_ Hk] H. rewrite fix_call_id_role, (Hk H). apply fix_role_role.
Qed.

End role_facts.

(** C6 (amended): in the Chat-Completions converter a message whose role
    reads [system] gives a [message] item with role [developer], and a
    message with another role than [tool] gives a [message] item with
    that role as sjson writes it; the [function_call] items that follow
    have no role, a [tool] message gives one [function_call_output] item
    without a role, and a message without a role field gives a [message]
    item with the empty role.  The items are in [input] after the pass
    over the messages, and in the output unless a value copied later
    cannot be written.  In the Responses normalizer an item of [input]
    that has a role member, or any item when the request has one member
    named [input], keeps its role member unless that reads [system], and
    then the role is [developer]. *)
Theorem C6_system_becomes_developer :
  (forall (modelName : string) (rawJSON : json) (stream : bool)
          (src : option string) (msgs : list json),
     gjson.Get rawJSON "messages" = Some (JArray src msgs) ->
     let names := chat_completions.originalToolNameMap rawJSON in
     let items := flat_map (chat_completions.items_of_message names) msgs in
     (forall out, objish out ->
        gjson.GetR (chat_completions.build_input names rawJSON out) "input"
        = Some (JArray None items)) /\
     gjson.GetR (chat_completions.ConvertOpenAIRequestToCodex
                   modelName rawJSON stream) "input"
     = (if chat_completions.writes_ok rawJSON then Some (JArray None items)
        else None) /\
     forall m, let role := gjson.String_ (gjson.Get m "role") in
       (role = "system" ->
        exists msg calls,
          chat_completions.items_of_message names m = msg :: calls /\
          gjson.Get msg "type" = Some (JString "message") /\
          gjson.Get msg "role" = Some (JString "developer") /\
          Forall (fun c => gjson.Get c "role" = None) calls) /\
       (role <> "system" -> role <> "tool" ->
        exists msg calls,
          chat_completions.items_of_message names m = msg :: calls /\
          gjson.Get msg "type" = Some (JString "message") /\
          gjson.Get msg "role" = Some (JString (utf8.coerce role)) /\
          Forall (fun c => gjson.Get c "role" = None) calls) /\
       (gjson.Get m "role" = None ->
        exists msg,
          chat_completions.items_of_message names m = [msg] /\
          gjson.Get msg "role" = Some (JString "")) /\
       (role = "tool" ->
        exists item,
          chat_completions.items_of_message names m = [item] /\
          gjson.Get item "type" = Some (JString "function_call_output") /\
          gjson.Get item "role" = None)) /\
  (forall (modelName : string) (s : option string)
          (ms : list (string * json)) (flag : bool)
          (sa : option string) (l : list json),
     member "input" ms = Some (JArray sa l) ->
     exists sa' l',
       gjson.GetR (responses.ConvertOpenAIResponsesRequestToCodex
                     modelName (JObject s ms) flag) "input"
       = Some (JArray sa' l') /\
       length l' = length l /\
       forall i it, l !! i = Some it ->
         gjson.Get it "role" <> None \/ occurrences "input" ms <= 1 ->
         exists it', l' !! i = Some it' /\
           gjson.Get it' "role"
           = (if String.eqb (gjson.String_ (gjson.Get it "role")) "system"
              then Some (JString "developer") else gjson.Get it "role")).
Proof.
  split.
  - intros modelName rawJSON stream src msgs Hmsgs names items.
    split; [| split].
    { intros out Ho. rewrite build_input_read by exact Ho.
      now rewrite (input_items_messages names rawJSON src msgs Hmsgs). }
    { rewrite convert_input, keep_if. fold names.
      now rewrite (input_items_messages names rawJSON src msgs Hmsgs). }
    intros m role. unfold chat_completions.items_of_message. cbv zeta.
    fold role. split; [| split; [| split]].
    + intros ->. cbn [String.eqb Ascii.eqb Bool.eqb].
      eexists _, _. split; [reflexivity |]. repeat split. constructor.
    + intros Hns Hnt.
      destruct (String.eqb_spec role "tool") as [|_]; [contradiction |].
      eexists _, _. split; [reflexivity |].
      split; [reflexivity |]. split; [| apply calls_no_role].
      unfold chat_completions.message_object.
      destruct (String.eqb_spec role "system"); [contradiction | reflexivity].
    + intros Hnone. subst role. rewrite Hnone.
      eexists. split; reflexivity.
    + intros ->. eexists. repeat split.
  - intros modelName s ms flag sa l Hm.
    destruct (normalizer_input modelName s sa ms flag l Hm)
      as (ms' & sa' & cur & -> & Hm' & Hk).
    exists sa', (map responses.fix_call_id cur).
    split; [cbn [gjson.GetR]; now rewrite Get_member |].
    split; [rewrite length_map; symmetry; exact (Forall2_length _ _ _ Hk) |].
    intros i it Hi Hrole.
    destruct (Forall2_lookup_l _ _ _ _ _ Hk Hi) as (c & Hc & Hkc).
    exists (responses.fix_call_id c).
    split; [now rewrite list_lookup_fmap, Hc |].
    apply (role_kept_role _ it c Hkc).
    rewrite (Get_plain it "role") in Hrole by reflexivity. exact Hrole.
Qed.

Lemma C6_witness :
  (exists msg calls,
     chat_completions.items_of_message
       (chat_completions.originalToolNameMap chat_request)
       (parsed (obj [("role", JString "system");
                     ("content", JString "Be terse.")]))
     = msg :: calls /\
     gjson.Get msg "role" = Some (JString "developer")) /\
  (exists sa' l',
     gjson.GetR (responses.ConvertOpenAIResponsesRequestToCodex
                   "gpt-5.2" responses_request false) "input"
     = Some (JArray sa' l') /\
     exists it', l' !! 1 = Some it' /\
                 gjson.Get it' "role" = Some (JString "developer")).
Proof.
  split.
  - destruct (proj1 C6_system_becomes_developer
                "gpt-5" chat_request true
                (Some (compact (arr sample_messages))) sample_messages
                eq_refl) as (_ & _ & H).
    destruct (proj1 (H (parsed (obj [("role", JString "system");
                                     ("content", JString "Be terse.")])))
                eq_refl)
      as (msg & calls & H1 & _ & H2 & _).
    exists msg, calls. split; [exact H1 | exact H2].
  - destruct (proj2 C6_system_becomes_developer
                "gpt-5.2" (Some (compact (obj responses_members)))
                responses_members false
                (Some (compact (arr sample_items))) sample_items eq_refl)
      as (sa' & l' & H1 & _ & H2).
    exists sa', l'. split; [exact H1 |].
    edestruct (H2 1) as (it' & H3 & H4);
      [reflexivity | left; discriminate |].
    exists it'. split; [exact H3 | exact H4].
Defined.

(** A message without a role field comes out of the Chat-Completions
    converter with a role field, the empty string; and where the request
    repeats [input], the normalizer gives the role [developer] to an item
    of the first [input] that has no role, the role it reads being that
    of the item at the same index of the second. *)
Lemma C6_counterexample :
  (gjson.Get no_role_request "messages.0.role" = None /\
   gjson.GetR (chat_completions.ConvertOpenAIRequestToCodex
                 "gpt-5" no_role_request true) "input.0.role"
   = Some (JString "")) /\
  (gjson.Get repeated_input "input"
   = Some (parsed (arr [obj [("type", JString "message")]])) /\
   gjson.GetR (responses.ConvertOpenAIResponsesRequestToCodex
                 "gpt-5.2" repeated_input false) "input"
   = Some (JArray None [JObject None [("type", JString "message");
                                      ("role", JString "developer")]])).
Proof. vm_compute. repeat split. Qed.
(** ** Call identifiers across one request *)

Section call_id_lookups.

Lemma chat_normalizeCallID_twice (c : gmap string string) (id : string) :
  (chat_completions.normalizeCallID
     (chat_completions.normalizeCallID c id).2 id).1
  = (chat_completions.normalizeCallID c id).1.
Proof.
  unfold chat_completions.normalizeCallID.
  destruct (String.eqb id "" || (String.length id <=? 64)%nat) eqn:E.
  - reflexivity.
  - destruct (c !! id) as [short|] eqn:El; cbn [fst snd].
    + now rewrite El.
    + now rewrite lookup_insert_eq.
Qed.

Lemma responses_normalizeCallID_twice (cache : option (gmap string string))
    (id : string) :
  (responses.normalizeCallID id (responses.normalizeCallID id cache).2).1
  = (responses.normalizeCallID id cache).1.
Proof.
  unfold responses.normalizeCallID.
  destruct (String.eqb id "" || (String.length id <=? 64)%nat) eqn:E.
  - reflexivity.
  - destruct cache as [c|]; cbn [mbind option_bind fmap option_fmap option_map].
    + destruct (c !! id) as [short|] eqn:El; cbn [fst snd mbind option_bind].
      * now rewrite El.
      * now rewrite lookup_insert_eq.
    + reflexivity.
Qed.

Lemma in_items (names : gmap string string) (msgs : list json) (m x : json) :
  m ∈ msgs -> x ∈ chat_completions.items_of_message names m ->
  x ∈ flat_map (chat_completions.items_of_message names) msgs.
Proof.
  rewrite !list_elem_of_In. intros Hm Hx. apply in_flat_map. eauto.
Qed.

Lemma written_norm_id (id : string) :
  64 < String.length id ->
  chat_completions.written (norm_id id) = JString (shortenCallID id).
Proof.
  intros Hlen. unfold chat_completions.written.
  destruct (norm_id_length id Hlen) as (-> & _).
  now rewrite coerce_shortenCallID.
Qed.

End call_id_lookups.

(** C1: shortening a call identifier of more than 64 characters gives at
    most 64 characters that start with [call_]; asked twice in a row, with
    whatever the cache holds, both [normalizeCallID]s answer the same, and
    from a cache filled during the call they answer [shortenCallID id].
    So in the Chat-Completions converter the [function_call] item of a
    tool call and the [function_call_output] item of a tool message with
    the same identifier carry the same shortened identifier: both are in
    [input] after the pass over the messages, and in the output unless a
    value copied later cannot be written, which leaves the output without
    [input].  In the Responses normalizer two items of [input] with the
    same identifier carry the same shortened identifier in the output,
    whatever else the request holds. *)
Theorem C1_call_id_correlation :
  (forall id, 64 < String.length id ->
     String.length (shortenCallID id) <= 64 /\
     HasPrefix (shortenCallID id) "call_" = true /\
     (forall c,
        (chat_completions.normalizeCallID
           (chat_completions.normalizeCallID c id).2 id).1
        = (chat_completions.normalizeCallID c id).1) /\
     (forall cache,
        (responses.normalizeCallID id (responses.normalizeCallID id cache).2).1
        = (responses.normalizeCallID id cache).1) /\
     (forall c, cache_ok c ->
        (chat_completions.normalizeCallID c id).1 = shortenCallID id /\
        (responses.normalizeCallID id (Some c)).1 = shortenCallID id)) /\
  (forall (modelName : string) (rawJSON : json) (stream : bool)
          (src st : option string) (msgs tcs : list json) (a tc m : json)
          (id : string),
     gjson.Get rawJSON "messages" = Some (JArray src msgs) ->
     a ∈ msgs -> gjson.String_ (gjson.Get a "role") = "assistant" ->
     gjson.Get a "tool_calls" = Some (JArray st tcs) -> tc ∈ tcs ->
     gjson.String_ (gjson.Get tc "type") = "function" ->
     gjson.String_ (gjson.Get tc "id") = id ->
     m ∈ msgs -> gjson.String_ (gjson.Get m "role") = "tool" ->
     gjson.String_ (gjson.Get m "tool_call_id") = id ->
     64 < String.length id ->
     exists items fc fo,
       (forall out, objish out ->
          gjson.GetR (chat_completions.build_input
                        (chat_completions.originalToolNameMap rawJSON)
                        rawJSON out) "input"
          = Some (JArray None items)) /\
       gjson.GetR (chat_completions.ConvertOpenAIRequestToCodex
                     modelName rawJSON stream) "input"
       = (if chat_completions.writes_ok rawJSON
          then Some (JArray None items) else None) /\
       fc ∈ items /\ fo ∈ items /\
       gjson.Get fc "type" = Some (JString "function_call") /\
       gjson.Get fo "type" = Some (JString "function_call_output") /\
       gjson.Get fc "call_id" = Some (JString (shortenCallID id)) /\
       gjson.Get fo "call_id" = Some (JString (shortenCallID id))) /\
  (forall (modelName : string) (s : option string)
          (ms : list (string * json)) (flag : bool) (sa : option string)
          (l : list json) (i j : nat) (it_i it_j : json) (id : string),
     member "input" ms = Some (JArray sa l) ->
     l !! i = Some it_i -> l !! j = Some it_j ->
     gjson.String_ (gjson.Get it_i "call_id") = id ->
     gjson.String_ (gjson.Get it_j "call_id") = id ->
     64 < String.length id ->
     exists sa' l' o_i o_j,
       gjson.GetR (responses.ConvertOpenAIResponsesRequestToCodex
                     modelName (JObject s ms) flag) "input"
       = Some (JArray sa' l') /\
       length l' = length l /\
       l' !! i = Some o_i /\ l' !! j = Some o_j /\
       gjson.Get o_i "call_id" = Some (JString (shortenCallID id)) /\
       gjson.Get o_j "call_id" = Some (JString (shortenCallID id))).
Proof.
  split; [| split].
  - intros id Hlen. split; [rewrite shortenCallID_length by exact Hlen; lia |].
    split; [now apply shortenCallID_prefix |].
    split; [intros c; apply chat_normalizeCallID_twice |].
    split; [intros cache; apply responses_normalizeCallID_twice |].
    intros c Hc. destruct (norm_id_length id Hlen) as (E & _).
    destruct (chat_normalizeCallID_ok c id Hc) as (c1 & -> & _).
    destruct (responses_normalizeCallID_ok c id Hc) as (c2 & -> & _).
    now rewrite E.
  - intros modelName rawJSON stream src st msgs tcs a tc m id
      Hmsgs Ha Hrole Htcs Htc Htype Hid Hm Hmrole Hmid Hlen.
    set (names := chat_completions.originalToolNameMap rawJSON).
    exists (flat_map (chat_completions.items_of_message names) msgs),
      (chat_completions.function_call_object names tc),
      (chat_completions.function_call_output_object m).
    split.
    { intros out Ho. rewrite build_input_read by exact Ho.
      now rewrite (input_items_messages names rawJSON src msgs Hmsgs). }
    split.
    { rewrite convert_input, keep_if. fold names.
      now rewrite (input_items_messages names rawJSON src msgs Hmsgs). }
    split.
    { apply (in_items names msgs a); [exact Ha |].
      unfold chat_completions.items_of_message. cbv zeta. rewrite Hrole.
      cbn [String.eqb Ascii.eqb Bool.eqb]. apply list_elem_of_further.
      unfold chat_completions.function_calls. cbv zeta. rewrite Htcs.
      cbn [gjson.Exists gjson.IsArray andb gjson.Array].
      rewrite list_elem_of_In. apply in_map, filter_In.
      split; [now apply list_elem_of_In |].
      unfold chat_completions.is_function_call. now rewrite Htype. }
    split.
    { apply (in_items names msgs m); [exact Hm |].
      unfold chat_completions.items_of_message. cbv zeta. rewrite Hmrole.
      cbn [String.eqb Ascii.eqb Bool.eqb]. apply list_elem_of_here. }
    split; [reflexivity |]. split; [reflexivity |].
    split.
    + unfold chat_completions.function_call_object.
      rewrite Get_member by reflexivity. cbn [member String.eqb Ascii.eqb Bool.eqb].
      rewrite Hid. now rewrite written_norm_id.
    + unfold chat_completions.function_call_output_object.
      rewrite Get_member by reflexivity. cbn [member String.eqb Ascii.eqb Bool.eqb].
      rewrite Hmid. now rewrite written_norm_id.
  - intros modelName s ms flag sa l i j it_i it_j id Hin Hi Hj Hidi Hidj Hlen.
    destruct (normalizer_input modelName s sa ms flag l Hin)
      as (ms' & sa' & cur & -> & Hm' & Hk).
    destruct (Forall2_lookup_l _ _ _ _ _ Hk Hi) as (c_i & Hci & Hki & _).
    destruct (Forall2_lookup_l _ _ _ _ _ Hk Hj) as (c_j & Hcj & Hkj & _).
    exists sa', (map responses.fix_call_id cur),
      (responses.fix_call_id c_i), (responses.fix_call_id c_j).
    split; [cbn [gjson.GetR]; now rewrite Get_member |].
    split; [rewrite length_map; symmetry; exact (Forall2_length _ _ _ Hk) |].
    split; [now rewrite list_lookup_fmap, Hci |].
    split; [now rewrite list_lookup_fmap, Hcj |].
    split; apply fix_call_id_long; try exact Hlen;
      rewrite Get_plain by reflexivity.
    + rewrite Hki. rewrite <- (Get_plain it_i "call_id") by reflexivity.
      exact Hidi.
    + rewrite Hkj. rewrite <- (Get_plain it_j "call_id") by reflexivity.
      exact Hidj.
Qed.

Lemma C1_witness :
  (String.length (shortenCallID long_id) <= 64 /\
   HasPrefix (shortenCallID long_id) "call_" = true) /\
  (exists items fc fo,
     gjson.GetR (chat_completions.ConvertOpenAIRequestToCodex
                   "gpt-5" chat_request true) "input"
     = Some (JArray None items) /\
     fc ∈ items /\ fo ∈ items /\
     gjson.Get fc "type" = Some (JString "function_call") /\
     gjson.Get fo "type" = Some (JString "function_call_output") /\
     gjson.Get fc "call_id" = Some (JString (shortenCallID long_id)) /\
     gjson.Get fo "call_id" = Some (JString (shortenCallID long_id))) /\
  (exists sa' l' o_i o_j,
     gjson.GetR (responses.ConvertOpenAIResponsesRequestToCodex
                   "gpt-5.2" responses_request false) "input"
     = Some (JArray sa' l') /\
     l' !! 0 = Some o_i /\ l' !! 2 = Some o_j /\
     gjson.Get o_i "call_id" = Some (JString (shortenCallID long_id)) /\
     gjson.Get o_j "call_id" = Some (JString (shortenCallID long_id))).
Proof.
  assert (Hlen : 64 < String.length long_id) by (simpl; lia).
  destruct C1_call_id_correlation as (Ha & Hb & Hc).
  split; [| split].
  - destruct (Ha long_id Hlen) as (H1 & H2 & _). split; assumption.
  - destruct (Hb "gpt-5" chat_request true
                (Some (compact (arr sample_messages)))
                (Some (compact (arr [sample_tool_call])))
                sample_messages [sample_tool_call]
                sample_assistant sample_tool_call sample_tool_message long_id
                eq_refl
                ltac:(unfold sample_messages; repeat constructor)
                eq_refl eq_refl
                ltac:(repeat constructor)
                eq_refl eq_refl
                ltac:(unfold sample_messages; repeat constructor)
                eq_refl eq_refl Hlen)
      as (items & fc & fo & _ & H1 & H2).
    exists items, fc, fo. split; [exact H1 | exact H2].
  - destruct (Hc "gpt-5.2" (Some (compact (obj responses_members)))
                responses_members false
                (Some (compact (arr sample_items))) sample_items
                0 2 _ _ long_id eq_refl eq_refl eq_refl eq_refl eq_refl Hlen)
      as (sa' & l' & o_i & o_j & H1 & _ & H2).
    exists sa', l', o_i, o_j. split; [exact H1 | exact H2].
Defined.

(** ** Repeated names in a Responses request *)

(** C9: where the request has two members named [user], the output of
    the normalizer still has the second: [sjson.DeleteBytes] removes one
    member. *)
Theorem C9_repeated_user_kept :
  gjson.Get repeated_user "user" = Some (JString "a") /\
  gjson.GetR (responses.ConvertOpenAIResponsesRequestToCodex
                "gpt-5.2" repeated_user false) "user"
  = Some (JString "b").
Proof. vm_compute. split; reflexivity. Qed.

(** C8: on that request a second run of the normalizer, on the output of
    the first, removes the member [user] that the first run left: the two
    outputs differ. *)
Theorem C8_second_run_differs :
  let first := responses.ConvertOpenAIResponsesRequestToCodex
                 "gpt-5.2" repeated_user false in
  let second := first ≫= (fun j =>
                  responses.ConvertOpenAIResponsesRequestToCodex
                    "gpt-5.2" (parsed j) false) in
  gjson.GetR first "user" = Some (JString "b") /\
  gjson.GetR second "user" = None /\
  second <> first.
Proof.
  cbv zeta. split; [vm_compute; reflexivity |].
  split; [vm_compute; reflexivity |].
  intros E. apply (f_equal (fun t => gjson.GetR t "user")) in E.
  vm_compute in E. discriminate E.
Qed.
(** ** The members of the normalizer's output *)

Section normalizer_members.

Implicit Types (k : string) (v w : json) (ms : list (string * json)).

Lemma set_member_snoc k k' v w ms :
  k <> k' -> set_member k' w (ms ++ [(k, v)]) = set_member k' w ms ++ [(k, v)].
Proof.
  intros Hne. induction ms as [|[k0 v0] ms IH]; simpl.
  - destruct (String.eqb_spec k' k); [congruence | reflexivity].
  - destruct (String.eqb k' k0); [reflexivity | now rewrite IH].
Qed.

Lemma put_member_set_member k k' v w ms :
  k <> k' ->
  put_member k v (set_member k' w ms) = set_member k' w (put_member k v ms).
Proof.
  intros Hne. unfold put_member.
  rewrite member_set_member_ne by congruence.
  destruct (member k ms).
  - apply set_member_comm. exact Hne.
  - now rewrite set_member_snoc.
Qed.

Lemma del_member_set_member k k' w ms :
  k <> k' ->
  del_member k (set_member k' w ms) = set_member k' w (del_member k ms).
Proof.
  intros Hne. induction ms as [|[k0 v0] ms IH]; simpl; [reflexivity |].
  destruct (String.eqb_spec k' k0) as [->|H1];
    destruct (String.eqb_spec k k0) as [->|H2]; simpl;
    rewrite ?String.eqb_refl; try congruence.
  - destruct (String.eqb_spec k k0); [congruence | reflexivity].
  - destruct (String.eqb_spec k' k0); [congruence |].
    destruct (String.eqb_spec k k0); [congruence | now rewrite IH].
Qed.

Lemma stripped_forced_set_member w ms :
  responses.stripped (responses.forced (set_member "input" w ms))
  = set_member "input" w (responses.stripped (responses.forced ms)).
Proof.
  unfold responses.stripped, responses.forced.
  cbn [fold_left responses.deleted_names].
  rewrite !put_member_set_member by discriminate.
  rewrite !del_member_set_member by discriminate. reflexivity.
Qed.

Lemma occurrences_del_member_eq k ms :
  occurrences k (del_member k ms) = pred (occurrences k ms).
Proof.
  induction ms as [|[k0 v0] ms IH]; simpl; [reflexivity |].
  destruct (String.eqb_spec k k0) as [->|Hne].
  - rewrite occurrences_cons, String.eqb_refl. reflexivity.
  - rewrite !occurrences_cons.
    destruct (String.eqb_spec k k0); [contradiction | exact IH].
Qed.

Lemma member_forced k ms :
  k ∉ ["stream"; "store"; "parallel_tool_calls"; "include"] ->
  member k (responses.forced ms) = member k ms.
Proof.
  intros Hn. repeat (apply not_elem_of_cons in Hn as [? Hn]).
  unfold responses.forced.
  now rewrite !member_put_member_ne by congruence.
Qed.

Lemma occurrences_forced k ms :
  k ∉ ["stream"; "store"; "parallel_tool_calls"; "include"] ->
  occurrences k (responses.forced ms) = occurrences k ms.
Proof.
  intros Hn. repeat (apply not_elem_of_cons in Hn as [? Hn]).
  unfold responses.forced.
  now rewrite !occurrences_put_member_ne by congruence.
Qed.

Lemma member_stripped k ms :
  k ∉ responses.deleted_names ->
  member k (responses.stripped ms) = member k ms.
Proof.
  intros Hn. unfold responses.deleted_names in Hn.
  repeat (apply not_elem_of_cons in Hn as [? Hn]).
  unfold responses.stripped. cbn [fold_left responses.deleted_names].
  now rewrite !member_del_member_ne by congruence.
Qed.

Lemma occurrences_stripped k ms :
  occurrences k (responses.stripped ms)
  = if bool_decide (k ∈ responses.deleted_names)
    then pred (occurrences k ms) else occurrences k ms.
Proof.
  unfold responses.stripped. cbn [fold_left responses.deleted_names].
  destruct (bool_decide_reflect (k ∈ responses.deleted_names)) as [Hin|Hn].
  - unfold responses.deleted_names in Hin.
    repeat (apply elem_of_cons in Hin as [->|Hin]);
      [.. | now apply elem_of_nil in Hin];
      repeat first [ rewrite occurrences_del_member_ne by discriminate
                   | rewrite occurrences_del_member_eq ];
      reflexivity.
  - unfold responses.deleted_names in Hn.
    repeat (apply not_elem_of_cons in Hn as [? Hn]).
    now rewrite !occurrences_del_member_ne by congruence.
Qed.

Lemma forced_values ms :
  let ms' := responses.stripped (responses.forced ms) in
  member "stream" ms' = Some JTrue /\
  member "store" ms' = Some JFalse /\
  member "parallel_tool_calls" ms' = Some JTrue /\
  member "include" ms'
  = Some (JArray None [JString "reasoning.encrypted_content"]).
Proof.
  cbv zeta.
  rewrite !member_stripped
    by (unfold responses.deleted_names; repeat (apply not_elem_of_cons; split);
        (discriminate || apply not_elem_of_nil)).
  unfold responses.forced.
  repeat split;
    repeat (rewrite member_put_member_ne by discriminate);
    apply member_put_member_eq.
Qed.

End normalizer_members.

(** ** Runs of the normalizer that change nothing in [input] *)

Section normalizer_runs.

Implicit Types (ms : list (string * json)) (l : list json) (t : jtext).

Lemma role_steps_noop t (ixs : list nat) :
  (forall i, i ∈ ixs ->
     gjson.String_ (gjson.GetR t (responses.rolePath i)) <> "system") ->
  fold_left responses.role_step ixs t = t.
Proof.
  induction ixs as [|i ixs IH]; intros H; [reflexivity |].
  assert (E : responses.role_step t i = t).
  { unfold responses.role_step.
    destruct (String.eqb_spec
                (gjson.String_ (gjson.GetR t (responses.rolePath i))) "system")
      as [E|_]; [| reflexivity].
    exfalso. apply (H i); [apply list_elem_of_here | exact E]. }
  cbn [fold_left]. rewrite E. apply IH.
  intros j Hj. apply H. now apply list_elem_of_further.
Qed.

Lemma convertSystemRoleToDeveloper_noop t :
  (forall i, i < length (gjson.Array (gjson.GetR t "input")) ->
     gjson.String_ (gjson.GetR t (responses.rolePath i)) <> "system") ->
  responses.convertSystemRoleToDeveloper t = t.
Proof.
  intros H. unfold responses.convertSystemRoleToDeveloper. cbv zeta.
  destruct (negb _); [reflexivity |].
  apply role_steps_noop. intros i Hi. apply H.
  apply elem_of_seq in Hi. lia.
Qed.

Lemma callID_steps_noop t (ixs : list (nat * json)) :
  forall c : gmap string string,
    cache_ok c ->
    Forall (fun ix => norm_id (gjson.String_ (gjson.Get ix.2 "call_id"))
                      = gjson.String_ (gjson.Get ix.2 "call_id")) ixs ->
    exists c', fold_left responses.callID_step ixs (t, Some c) = (t, Some c') /\
               cache_ok c'.
Proof.
  induction ixs as [|[i it] ixs IH]; intros c Hc HF; [eauto |].
  apply Forall_cons in HF as [Hx HF]. cbn [snd] in Hx.
  assert (E : exists c1, responses.callID_step (t, Some c) (i, it)
                         = (t, Some c1) /\ cache_ok c1).
  { unfold responses.callID_step.
    destruct (String.eqb_spec (gjson.String_ (gjson.Get it "call_id")) "");
      [eauto |].
    destruct (responses_normalizeCallID_ok
                c (gjson.String_ (gjson.Get it "call_id")) Hc)
      as (c1 & -> & Hc1).
    rewrite Hx, String.eqb_refl. eauto. }
  destruct E as (c1 & E & Hc1). cbn [fold_left].
  destruct (IH c1 Hc1 HF) as (c' & E' & Hc').
  exists c'. split; [| exact Hc'].
  etransitivity; [| exact E']. f_equal. exact E.
Qed.

Lemma Forall_combine_snd {A B} (P : B -> Prop) (l : list B) :
  Forall P l -> forall a : list A, Forall (fun ix => P ix.2) (combine a l).
Proof.
  induction 1 as [|x l Hx _ IH]; intros [|y a]; simpl; constructor; auto.
Qed.

Lemma normalizeInputCallIDs_noop t :
  Forall (fun it => norm_id (gjson.String_ (gjson.Get it "call_id"))
                    = gjson.String_ (gjson.Get it "call_id"))
         (gjson.Array (gjson.GetR t "input")) ->
  responses.normalizeInputCallIDs t = t.
Proof.
  intros H. unfold responses.normalizeInputCallIDs. cbv zeta.
  destruct (negb _); [reflexivity |].
  destruct (callID_steps_noop t
              (responses.indexed (gjson.Array (gjson.GetR t "input")))
              ∅ cache_ok_empty) as (c' & E & _).
  { unfold responses.indexed.
    apply (Forall_combine_snd
             (fun it => norm_id (gjson.String_ (gjson.Get it "call_id"))
                        = gjson.String_ (gjson.Get it "call_id"))).
    exact H. }
  apply (f_equal fst) in E. exact E.
Qed.

(** Reading the role of an item of [input]. *)
Lemma read_role_found ms (sa : option string) l (i : nat) it v :
  member "input" ms = Some (JArray sa l) -> l !! i = Some it ->
  gjson.child "role" it = Some v ->
  gjson.GetR (Some (JObject None ms)) (responses.rolePath i) = Some v.
Proof.
  intros Hm Hi Hv. cbn [gjson.GetR]. unfold gjson.Get. rewrite parts_rolePath.
  apply (get_path_step _ (JArray sa l) v); [exact Hm |].
  apply (get_path_step _ it v); [| now rewrite get_path_one].
  cbn [gjson.child]. rewrite parseUint_Itoa. exact Hi.
Qed.

Lemma read_role_once ms (sa : option string) l (i : nat) it :
  member "input" ms = Some (JArray sa l) -> l !! i = Some it ->
  occurrences "input" ms <= 1 ->
  gjson.GetR (Some (JObject None ms)) (responses.rolePath i)
  = gjson.child "role" it.
Proof.
  intros Hm Hi Ho. cbn [gjson.GetR]. unfold gjson.Get. rewrite parts_rolePath.
  rewrite get_path_once by exact Ho. rewrite Hm. cbn [mbind option_bind].
  rewrite get_path_array, parseUint_Itoa. cbn [mbind option_bind].
  rewrite Hi. apply get_path_one.
Qed.

(** The two loops on settled items. *)
Lemma loops_settled ms (sa : option string) l :
  member "input" ms = Some (JArray sa l) ->
  Forall settled l ->
  Forall (fun it => gjson.child "role" it <> None) l \/
  occurrences "input" ms <= 1 ->
  responses.normalizeInputCallIDs
    (responses.convertSystemRoleToDeveloper (Some (JObject None ms)))
  = Some (JObject None ms).
Proof.
  intros Hm Hs Hr.
  assert (Hin : gjson.GetR (Some (JObject None ms)) "input"
                = Some (JArray sa l))
    by (cbn [gjson.GetR]; now rewrite Get_member).
  rewrite convertSystemRoleToDeveloper_noop.
  - apply normalizeInputCallIDs_noop. rewrite Hin. cbn [gjson.Array].
    eapply Forall_impl; [exact Hs |]. now intros it [_ H].
  - rewrite Hin. cbn [gjson.Array]. intros i Hi.
    destruct (lookup_lt_is_Some_2 l i Hi) as [it Hit].
    destruct (proj1 (Forall_lookup _ _) Hs i it Hit) as [Hrole _].
    rewrite (Get_plain it "role") in Hrole by reflexivity.
    destruct Hr as [Hr | Ho].
    + pose proof (proj1 (Forall_lookup _ _) Hr i it Hit) as Hv.
      destruct (gjson.child "role" it) as [v|] eqn:Ev; [| contradiction].
      now rewrite (read_role_found ms sa l i it v Hm Hit Ev).
    + now rewrite (read_role_once ms sa l i it Hm Hit Ho).
Qed.

Lemma normalizer_settled (modelName : string) (s sa : option string) ms
    (b : bool) l :
  member "input" ms = Some (JArray sa l) ->
  Forall settled l ->
  Forall (fun it => gjson.child "role" it <> None) l \/
  occurrences "input" ms <= 1 ->
  responses.ConvertOpenAIResponsesRequestToCodex modelName (JObject s ms) b
  = Some (JObject None (responses.stripped (responses.forced ms))).
Proof.
  intros Hm Hs Hr. rewrite normalizer_head by now rewrite Hm.
  apply (loops_settled _ sa l); [now rewrite member_input_head | exact Hs |].
  destruct Hr as [Hr | Ho]; [now left | right].
  now rewrite occurrences_input_head.
Qed.

Lemma normalizer_other (modelName : string) (s : option string) ms (b : bool) :
  gjson.IsString (member "input" ms) = false ->
  gjson.IsArray (member "input" ms) = false ->
  responses.ConvertOpenAIResponsesRequestToCodex modelName (JObject s ms) b
  = Some (JObject None (responses.stripped (responses.forced ms))).
Proof.
  intros Hs Ha. rewrite normalizer_head by exact Hs.
  unfold responses.normalizeInputCallIDs, responses.convertSystemRoleToDeveloper.
  cbv zeta. cbn [gjson.GetR]. rewrite !Get_member by reflexivity.
  rewrite member_input_head, Ha. cbn [negb].
  cbn [gjson.GetR]. rewrite !Get_member by reflexivity.
  rewrite member_input_head, Ha. reflexivity.
Qed.

Lemma normalizer_head_string (modelName : string) (s : option string) ms
    (b : bool) (str : string) :
  member "input" ms = Some (JString str) ->
  responses.ConvertOpenAIResponsesRequestToCodex modelName (JObject s ms) b
  = responses.normalizeInputCallIDs
      (responses.convertSystemRoleToDeveloper
         (Some (JObject None
                  (set_member "input" (responses.wrapped_input str)
                     (responses.stripped (responses.forced ms)))))).
Proof.
  intros Hm. rewrite <- stripped_forced_set_member.
  unfold responses.ConvertOpenAIResponsesRequestToCodex. cbv zeta.
  cbn [gjson.GetR]. rewrite (Get_member s ms "input") by reflexivity.
  rewrite Hm. cbn [gjson.IsString gjson.String_].
  change (sjson.Set_ responses.wrapped_input_template "0.content.0.text"
            (GoString str))
    with (Some (responses.wrapped_input str)).
  change (sjson.SetRaw ?t "input" (Some ?w)) with (sjson.splice t "input" w).
  change (sjson.Set_ ?t "stream" (GoBool true))
    with (sjson.splice t "stream" JTrue).
  change (sjson.Set_ ?t "store" (GoBool false))
    with (sjson.splice t "store" JFalse).
  change (sjson.Set_ ?t "parallel_tool_calls" (GoBool true))
    with (sjson.splice t "parallel_tool_calls" JTrue).
  change (sjson.Set_ ?t "include"
            (GoSlice [GoString "reasoning.encrypted_content"]))
    with (sjson.splice t "include"
            (JArray None [JString "reasoning.encrypted_content"])).
  rewrite !splice_object by (reflexivity || discriminate).
  rewrite !Delete_object by reflexivity.
  unfold put_member at 5. rewrite Hm. reflexivity.
Qed.

Lemma wrapped_settled (str : string) :
  exists it, responses.wrapped_input str = JArray None [it] /\
             settled it /\ gjson.child "role" it <> None.
Proof.
  eexists. split; [reflexivity |]. split; [split |]; discriminate || reflexivity.
Qed.

Lemma normalizer_string (modelName : string) (s : option string) ms
    (b : bool) (str : string) :
  member "input" ms = Some (JString str) ->
  responses.ConvertOpenAIResponsesRequestToCodex modelName (JObject s ms) b
  = Some (JObject None
            (set_member "input" (responses.wrapped_input str)
               (responses.stripped (responses.forced ms)))).
Proof.
  intros Hm. rewrite (normalizer_head_string _ _ _ _ str Hm).
  destruct (wrapped_settled str) as (it & E & Hs & Hr). rewrite E.
  apply (loops_settled _ None [it]).
  - apply member_set_member_eq. rewrite member_input_head, Hm. eauto.
  - now constructor.
  - left. now constructor.
Qed.

(** The shape of every output. *)
Lemma normalizer_shape (modelName : string) (s : option string) ms (b : bool) :
  exists V,
    responses.ConvertOpenAIResponsesRequestToCodex modelName (JObject s ms) b
    = Some (JObject None
              (set_member "input" V
                 (responses.stripped (responses.forced ms)))).
Proof.
  destruct (member "input" ms) as [v|] eqn:Hm.
  - destruct (gjson.IsString (Some v)) eqn:Hs.
    { destruct v as [| | | | str | |]; try discriminate Hs.
      exists (responses.wrapped_input str). apply normalizer_string. exact Hm. }
    destruct (gjson.IsArray (Some v)) eqn:Ha.
    { destruct v as [| | | | | sa l |]; try discriminate Ha.
      destruct (normalizer_output modelName s sa ms b l Hm)
        as (sa' & cur & E & _).
      eauto. }
    exists v. rewrite normalizer_other by now rewrite Hm.
    now rewrite set_member_same by now rewrite member_input_head.
  - exists JNull. rewrite normalizer_other by now rewrite Hm.
    now rewrite set_member_absent by now rewrite member_input_head.
Qed.

Lemma fix_call_id_settled y :
  let z := responses.fix_call_id y in
  norm_id (gjson.String_ (gjson.Get z "call_id"))
  = gjson.String_ (gjson.Get z "call_id").
Proof.
  cbv zeta. unfold responses.fix_call_id. cbv zeta.
  set (id := gjson.String_ (gjson.Get y "call_id")).
  destruct (String.eqb_spec id "") as [E|E]; [fold id; now rewrite E |].
  destruct (String.eqb_spec (norm_id id) id) as [E'|E']; [fold id; exact E' |].
  assert (Hold : exists old, gjson.child "call_id" y = Some old).
  { subst id. rewrite (Get_plain y "call_id") in E by reflexivity.
    destruct (gjson.child "call_id" y); [eauto | contradiction]. }
  destruct Hold as [old Hold].
  destruct (child_member y "call_id" old eq_refl Hold) as (s & ims & -> & Hm).
  cbn [sjson.replace_child]. rewrite Get_member by reflexivity.
  rewrite member_set_member_eq by eauto. cbn [gjson.String_].
  destruct (String.eqb id "" || (String.length id <=? 64)%nat) eqn:Hc.
  { exfalso. apply E'. unfold norm_id. now rewrite Hc. }
  destruct (norm_id_long id Hc) as [Hlen Hn].
  rewrite Hn, coerce_shortenCallID by exact Hlen.
  rewrite <- Hn. apply norm_id_idem.
Qed.

Lemma fixed_settled it c :
  role_kept True it c -> settled (responses.fix_call_id c).
Proof.
  intros [_ Hk]. split; [| apply fix_call_id_settled].
  rewrite fix_call_id_role, (Hk (or_intror I)), fix_role_role.
  destruct (String.eqb_spec (gjson.String_ (gjson.Get it "role")) "system");
    [discriminate | assumption].
Qed.

Lemma head_fixed ms :
  (forall k, k ∈ responses.deleted_names -> occurrences k ms <= 1) ->
  let M := responses.stripped (responses.forced ms) in
  responses.stripped (responses.forced M) = M.
Proof.
  intros Ho M.
  destruct (forced_values ms) as (H1 & H2 & H3 & H4). fold M in H1, H2, H3, H4.
  assert (Hf : responses.forced M = M).
  { unfold responses.forced.
    rewrite (put_member_same "stream" _ _ H1).
    rewrite (put_member_same "store" _ _ H2).
    rewrite (put_member_same "parallel_tool_calls" _ _ H3).
    now rewrite (put_member_same "include" _ _ H4). }
  rewrite Hf.
  assert (Hd : forall k, k ∈ responses.deleted_names -> member k M = None).
  { intros k Hk. apply occurrences_zero. unfold M.
    rewrite occurrences_stripped, bool_decide_true by exact Hk.
    rewrite occurrences_forced.
    - specialize (Ho k Hk). lia.
    - unfold responses.deleted_names in Hk.
      repeat (apply elem_of_cons in Hk as [->|Hk]);
        [.. | now apply elem_of_nil in Hk];
        repeat (apply not_elem_of_cons; split); try discriminate;
        apply not_elem_of_nil. }
  unfold responses.stripped. cbn [fold_left responses.deleted_names].
  assert (Hd' : forall k, k ∈ responses.deleted_names -> del_member k M = M)
    by (intros k Hk; apply del_member_absent, Hd, Hk).
  rewrite (Hd' "max_output_tokens"), (Hd' "max_completion_tokens"),
    (Hd' "temperature"), (Hd' "top_p"), (Hd' "service_tier"), (Hd' "user");
    [reflexivity | ..];
    unfold responses.deleted_names;
    repeat first [apply list_elem_of_here | apply list_elem_of_further].
Qed.

End normalizer_runs.
(** ** What the normalizer does to a request object *)

(** X1: whatever the request object holds, the output of the normalizer
    is an object with [stream = true], [store = false],
    [parallel_tool_calls = true] and
    [include = ["reasoning.encrypted_content"]]. *)
Theorem normalizer_forces_fields (modelName : string) (s : option string)
    (ms : list (string * json)) (b : bool) :
  exists ms',
    responses.ConvertOpenAIResponsesRequestToCodex modelName (JObject s ms) b
    = Some (JObject None ms') /\
    member "stream" ms' = Some JTrue /\
    member "store" ms' = Some JFalse /\
    member "parallel_tool_calls" ms' = Some JTrue /\
    member "include" ms'
    = Some (JArray None [JString "reasoning.encrypted_content"]).
Proof.
  destruct (normalizer_shape modelName s ms b) as [V E].
  eexists. split; [exact E |].
  rewrite !member_set_member_ne by discriminate.
  apply forced_values.
Qed.

(** X2: of each of the six names the normalizer deletes, the output has
    one member less than the request; so the field is absent from the
    output when the request has it at most once. *)
Theorem normalizer_deletes_fields (modelName : string) (s : option string)
    (ms : list (string * json)) (b : bool) (k : string) :
  k ∈ responses.deleted_names ->
  exists ms',
    responses.ConvertOpenAIResponsesRequestToCodex modelName (JObject s ms) b
    = Some (JObject None ms') /\
    occurrences k ms' = pred (occurrences k ms) /\
    (occurrences k ms <= 1 -> member k ms' = None).
Proof.
  intros Hk. destruct (normalizer_shape modelName s ms b) as [V E].
  eexists. split; [exact E |].
  assert (Ho : occurrences k
                 (set_member "input" V
                    (responses.stripped (responses.forced ms)))
               = pred (occurrences k ms)).
  { rewrite occurrences_set_member, occurrences_stripped.
    rewrite bool_decide_true by exact Hk. f_equal.
    apply occurrences_forced.
    unfold responses.deleted_names in Hk.
    repeat (apply elem_of_cons in Hk as [->|Hk]);
      [.. | now apply elem_of_nil in Hk];
      repeat (apply not_elem_of_cons; split); try discriminate;
      apply not_elem_of_nil. }
  split; [exact Ho |].
  intros H1. apply occurrences_zero. rewrite Ho. lia.
Qed.

Lemma normalizer_deletes_fields_witness :
  exists ms',
    responses.ConvertOpenAIResponsesRequestToCodex
      "gpt-5.2" plain_request false = Some (JObject None ms') /\
    member "user" ms' = None.
Proof.
  destruct (normalizer_deletes_fields
              "gpt-5.2" (Some (compact (obj plain_members))) plain_members
              false "user")
    as (ms' & E & _ & H).
  - unfold responses.deleted_names.
    repeat first [apply list_elem_of_here | apply list_elem_of_further].
  - exists ms'. split; [exact E |]. apply H. vm_compute. repeat constructor.
Defined.

(** X3: a member under any other name than the four the normalizer
    writes, the six it deletes and [input] is in the output as it is in
    the request, as many times. *)
Theorem normalizer_keeps_other_fields (modelName : string)
    (s : option string) (ms : list (string * json)) (b : bool) (k : string) :
  k ∉ responses.written_names ++ responses.deleted_names ->
  exists ms',
    responses.ConvertOpenAIResponsesRequestToCodex modelName (JObject s ms) b
    = Some (JObject None ms') /\
    member k ms' = member k ms /\
    occurrences k ms' = occurrences k ms.
Proof.
  intros Hk. destruct (normalizer_shape modelName s ms b) as [V E].
  eexists. split; [exact E |].
  apply not_elem_of_app in Hk as [Hw Hd].
  assert (Hf : k ∉ ["stream"; "store"; "parallel_tool_calls"; "include"]).
  { unfold responses.written_names in Hw.
    repeat (apply not_elem_of_cons in Hw as [? Hw]).
    repeat (apply not_elem_of_cons; split); assumption. }
  assert (Hi : "input" <> k).
  { unfold responses.written_names in Hw.
    repeat (apply not_elem_of_cons in Hw as [? Hw]). congruence. }
  split.
  - rewrite member_set_member_ne by exact Hi.
    now rewrite member_stripped, member_forced.
  - rewrite occurrences_set_member, occurrences_stripped.
    rewrite bool_decide_false by exact Hd. now apply occurrences_forced.
Qed.

Lemma normalizer_keeps_other_fields_witness :
  exists ms',
    responses.ConvertOpenAIResponsesRequestToCodex
      "gpt-5.2" plain_request false = Some (JObject None ms') /\
    member "tools" ms'
    = Some (parsed (arr [obj [("type", JString "web_search")]])).
Proof.
  destruct (normalizer_keeps_other_fields
              "gpt-5.2" (Some (compact (obj plain_members))) plain_members
              false "tools")
    as (ms' & E & H & _).
  - unfold responses.written_names, responses.deleted_names. cbn [app].
    repeat (apply not_elem_of_cons; split); try discriminate.
    apply not_elem_of_nil.
  - exists ms'. split; [exact E | exact H].
Defined.

(** X4: a request whose [input] is a bare string comes out with [input]
    the array of one [user] message with one [input_text] part that
    carries the string, the other members being what the writes and
    deletions leave. *)
Theorem normalizer_wraps_string_input (modelName : string)
    (s : option string) (ms : list (string * json)) (b : bool)
    (str : string) :
  member "input" ms = Some (JString str) ->
  let out := responses.ConvertOpenAIResponsesRequestToCodex
               modelName (JObject s ms) b in
  out = Some (JObject None
                (set_member "input" (responses.wrapped_input str)
                   (responses.stripped (responses.forced ms)))) /\
  gjson.GetR out "input"
  = Some (JArray None
            [JObject None
               [("type", JString "message"); ("role", JString "user");
                ("content",
                 JArray None
                   [JObject None [("type", JString "input_text");
                                  ("text", JString (utf8.coerce str))]])]]).
Proof.
  intros Hm out. unfold out. rewrite (normalizer_string _ _ _ _ str Hm).
  split; [reflexivity |].
  cbn [gjson.GetR]. rewrite Get_member by reflexivity.
  apply member_set_member_eq. rewrite member_input_head, Hm. eauto.
Qed.

Lemma normalizer_wraps_string_input_witness :
  gjson.GetR (responses.ConvertOpenAIResponsesRequestToCodex
                "gpt-5.2" (JObject None string_members) false) "input"
  = Some (JArray None
            [JObject None
               [("type", JString "message"); ("role", JString "user");
                ("content",
                 JArray None
                   [JObject None [("type", JString "input_text");
                                  ("text", JString "Say hi")]])]]).
Proof.
  exact (proj2 (normalizer_wraps_string_input
                  "gpt-5.2" None string_members false "Say hi" eq_refl)).
Defined.

(** X5: for a request whose [input] is an array and occurs once, the
    output is the request after the writes and deletions with, in
    [input], every item after the two corrections.  An item whose role
    does not read [system] and whose call identifier needs no shortening
    is left as it is, and the corrections touch no member of an item but
    [role] and [call_id]. *)
Theorem normalizer_corrects_items (modelName : string) (s sa : option string)
    (ms : list (string * json)) (b : bool) (l : list json) :
  member "input" ms = Some (JArray sa l) -> occurrences "input" ms <= 1 ->
  (exists sa',
     responses.ConvertOpenAIResponsesRequestToCodex modelName (JObject s ms) b
     = Some (JObject None
               (set_member "input"
                  (JArray sa'
                     (map (fun it => responses.fix_call_id
                                       (responses.fix_role it)) l))
                  (responses.stripped (responses.forced ms))))) /\
  forall it,
    (settled it -> responses.fix_call_id (responses.fix_role it) = it) /\
    (forall k, k <> "role" -> k <> "call_id" -> gjson.parseUint k = None ->
       gjson.child k (responses.fix_call_id (responses.fix_role it))
       = gjson.child k it).
Proof.
  intros Hm Ho. split.
  - destruct (normalizer_output modelName s sa ms b l Hm)
      as (sa' & cur & E & Hk).
    exists sa'. rewrite E.
    assert (Hc : map responses.fix_call_id cur
                 = map (fun it => responses.fix_call_id (responses.fix_role it))
                       l).
    { clear E Hm. induction Hk as [|it c l cur [_ H] _ IH]; [reflexivity |].
      cbn [map]. now rewrite IH, (H (or_intror Ho)). }
    now rewrite Hc.
  - intros it. split.
    + intros [Hr Hc].
      assert (E : responses.fix_role it = it).
      { unfold responses.fix_role.
        now destruct (String.eqb_spec (gjson.String_ (gjson.Get it "role"))
                        "system"). }
      rewrite E. unfold responses.fix_call_id. cbv zeta.
      rewrite Hc, String.eqb_refl.
      now destruct (String.eqb _ "").
    + intros k H1 H2 Hk.
      transitivity (gjson.child k (responses.fix_role it)).
      * unfold responses.fix_call_id. cbv zeta.
        destruct (String.eqb _ ""); [reflexivity |].
        destruct (String.eqb _ _); [reflexivity |].
        apply replace_child_frame; [congruence | reflexivity].
      * unfold responses.fix_role.
        destruct (String.eqb _ "system"); [| reflexivity].
        apply replace_child_frame; [congruence | reflexivity].
Qed.

Lemma normalizer_corrects_items_witness :
  exists sa',
    responses.ConvertOpenAIResponsesRequestToCodex
      "gpt-5.2" responses_request false
    = Some (JObject None
              (set_member "input"
                 (JArray sa'
                    (map (fun it => responses.fix_call_id
                                      (responses.fix_role it)) sample_items))
                 (responses.stripped (responses.forced responses_members)))).
Proof.
  apply (proj1 (normalizer_corrects_items
                  "gpt-5.2" (Some (compact (obj responses_members)))
                  (Some (compact (arr sample_items))) responses_members false
                  sample_items eq_refl ltac:(vm_compute; repeat constructor))).
Defined.

(** X6: where each of the six deleted names and [input] occur at most
    once in the request, a second run of the normalizer, on the document
    the first run returns, returns that document.  The document is passed
    on as the first run left it: a container that sjson wrote carries no
    text of its own, and the second run asks for the text of none. *)
Theorem normalizer_idempotent_once (modelName modelName' : string)
    (s : option string) (ms : list (string * json)) (b b' : bool) :
  (forall k, k ∈ responses.deleted_names -> occurrences k ms <= 1) ->
  occurrences "input" ms <= 1 ->
  forall out,
    responses.ConvertOpenAIResponsesRequestToCodex modelName (JObject s ms) b
    = Some out ->
    responses.ConvertOpenAIResponsesRequestToCodex modelName' out b'
    = Some out.
Proof.
  intros Hd Ho out E.
  set (M := responses.stripped (responses.forced ms)) in *.
  assert (HM : forall V,
            responses.stripped (responses.forced (set_member "input" V M))
            = set_member "input" V M).
  { intros V. rewrite stripped_forced_set_member. f_equal.
    now apply head_fixed. }
  assert (HoM : forall V, occurrences "input" (set_member "input" V M) <= 1).
  { intros V. unfold M.
    now rewrite occurrences_set_member, occurrences_input_head. }
  destruct (member "input" ms) as [v|] eqn:Hm.
  - destruct (gjson.IsString (Some v)) eqn:Hs.
    { destruct v as [| | | | str | |]; try discriminate Hs.
      rewrite (normalizer_string _ _ _ _ str Hm) in E. injection E as <-.
      fold M. destruct (wrapped_settled str) as (it & Ew & Hst & Hr).
      rewrite (normalizer_settled modelName' None None _ b' [it]).
      + now rewrite HM.
      + rewrite <- Ew. apply member_set_member_eq.
        unfold M. rewrite member_input_head, Hm. eauto.
      + now constructor.
      + right. apply HoM. }
    destruct (gjson.IsArray (Some v)) eqn:Ha.
    { destruct v as [| | | | | sa l |]; try discriminate Ha.
      destruct (normalizer_output modelName s sa ms b l Hm)
        as (sa' & cur & E' & Hk).
      rewrite E' in E. injection E as <-. fold M.
      rewrite (normalizer_settled modelName' None sa' _ b'
                 (map responses.fix_call_id cur)).
      + now rewrite HM.
      + apply member_set_member_eq.
        unfold M. rewrite member_input_head, Hm. eauto.
      + apply Forall_fmap.
        apply (Forall2_Forall_r _ _ _ _ Hk).
        apply Forall_forall. intros it _ c [_ H]. split.
        * rewrite fix_call_id_role, (H (or_intror Ho)), fix_role_role.
          destruct (String.eqb_spec (gjson.String_ (gjson.Get it "role"))
                      "system"); [discriminate | assumption].
        * apply fix_call_id_settled.
      + right. apply HoM. }
    rewrite normalizer_other in E by now rewrite Hm.
    injection E as <-. fold M.
    rewrite normalizer_other.
    + f_equal. f_equal. now apply head_fixed.
    + unfold M. now rewrite member_input_head, Hm.
    + unfold M. now rewrite member_input_head, Hm.
  - rewrite normalizer_other in E by now rewrite Hm.
    injection E as <-. fold M.
    rewrite normalizer_other.
    + f_equal. f_equal. now apply head_fixed.
    + unfold M. now rewrite member_input_head, Hm.
    + unfold M. now rewrite member_input_head, Hm.
Qed.

Lemma normalizer_idempotent_once_witness :
  exists out,
    responses.ConvertOpenAIResponsesRequestToCodex
      "gpt-5.2" plain_request false = Some out /\
    responses.ConvertOpenAIResponsesRequestToCodex "gpt-5.2" out false
    = Some out.
Proof.
  destruct (normalizer_shape "gpt-5.2" (Some (compact (obj plain_members)))
              plain_members false) as [V E].
  eexists. split; [exact E |].
  apply (normalizer_idempotent_once
           "gpt-5.2" "gpt-5.2" (Some (compact (obj plain_members)))
           plain_members false false); [| | exact E].
  - intros k Hk. unfold responses.deleted_names in Hk.
    repeat (apply elem_of_cons in Hk as [->|Hk]);
      [.. | now apply elem_of_nil in Hk];
      vm_compute; repeat constructor.
  - vm_compute. repeat constructor.
Defined.
(** ** The other members of the converter's output *)

Section converter_members.

Lemma convert_frame (modelName : string) rawJSON (stream : bool)
    (k' : string) :
  parts k' = [k'] -> gjson.parseUint k' = None ->
  k' ∉ ["input"; "text"; "tools"; "tool_choice"; "store"] ->
  gjson.GetR (chat_completions.ConvertOpenAIRequestToCodex
                modelName rawJSON stream) k'
  = keep (chat_completions.writes_ok rawJSON)
         (gjson.GetR (chat_completions.preamble modelName rawJSON stream) k').
Proof.
  intros Hp Hk Hn. repeat (apply not_elem_of_cons in Hn as [? Hn]).
  unfold chat_completions.ConvertOpenAIRequestToCodex. cbv zeta.
  rewrite later_phases_frame by assumption.
  rewrite map_response_format_frame by assumption.
  f_equal.
  apply (build_input_preserved
           (fun t => gjson.GetR t k'
                     = gjson.GetR (chat_completions.preamble
                                     modelName rawJSON stream) k'));
    [apply preserved_read; (assumption || congruence) | reflexivity].
Qed.

Lemma preamble_eq (modelName : string) rawJSON (stream : bool) :
  chat_completions.writable (gjson.Get rawJSON "reasoning_effort") = true ->
  chat_completions.preamble modelName rawJSON stream
  = Some (JObject None
            [("instructions", JString ""); ("stream", JBool stream);
             ("reasoning",
              JObject None
                [("effort",
                  default (JString "medium")
                    (chat_completions.copied
                       (gjson.Get rawJSON "reasoning_effort")));
                 ("summary", JString "auto")]);
             ("parallel_tool_calls", JTrue);
             ("include", JArray None [JString "reasoning.encrypted_content"]);
             ("model", JString (utf8.coerce modelName))]).
Proof.
  intros Hw. unfold chat_completions.preamble, chat_completions.copied.
  cbv zeta.
  destruct (gjson.Get rawJSON "reasoning_effort") as [v|];
    cbn [mbind option_bind default from_option id].
  - cbn [chat_completions.writable] in Hw. apply bool_decide_eq_true in Hw.
    destruct Hw as [e He]. unfold sjson.Set_ at 5. rewrite He.
    cbn [default from_option id]. now destruct stream.
  - now destruct stream.
Qed.

End converter_members.

(** X7: every output of the converter has [store = false]. *)
Theorem converter_store_false (modelName : string) (rawJSON : json)
    (stream : bool) :
  gjson.GetR (chat_completions.ConvertOpenAIRequestToCodex
                modelName rawJSON stream) "store"
  = Some JFalse.
Proof.
  unfold chat_completions.ConvertOpenAIRequestToCodex. cbv zeta.
  change (sjson.Set_ ?t "store" (GoBool false))
    with (sjson.splice t "store" JFalse).
  destruct (splice_objish _ "store" JFalse
              (convert_objish modelName rawJSON stream))
    as (ms & -> & Hm); try reflexivity; [discriminate |].
  cbn [gjson.GetR]. now rewrite Get_member.
Qed.

(** X8: where the value of [reasoning_effort] and the values copied by
    the response-format step can be written, the output has the members
    the converter starts from: the empty [instructions], [stream] as
    given, [reasoning] with the requested effort ([medium] when the
    request has none) and the summary [auto], [parallel_tool_calls],
    [include] and the model name. *)
Theorem converter_fixed_fields (modelName : string) (rawJSON : json)
    (stream : bool) :
  chat_completions.writable (gjson.Get rawJSON "reasoning_effort") = true ->
  chat_completions.writes_ok rawJSON = true ->
  let out := chat_completions.ConvertOpenAIRequestToCodex
               modelName rawJSON stream in
  gjson.GetR out "instructions" = Some (JString "") /\
  gjson.GetR out "stream" = Some (JBool stream) /\
  gjson.GetR out "reasoning"
  = Some (JObject None
            [("effort",
              default (JString "medium")
                (chat_completions.copied
                   (gjson.Get rawJSON "reasoning_effort")));
             ("summary", JString "auto")]) /\
  gjson.GetR out "parallel_tool_calls" = Some JTrue /\
  gjson.GetR out "include"
  = Some (JArray None [JString "reasoning.encrypted_content"]) /\
  gjson.GetR out "model" = Some (JString (utf8.coerce modelName)).
Proof.
  intros Hr Hw out. unfold out.
  rewrite !convert_frame
    by first [ reflexivity
             | repeat (apply not_elem_of_cons; split); try discriminate;
               apply not_elem_of_nil ].
  rewrite Hw, (preamble_eq modelName rawJSON stream Hr).
  clear out. destruct stream; repeat split; reflexivity.
Qed.

Lemma converter_fixed_fields_witness :
  let out := chat_completions.ConvertOpenAIRequestToCodex
               "gpt-5" chat_request true in
  gjson.GetR out "stream" = Some JTrue /\
  gjson.GetR out "reasoning"
  = Some (JObject None [("effort", JString "medium");
                        ("summary", JString "auto")]) /\
  gjson.GetR out "model" = Some (JString "gpt-5").
Proof.
  destruct (converter_fixed_fields "gpt-5" chat_request true eq_refl eq_refl)
    as (_ & H1 & H2 & _ & _ & H3).
  repeat split; assumption.
Defined.
(** ** Tool choice, tools and message content *)

Section converter_phases.

Lemma tools_objish (modelName : string) rawJSON (stream : bool) :
  let names := chat_completions.originalToolNameMap rawJSON in
  objish (chat_completions.map_tools names rawJSON
            (chat_completions.map_response_format rawJSON
               (chat_completions.build_input names rawJSON
                  (chat_completions.preamble modelName rawJSON stream)))).
Proof.
  intros names.
  apply map_tools_preserved; [now apply preserved_objish |].
  apply map_response_format_preserved;
    [exact I | now apply preserved_objish |].
  apply build_input_preserved; [now apply preserved_objish |].
  apply preamble_objish.
Qed.

Lemma read_written t (k : string) (v : json) :
  objish t -> parts k = [k] -> k <> "" -> sjson.atoui k = None ->
  gjson.GetR (sjson.splice t k v) k = Some v.
Proof.
  intros Ht Hp Hk Ha.
  destruct (splice_objish t k v Ht Hp Hk Ha) as (ms & -> & Hm).
  cbn [gjson.GetR]. now rewrite Get_member.
Qed.

End converter_phases.

(** X9: a [tool_choice] that is a string is copied; an object of type
    [function] becomes [{"type":"function","name":alias}], the name being
    left out when it is empty; an object of another, non-empty type is
    passed through as it is. *)
Theorem converter_tool_choice (modelName : string) (rawJSON : json)
    (stream : bool) (tc : json) :
  gjson.Get rawJSON "tool_choice" = Some tc ->
  let names := chat_completions.originalToolNameMap rawJSON in
  let out := chat_completions.ConvertOpenAIRequestToCodex
               modelName rawJSON stream in
  (forall s, tc = JString s ->
     gjson.GetR out "tool_choice" = Some (JString (utf8.coerce s))) /\
  (gjson.IsObject (Some tc) = true ->
   gjson.String_ (gjson.Get tc "type") = "function" ->
   let name := gjson.String_ (gjson.Get tc "function.name") in
   let alias := if String.eqb name "" then ""
                else chat_completions.mapped_name names name in
   gjson.GetR out "tool_choice"
   = Some (JObject None
             (("type", JString "function")
                :: if String.eqb alias "" then []
                   else [("name", JString (utf8.coerce alias))]))) /\
  (gjson.IsObject (Some tc) = true ->
   gjson.String_ (gjson.Get tc "type") <> "function" ->
   gjson.String_ (gjson.Get tc "type") <> "" ->
   gjson.GetR out "tool_choice" = Some tc).
Proof.
  intros Htc names out. unfold out.
  unfold chat_completions.ConvertOpenAIRequestToCodex. cbv zeta.
  rewrite Set_frame by (reflexivity || discriminate).
  rewrite encodable_bool, keep_true. fold names.
  pose proof (tools_objish modelName rawJSON stream) as Ho.
  cbv zeta in Ho. fold names in Ho. revert Ho.
  generalize (chat_completions.map_tools names rawJSON
                (chat_completions.map_response_format rawJSON
                   (chat_completions.build_input names rawJSON
                      (chat_completions.preamble modelName rawJSON stream)))).
  intros X Ho. unfold chat_completions.map_tool_choice. rewrite Htc.
  split; [| split].
  - intros s ->. cbn [gjson.IsString gjson.String_].
    change (sjson.Set_ X "tool_choice" (GoString s))
      with (sjson.splice X "tool_choice" (JString (utf8.coerce s))).
    now apply read_written.
  - intros Hobj Hty.
    destruct tc; try discriminate Hobj. cbn [gjson.IsString gjson.IsObject].
    rewrite Hty. cbn [String.eqb Ascii.eqb Bool.eqb].
    destruct (String.eqb_spec
                (gjson.String_ (gjson.Get (JObject src members)
                                  "function.name")) "") as [->|_];
      cbn [negb String.eqb];
      [| destruct (String.eqb (chat_completions.mapped_name names _) "")];
      cbn [negb];
      match goal with
      | |- gjson.GetR (sjson.SetRaw _ _ ?c) _ = Some ?v =>
          change c with (Some v)
      end;
      now apply read_written.
  - intros Hobj Hty Hne.
    destruct tc; try discriminate Hobj. cbn [gjson.IsString gjson.IsObject].
    destruct (String.eqb_spec
                (gjson.String_ (gjson.Get (JObject src members) "type"))
                "function"); [contradiction |].
    destruct (String.eqb_spec
                (gjson.String_ (gjson.Get (JObject src members) "type")) "");
      [contradiction |].
    cbn [negb]. now apply read_written.
Qed.

Lemma converter_tool_choice_witness :
  gjson.GetR (chat_completions.ConvertOpenAIRequestToCodex
                "gpt-5"
                (parsed (obj [("messages", arr []);
                              ("tool_choice", JString "auto")])) true)
             "tool_choice"
  = Some (JString "auto").
Proof.
  exact (proj1 (converter_tool_choice
                  "gpt-5"
                  (parsed (obj [("messages", arr []);
                                ("tool_choice", JString "auto")])) true
                  (JString "auto") eq_refl) "auto" eq_refl).
Defined.

(** X10: what an entry of [tools] contributes.  A tool of type [function]
    is flattened: [type], then the alias of [function.name], the
    description, the parameters as the document they are and [strict],
    each when the request has it; a tool of another, non-empty type that
    is an object is passed through as it is. *)
Theorem converter_tool_entries (names : gmap string string) (t : json) :
  let toolType := gjson.String_ (gjson.Get t "type") in
  (toolType = "function" ->
   forall fn, gjson.Get t "function" = Some fn ->
     chat_completions.writable (gjson.Get fn "description") = true ->
     chat_completions.writable (gjson.Get fn "strict") = true ->
     chat_completions.tool_entries names t
     = [JObject None
          (("type", JString "function")
             :: chat_completions.opt_member "name"
                  ((fun v => JString (utf8.coerce
                                        (chat_completions.mapped_name names
                                           (gjson.String_ (Some v)))))
                     <$> gjson.Get fn "name")
             ++ chat_completions.opt_member "description"
                  (chat_completions.copied (gjson.Get fn "description"))
             ++ chat_completions.opt_member "parameters"
                  (gjson.Get fn "parameters")
             ++ chat_completions.opt_member "strict"
                  (chat_completions.copied (gjson.Get fn "strict")))]) /\
  (toolType = "function" -> gjson.Get t "function" = None ->
   chat_completions.tool_entries names t
   = [JObject None [("type", JString "function")]]) /\
  (toolType <> "" -> toolType <> "function" ->
   gjson.IsObject (Some t) = true ->
   chat_completions.tool_entries names t = [t]).
Proof.
  intros toolType. unfold chat_completions.tool_entries. cbv zeta.
  fold toolType. split; [| split].
  - intros -> fn Hfn Hd Hs. cbn [String.eqb Ascii.eqb Bool.eqb negb andb].
    unfold chat_completions.function_tool. cbv zeta. rewrite Hfn.
    unfold chat_completions.copied, chat_completions.copy_value,
      chat_completions.copy_raw.
    destruct (gjson.Get fn "description") as [d|];
      [destruct (writable_encode d Hd) as [ed Ed] |];
      (destruct (gjson.Get fn "strict") as [st|];
       [destruct (writable_encode st Hs) as [es Es] |]);
      destruct (gjson.Get fn "name") as [vn|];
      destruct (gjson.Get fn "parameters") as [pa|];
      cbn [mbind option_bind fmap option_fmap option_map];
      unfold sjson.Set_; rewrite ?Ed, ?Es; reflexivity.
  - intros -> Hfn. cbn [String.eqb Ascii.eqb Bool.eqb negb andb].
    unfold chat_completions.function_tool. cbv zeta. now rewrite Hfn.
  - intros H1 H2 ->.
    destruct (String.eqb_spec toolType ""); [contradiction |].
    destruct (String.eqb_spec toolType "function"); [contradiction |].
    reflexivity.
Qed.

Lemma converter_tool_entries_witness :
  chat_completions.tool_entries
    (chat_completions.originalToolNameMap chat_request)
    (parsed (obj [("type", JString "function");
                  ("function", obj [("name", JString "foo");
                                    ("parameters", obj [])])]))
  = [JObject None [("type", JString "function"); ("name", JString "foo");
                   ("parameters", parsed (obj []))]].
Proof.
  exact (proj1 (converter_tool_entries
                  (chat_completions.originalToolNameMap chat_request)
                  (parsed (obj [("type", JString "function");
                                ("function", obj [("name", JString "foo");
                                                  ("parameters", obj [])])])))
               eq_refl _ eq_refl eq_refl eq_refl).
Defined.

(** X11: the [message] item of a message that is no tool response has
    the three members [type], [role] and [content].  A non-empty string
    content gives one text part, [output_text] for an assistant and
    [input_text] otherwise; an array content gives the parts of its
    elements in order: a text part for type [text], an [input_image] for
    type [image_url] in a [user] message only, nothing for any other
    type. *)
Theorem converter_message_item (role : string) (m : json) :
  chat_completions.message_item role m
  = Some (JObject None
            [("type", JString "message");
             ("role", JString (utf8.coerce (if String.eqb role "system"
                                            then "developer" else role)));
             ("content", JArray None (chat_completions.content_parts role m))]) /\
  (forall s, gjson.Get m "content" = Some (JString s) ->
     chat_completions.content_parts role m
     = if String.eqb s "" then []
       else [JObject None
               [("type", JString (if String.eqb role "assistant"
                                  then "output_text" else "input_text"));
                ("text", JString (utf8.coerce s))]]) /\
  (forall src items, gjson.Get m "content" = Some (JArray src items) ->
     chat_completions.content_parts role m
     = flat_map (chat_completions.content_part role) items) /\
  (gjson.IsString (gjson.Get m "content") = false ->
   gjson.IsArray (gjson.Get m "content") = false ->
   chat_completions.content_parts role m = []) /\
  forall it, let t := gjson.String_ (gjson.Get it "type") in
    (t = "text" ->
     chat_completions.content_part role it
     = [JObject None
          [("type", JString (if String.eqb role "assistant"
                             then "output_text" else "input_text"));
           ("text", JString (utf8.coerce
                               (gjson.String_ (gjson.Get it "text"))))]]) /\
    (t = "image_url" -> role = "user" ->
     chat_completions.content_part role it
     = [JObject None
          (("type", JString "input_image")
             :: chat_completions.opt_member "image_url"
                  ((fun u => JString (utf8.coerce (gjson.String_ (Some u))))
                     <$> gjson.Get it "image_url.url"))]) /\
    (t = "image_url" -> role <> "user" ->
     chat_completions.content_part role it = []) /\
    (t <> "text" -> t <> "image_url" ->
     chat_completions.content_part role it = []).
Proof.
  split; [apply message_item_eq |].
  unfold chat_completions.content_parts. cbv zeta.
  split; [| split; [| split]].
  - intros s ->. cbn [gjson.Exists gjson.IsString gjson.IsArray gjson.String_ andb].
    now destruct (String.eqb s "").
  - now intros src items ->.
  - intros -> ->. now rewrite !andb_false_r.
  - intros it. unfold chat_completions.content_part.
    set (t := gjson.String_ (gjson.Get it "type")).
    split; [| split; [| split]].
    + now intros ->.
    + intros -> ->. cbn [String.eqb Ascii.eqb Bool.eqb].
      now destruct (gjson.Get it "image_url.url").
    + intros -> Hr. cbn [String.eqb Ascii.eqb Bool.eqb].
      now destruct (String.eqb_spec role "user").
    + intros H1 H2.
      destruct (String.eqb_spec t "text"); [contradiction |].
      now destruct (String.eqb_spec t "image_url").
Qed.
